(** * gpx-interpolate: a shallow embedding of [gpx-interpolate.py]

    The Python script resamples a GPS track with piecewise cubic Hermite
    splines.  This development embeds the functions of the script as Rocq
    definitions and proves properties of them.

    Numeric model.  The script computes with IEEE binary64 numbers.  Here a
    [float] is a real number, and the functions come in two forms.  In the
    first form the arithmetic is exact: rounding, overflow and underflow
    are not modelled, and the values are those of the script up to
    rounding.  In the second form (module [Fl]) the functions that test a
    computed distance for zero or hand the cumulative distances to the
    interpolator take their arithmetic operations from a record
    [float_ops], so that what is proved of them holds for the rounded
    operations of binary64 on finite values as it does for the exact ones.
    The one place where the script itself manufactures a special value
    ([np.nan] in [gpx_calculate_speed]) is modelled with the type
    [npfloat], which adds [NaN] and the two infinities to the reals. *)

From Stdlib Require Import Reals Lra Lia ZArith String.
From stdpp Require Import base option list strings gmap.

Local Open Scope R_scope.

(** ** Python exceptions and fallible computations *)

Inductive exn : Type :=
  | TypeError
  | IndexError
  | ValueError (msg : string)
  | OverflowError
  | SystemExit (msg : string).

Inductive result (A : Type) : Type :=
  | Ok (a : A)
  | Raise (e : exn).

Arguments Ok {A} a.
Arguments Raise {A} e.

Definition bind {A B : Type} (m : result A) (k : A -> result B) : result B :=
  match m with
  | Ok a => k a
  | Raise e => Raise e
  end.

Declare Scope py_scope.
Delimit Scope py_scope with py.
Notation "'let!' x ':=' m 'in' k" := (bind m (fun x => k))
  (at level 10, x name, m at level 100, k at level 200) : py_scope.
Local Open Scope py_scope.

(** [for i in range(n): acc = body acc i], stopping at the first exception. *)
Fixpoint for_range_from {A : Type} (start n : nat)
    (body : A -> nat -> result A) (acc : A) : result A :=
  match n with
  | O => Ok acc
  | S n' => let! acc' := body acc start in for_range_from (S start) n' body acc'
  end.

Definition for_range {A : Type} (n : nat) (body : A -> nat -> result A)
    (acc : A) : result A :=
  for_range_from 0 n body acc.

(** ** The data model: [GPXData]

    [GPXData = Dict[str, Union[List[float], tzinfo, None]]]: every channel is
    either [None] or a list of floats. *)

Inductive tzinfo : Type :=
  | UTC
  | FixedOffset (seconds : Z).

Definition channel : Type := option (list R).

Record GPXData : Type := mkGPXData {
  lat : channel;
  lon : channel;
  ele : channel;
  tstamp : channel;
  tz : option tzinfo
}.

(** Python truthiness of a channel: [None] and [[]] are false. *)
Definition truthy (c : channel) : bool :=
  match c with
  | Some (_ :: _) => true
  | _ => false
  end.

(** [len(c)]: a [TypeError] on [None]. *)
Definition py_len (c : channel) : result nat :=
  match c with
  | Some l => Ok (length l)
  | None => Raise TypeError
  end.

(** [c[i]] for a non-negative index: [TypeError] on [None], [IndexError] out
    of range. *)
Definition py_get (c : channel) (i : nat) : result R :=
  match c with
  | None => Raise TypeError
  | Some l => match l !! i with
              | Some x => Ok x
              | None => Raise IndexError
              end
  end.

(** ** Globals *)

Definition EARTH_RADIUS : R := 6371 * 10 ^ 3.
Definition EPS : R := / 10 ^ 6.

(** [np.radians]. *)
Definition radians (deg : R) : R := deg * (PI / 180).

(** ** [gpx_calculate_distance] *)

(** The great-circle distance of one step, lines 105-115 of the script; the
    arguments are in degrees. *)
Definition dist_latlon (lat_i lon_i lat_j lon_j : R) : R :=
  let lat1 := radians lat_i in
  let lon1 := radians lon_i in
  let lat2 := radians lat_j in
  let lon2 := radians lon_j in
  let delta_lat := lat2 - lat1 in
  let delta_lon := lon2 - lon1 in
  let c := 2 * asin (sqrt ((sin (delta_lat / 2)) ^ 2
                           + cos lat1 * cos lat2 * (sin (delta_lon / 2)) ^ 2)) in
  EARTH_RADIUS * c.

(** One iteration of the loop of lines 104-121: it reads points [i] and
    [i+1] and stores the distance at index [i+1]. *)
Definition distance_body (gpx_data : GPXData) (use_ele : bool)
    (gpx_dist : list R) (i : nat) : result (list R) :=
  let! lat_i := py_get (lat gpx_data) i in
  let! lon_i := py_get (lon gpx_data) i in
  let! lat_j := py_get (lat gpx_data) (i + 1)%nat in
  let! lon_j := py_get (lon gpx_data) (i + 1)%nat in
  let d := dist_latlon lat_i lon_i lat_j lon_j in
  if truthy (ele gpx_data) && use_ele then
    let! ele_j := py_get (ele gpx_data) (i + 1)%nat in
    let! ele_i := py_get (ele gpx_data) i in
    let dist_ele := ele_j - ele_i in
    Ok (<[(i + 1)%nat := sqrt (d ^ 2 + dist_ele ^ 2)]> gpx_dist)
  else
    Ok (<[(i + 1)%nat := d]> gpx_dist).

Definition gpx_calculate_distance (gpx_data : GPXData) (use_ele : bool)
    : result (list R) :=
  let! n := py_len (lat gpx_data) in
  let gpx_dist := replicate n 0 in
  for_range (length gpx_dist - 1)%nat (distance_body gpx_data use_ele) gpx_dist.

(** ** numpy values and array helpers

    An [npfloat] is a float of a numpy array that may hold IEEE special
    values.  Division follows IEEE 754 on the specials; the sign of a zero
    divisor is not modelled (a zero is [+0]). *)

Inductive npfloat : Type :=
  | Fin (x : R)
  | PosInf
  | NegInf
  | NaN.

(** The largest finite binary64 number, which [np.nan_to_num] substitutes for
    an infinity. *)
Definition DBL_MAX : R := (2 - / 2 ^ 52) * 2 ^ 1023.

(** [a < b] on floats; every comparison with [NaN] is false. *)
Definition np_lt (a : npfloat) (b : R) : bool :=
  match a with
  | Fin x => if Rlt_dec x b then true else false
  | NegInf => true
  | PosInf | NaN => false
  end.

(** [a / b] for a finite dividend. *)
Definition np_div (a : R) (b : npfloat) : npfloat :=
  match b with
  | NaN => NaN
  | PosInf | NegInf => Fin 0
  | Fin y =>
      if Req_dec_T y 0 then
        if Req_dec_T a 0 then NaN
        else if Rlt_dec 0 a then PosInf else NegInf
      else Fin (a / y)
  end.

(** [np.nan_to_num(x, nan=v)] on one element. *)
Definition nan_to_num (v : R) (x : npfloat) : R :=
  match x with
  | Fin r => r
  | NaN => v
  | PosInf => DBL_MAX
  | NegInf => - DBL_MAX
  end.

(** [np.diff(a, prepend=p)]: the differences of consecutive elements of
    [p :: a]. *)
Fixpoint np_diff_prepend (p : R) (a : list R) : list R :=
  match a with
  | [] => []
  | x :: a' => (x - p) :: np_diff_prepend x a'
  end.

(** [arr[arr < bound] = np.nan]. *)
Definition mask_below (bound : R) (arr : list npfloat) : list npfloat :=
  (fun x => if np_lt x bound then NaN else x) <$> arr.

(** Element-wise [a / b] with numpy broadcasting of one-dimensional arrays:
    the lengths agree, or one of them is 1. *)
Definition np_divide (a : list R) (b : list npfloat) : result (list npfloat) :=
  if decide (length a = length b) then Ok (zip_with np_div a b)
  else match a, b with
       | [x], _ => Ok (np_div x <$> b)
       | _, [y] => Ok ((fun x => np_div x y) <$> a)
       | _, _ => Raise (ValueError "operands could not be broadcast together")
       end.

(** [np.cumsum]. *)
Fixpoint cumsum_from (acc : R) (l : list R) : list R :=
  match l with
  | [] => []
  | x :: l' => (acc + x) :: cumsum_from (acc + x) l'
  end.

Definition np_cumsum (l : list R) : list R := cumsum_from 0 l.

(** [np.nonzero(l)[0]]: the indices of the non-zero elements. *)
Fixpoint nonzero_from (start : nat) (l : list R) : list nat :=
  match l with
  | [] => []
  | x :: l' =>
      if Req_dec_T x 0 then nonzero_from (S start) l'
      else start :: nonzero_from (S start) l'
  end.

Definition np_nonzero (l : list R) : list nat := nonzero_from 0 l.

(** ** [gpx_calculate_speed] *)

(** Lines 131-138. *)
Definition gpx_calculate_speed (gpx_data : GPXData) : result (list R) :=
  let! gpx_dist := gpx_calculate_distance gpx_data true in
  let! t0 := py_get (tstamp gpx_data) 0 in
  let gpx_dtstamp := Fin <$> np_diff_prepend t0 (default [] (tstamp gpx_data)) in
  let gpx_dtstamp := mask_below EPS gpx_dtstamp in
  let! quot := np_divide gpx_dist gpx_dtstamp in
  Ok (nan_to_num 0 <$> quot).

(** ** [gpx_remove_duplicates] *)

(** [[c[i] for i in i_dist]]. *)
Fixpoint take_indices (c : channel) (i_dist : list nat) : result (list R) :=
  match i_dist with
  | [] => Ok []
  | i :: rest =>
      let! x := py_get c i in
      let! xs := take_indices c rest in
      Ok (x :: xs)
  end.

(** [[c[i] for i in i_dist] if c else None]. *)
Definition reindex (c : channel) (i_dist : list nat) : result channel :=
  if truthy c then
    let! l := take_indices c i_dist in Ok (Some l)
  else Ok None.

(** Lines 146-148: the distances without elevation and the indices to keep. *)
Definition kept_indices (gpx_data : GPXData) : result (list R * list nat) :=
  let! gpx_dist := gpx_calculate_distance gpx_data false in
  Ok (gpx_dist, 0%nat :: np_nonzero gpx_dist).

(** Lines 153-156: the new dictionary. *)
Definition build_nodup (gpx_data : GPXData) (i_dist : list nat)
    : result GPXData :=
  let! la := reindex (lat gpx_data) i_dist in
  let! lo := reindex (lon gpx_data) i_dist in
  let! el := reindex (ele gpx_data) i_dist in
  let! ts := reindex (tstamp gpx_data) i_dist in
  Ok (mkGPXData la lo el ts (tz gpx_data)).

Definition gpx_remove_duplicates (gpx_data : GPXData) : result GPXData :=
  let! di := kept_indices gpx_data in
  let '(gpx_dist, i_dist) := di in
  if decide (length i_dist = length gpx_dist) then Ok gpx_data
  else build_nodup gpx_data i_dist.

(** ** [gpx_interpolate] *)

(** [np.ceil] on a real. *)
Definition np_ceil (x : R) : Z := (- (up (- x) - 1))%Z.

(** [int(np.ceil(q))]: [int] refuses an infinity and a NaN. *)
Definition int_ceil (q : npfloat) : result Z :=
  match q with
  | Fin x => Ok (np_ceil x)
  | PosInf | NegInf => Raise OverflowError
  | NaN => Raise (ValueError "cannot convert float NaN to integer")
  end.

(** [np.linspace(start, stop, num=num, endpoint=True)]. *)
Definition np_linspace (start stop : R) (num : Z) : result (list R) :=
  if (num <? 0)%Z then
    Raise (ValueError "Number of samples must be non-negative")
  else
    let n := Z.to_nat num in
    let div := (n - 1)%nat in
    let delta := stop - start in
    let y := (fun i : nat =>
                if (0 <? div)%nat then INR i * (delta / INR div) + start
                else INR i * delta + start) <$> seq 0 n in
    Ok (if (1 <? n)%nat then <[(n - 1)%nat := stop]> y else y).

(** [a[0]] and [a[-1]] on an array. *)
Definition first_elem {A : Type} (a : list A) : result A :=
  match head a with
  | Some x => Ok x
  | None => Raise IndexError
  end.

Definition last_elem {A : Type} (a : list A) : result A :=
  match last a with
  | Some x => Ok x
  | None => Raise IndexError
  end.

Definition row {A : Type} (y : list A) (i : nat) : result A :=
  match y !! i with
  | Some r => Ok r
  | None => Raise IndexError
  end.

(** The channels that are not empty, in the order lat, lon, ele, tstamp. *)
Definition present_rows (gpx_data : GPXData) : list (list R) :=
  omap (fun c : channel => if truthy c then c else None)
       [lat gpx_data; lon gpx_data; ele gpx_data; tstamp gpx_data].

(** [np.array(rows)]: the rows of a two-dimensional array have one length. *)
Definition np_array (rows : list (list R)) : result (list (list R)) :=
  match rows with
  | [] => Ok []
  | r :: rest =>
      if forallb (fun r' => Nat.eqb (length r') (length r)) rest then Ok rows
      else Raise (ValueError "inhomogeneous shape")
  end.

Definition all_empty (gpx_data : GPXData) : bool :=
  negb (truthy (lat gpx_data)) && negb (truthy (lon gpx_data))
  && negb (truthy (ele gpx_data)) && negb (truthy (tstamp gpx_data)).

Section Interpolation.

(** [scipy.interpolate.pchip_interpolate(xi, yi, x, axis=1)]: the library
    routine is not part of the script. *)
Variable pchip_interpolate :
  list R -> list (list R) -> list R -> result (list (list R)).

Definition gpx_interpolate (gpx_data : GPXData) (distance : R)
    (num : option Z) : result GPXData :=
  if all_empty gpx_data then Ok gpx_data
  else
    let! _gpx_data := gpx_remove_duplicates gpx_data in
    let! _gpx_dist := gpx_calculate_distance _gpx_data true in
    let xi := np_cumsum _gpx_dist in
    let! yi := np_array (present_rows _gpx_data) in
    let! num :=
      match num with
      | Some k => Ok k
      | None => let! total := last_elem xi in
                int_ceil (np_div total (Fin distance))
      end in
    let! x0 := first_elem xi in
    let! xn := last_elem xi in
    let! x := np_linspace x0 xn num in
    let! y := pchip_interpolate xi yi x in
    let! y_lat := row y 0 in
    let! y_lon := row y 1 in
    let! y_ele := if truthy (ele gpx_data)
                  then let! r := row y 2 in Ok (Some r) else Ok None in
    let! y_tstamp := if truthy (tstamp gpx_data)
                     then let! r := last_elem y in Ok (Some r) else Ok None in
    Ok (mkGPXData (Some y_lat) (Some y_lon) y_ele y_tstamp (tz gpx_data)).

End Interpolation.

(** ** [gpx_read]

    The parser ([gpxpy]) is not part of the script; a parsed file is the
    list of its track points, in the order of the loops of lines 175-177. *)

Record datetime : Type := mkDatetime {
  dt_timestamp : R;
  dt_tzinfo : option tzinfo
}.

Record GPXTrackPoint : Type := mkPoint {
  latitude : R;
  longitude : R;
  elevation : option R;
  time : option datetime;
  point_speed : option R
}.

(** The body of the loop of lines 177-196: append one point to the channels;
    a missing elevation or time becomes 0.0. *)
Definition read_point (gpx_data : GPXData) (point : GPXTrackPoint) : GPXData :=
  {| lat := Some (default [] (lat gpx_data) ++ [latitude point]);
     lon := Some (default [] (lon gpx_data) ++ [longitude point]);
     ele := Some (default [] (ele gpx_data) ++ [default 0 (elevation point)]);
     tstamp := Some (default [] (tstamp gpx_data)
                     ++ [default 0 (dt_timestamp <$> time point)]);
     tz := match time point with
           | Some t => dt_tzinfo t
           | None => Some UTC
           end |}.

Definition gpx_read (points : list GPXTrackPoint) : GPXData :=
  foldl read_point (mkGPXData (Some []) (Some []) (Some []) (Some []) None)
        points.

(** ** [gpx_write]

    The serializer of [gpxpy], the conversion of a timestamp to a
    [datetime] and the file system are outside the script. *)

Abbreviation filesystem := (gmap string string) (only parsing).

Section Write.

Variable fromtimestamp : R -> option tzinfo -> result datetime.
Variable to_xml : list GPXTrackPoint -> string -> string.
Variable writable : string -> bool.

(** One iteration of the loop of lines 230-239. *)
Definition write_body (gpx_data : GPXData) (gpx_speed : option (list R))
    (points : list GPXTrackPoint) (i : nat) : result (list GPXTrackPoint) :=
  let! la := py_get (lat gpx_data) i in
  let! lo := py_get (lon gpx_data) i in
  let! el := if truthy (ele gpx_data)
             then let! e := py_get (ele gpx_data) i in Ok (Some e)
             else Ok None in
  let! tm := if truthy (tstamp gpx_data)
             then let! t := py_get (tstamp gpx_data) i in
                  let! d := fromtimestamp t (tz gpx_data) in Ok (Some d)
             else Ok None in
  let! sp := match gpx_speed with
             | Some sl => let! v := py_get (Some sl) i in Ok (Some v)
             | None => Ok None
             end in
  Ok (points ++ [mkPoint la lo el tm sp]).

Definition gpx_write (fs : filesystem) (gpx_file : string)
    (gpx_data : GPXData) (gpx_dist : list R) (write_speed : bool)
    : filesystem * result unit :=
  let before_output :=
    let! gpx_speed :=
      if write_speed then
        if negb (truthy (tstamp gpx_data)) then
          Raise (ValueError "tstamp data is missing from gpx_data")
        else let! s := gpx_calculate_speed gpx_data in Ok (Some s)
      else Ok None in
    let! n := py_len (lat gpx_data) in
    for_range n (write_body gpx_data gpx_speed) [] in
  match before_output with
  | Raise e => (fs, Raise e)
  | Ok points =>
      if writable gpx_file then
        (<[gpx_file := to_xml points (if write_speed then "1.0" else "1.1")]> fs,
         Ok tt)
      else (fs, Raise (SystemExit (String.append "ERROR Failed to save " gpx_file)))
  end.

End Write.

(** ** The object store of [main]

    [main] mutates the timestamp list of [gpx_data] in place, and
    [gpx_remove_duplicates] and [gpx_interpolate] may return the very
    dictionary they were given.  A dictionary is therefore a record of
    references to list objects in a store; the functions above, which only
    read their argument, are run on the dictionary's current contents. *)

Abbreviation loc := nat (only parsing).
Abbreviation store := (gmap nat (list R)) (only parsing).

Record GPXObj : Type := mkGPXObj {
  o_lat : option loc;
  o_lon : option loc;
  o_ele : option loc;
  o_tstamp : option loc;
  o_tz : option tzinfo
}.

(** The contents of a channel, and of a dictionary, in a store. *)
Definition load_chan (h : store) (r : option loc) : channel :=
  match r with
  | Some l => h !! l
  | None => None
  end.

Definition load (h : store) (o : GPXObj) : GPXData :=
  mkGPXData (load_chan h (o_lat o)) (load_chan h (o_lon o))
            (load_chan h (o_ele o)) (load_chan h (o_tstamp o)) (o_tz o).

(** A new list object. *)
Definition alloc_chan (h : store) (c : channel) : store * option loc :=
  match c with
  | Some l => let r := fresh (dom h) in (<[r := l]> h, Some r)
  | None => (h, None)
  end.

(** A new dictionary whose channels are new list objects. *)
Definition alloc_data (h : store) (g : GPXData) : store * GPXObj :=
  let '(h1, r_lat) := alloc_chan h (lat g) in
  let '(h2, r_lon) := alloc_chan h1 (lon g) in
  let '(h3, r_ele) := alloc_chan h2 (ele g) in
  let '(h4, r_tstamp) := alloc_chan h3 (tstamp g) in
  (h4, mkGPXObj r_lat r_lon r_ele r_tstamp (tz g)).

(** [r[i] = v]. *)
Definition setitem (h : store) (r : option loc) (i : nat) (v : R)
    : result store :=
  match r with
  | None => Raise TypeError
  | Some l =>
      match h !! l with
      | None => Raise TypeError
      | Some lst =>
          if decide (i < length lst)%nat then Ok (<[l := <[i := v]> lst]> h)
          else Raise IndexError
      end
  end.

(** ** [main], for one input file *)

(** The command-line arguments that [main] uses (lines 257-262). *)
Record Args : Type := mkArgs {
  distance : R;
  num : option Z;
  intervaltime : option R;
  velocity : R;
  speed : bool;
  begintime : option string
}.

(** What [main] prints about the track (lines 301-314). *)
Record Summary : Type := mkSummary {
  accumulateddistance : R;
  starttime : string;
  endtime : string;
  totaltime : R
}.

(** Lines 286-287: shift every timestamp by [deltatime]. *)
Definition shift_body (o : GPXObj) (deltatime : R) (h : store) (i : nat)
    : result store :=
  let! t := py_get (load_chan h (o_tstamp o)) i in
  setitem h (o_tstamp o) i (t + deltatime).

(** Lines 292-293 and 297-298: [tstamp[i+1] = tstamp[i] + step (i+1)]. *)
Definition retime_body (o : GPXObj) (step : nat -> result R) (h : store)
    (i : nat) : result store :=
  let! t := py_get (load_chan h (o_tstamp o)) i in
  let! dt := step (i + 1)%nat in
  setitem h (o_tstamp o) (i + 1)%nat (t + dt).

Section Main.

Variable pchip_interpolate :
  list R -> list (list R) -> list R -> result (list (list R)).
Variable fromtimestamp : R -> option tzinfo -> result datetime.
Variable to_xml : list GPXTrackPoint -> string -> string.
Variable writable : string -> bool.
(** [datetime.strptime(s, "%Y%m%d-%H%M%SZ").timestamp()
     - datetime(1970, 1, 1).timestamp()]. *)
Variable parse_begintime : string -> result R.
(** [datetime.utcfromtimestamp(t).isoformat()]. *)
Variable utcfromtimestamp : R -> result string.

(** [gpx_remove_duplicates] on objects: the argument itself, or a new
    dictionary. *)
Definition gpx_remove_duplicates_obj (h : store) (o : GPXObj)
    : result (store * GPXObj) :=
  let gpx_data := load h o in
  let! di := kept_indices gpx_data in
  let '(gpx_dist, i_dist) := di in
  if decide (length i_dist = length gpx_dist) then Ok (h, o)
  else let! g := build_nodup gpx_data i_dist in Ok (alloc_data h g).

(** [gpx_interpolate] on objects: the argument itself, or a new
    dictionary of new lists. *)
Definition gpx_interpolate_obj (h : store) (o : GPXObj) (distance : R)
    (num : option Z) : result (store * GPXObj) :=
  let gpx_data := load h o in
  if all_empty gpx_data then Ok (h, o)
  else let! g := gpx_interpolate pchip_interpolate gpx_data distance num in
       Ok (alloc_data h g).

(** Lines 281-298: the three adjustments of the timestamps of [gpx_data]. *)
Definition begin_shift (args : Args) (o : GPXObj) (h : store)
    : result store :=
  match begintime args with
  | Some (String _ _ as b) =>
      let! dt_utc := parse_begintime b in
      let! t0 := py_get (load_chan h (o_tstamp o)) 0 in
      let deltatime := dt_utc - t0 in
      let! n := py_len (load_chan h (o_lat o)) in
      for_range n (shift_body o deltatime) h
  | _ => Ok h
  end.

(** Lines 289-293. *)
Definition velocity_retiming (args : Args) (o : GPXObj) (gpx_dist : list R)
    (h : store) : result store :=
  if Rlt_dec 0 (velocity args) then
    let gpx_dtstamps := (fun d => d / velocity args) <$> gpx_dist in
    let! n := py_len (load_chan h (o_lat o)) in
    for_range (n - 1) (retime_body o (py_get (Some gpx_dtstamps))) h
  else Ok h.

(** Lines 295-298. *)
Definition interval_retiming (args : Args) (o : GPXObj) (h : store)
    : result store :=
  match intervaltime args with
  | Some dt =>
      if Rlt_dec 0 dt then
        let! n := py_len (load_chan h (o_lat o)) in
        for_range (n - 1) (retime_body o (fun _ => Ok dt)) h
      else Ok h
  | None => Ok h
  end.

Definition time_synthesis (args : Args) (o : GPXObj) (gpx_dist : list R)
    (h : store) : result store :=
  let! h1 := begin_shift args o h in
  let! h2 := velocity_retiming args o gpx_dist h1 in
  interval_retiming args o h2.

(** Lines 268-318 for one file that does not end in [_interpolated.gpx];
    [points] is the parsed input file.  The result is the summary printed
    on the console and the track handed to [gpx_write]. *)
Definition process_file (args : Args) (fs : filesystem) (gpx_file : string)
    (points : list GPXTrackPoint)
    : filesystem * result (Summary * GPXData) :=
  let before_write :=
    let '(h, gpx_data) := alloc_data ∅ (gpx_read points) in
    let! r := gpx_remove_duplicates_obj h gpx_data in
    let '(h, gpx_data_nodup) := r in
    let! _ := py_len (load_chan h (o_lat gpx_data_nodup)) in
    let! _ := py_len (load_chan h (o_lat gpx_data)) in
    let! r := gpx_interpolate_obj h gpx_data_nodup (distance args) (num args) in
    let '(h, gpx_data_interp) := r in
    let! gpx_dist := gpx_calculate_distance (load h gpx_data) true in
    let! h := time_synthesis args gpx_data gpx_dist h in
    let! t_first := py_get (load_chan h (o_tstamp gpx_data)) 0 in
    let! start := utcfromtimestamp t_first in
    let! t_last := last_elem (default [] (load_chan h (o_tstamp gpx_data))) in
    let! stop := utcfromtimestamp t_last in
    Ok (mkSummary (foldr Rplus 0 gpx_dist) start stop (t_last - t_first),
        load h gpx_data_interp, gpx_dist) in
  match before_write with
  | Raise e => (fs, Raise e)
  | Ok (summary, written, gpx_dist) =>
      let output_file :=
        String.append (substring 0 (String.length gpx_file - 4) gpx_file)
                      "_interpolated.gpx" in
      let '(fs', r) := gpx_write fromtimestamp to_xml writable fs output_file
                         written gpx_dist (speed args) in
      (fs', let! _ := r in
            let! _ := py_len (lat written) in
            Ok (summary, written))
  end.

End Main.

(** ** [main], over the files of the command line *)

(** [s.endswith(suffix)]. *)
Definition endswith (s suffix : string) : bool :=
  let n := String.length s in
  let m := String.length suffix in
  (m <=? n)%nat && String.eqb (substring (n - m) m s) suffix.

(** Line 316: the name of the output file. *)
Definition output_name (gpx_file : string) : string :=
  String.append (substring 0 (String.length gpx_file - 4) gpx_file)
                "_interpolated.gpx".

Section MainLoop.

Variable pchip_interpolate :
  list R -> list (list R) -> list R -> result (list (list R)).
Variable fromtimestamp : R -> option tzinfo -> result datetime.
Variable to_xml : list GPXTrackPoint -> string -> string.
Variable writable : string -> bool.
Variable parse_begintime : string -> result R.
Variable utcfromtimestamp : R -> result string.

(** Lines 266-320: the loop over the files; a file comes with its parsed
    points.  A file whose name ends in [_interpolated.gpx] is skipped; an
    exception ends the loop. *)
Fixpoint main (args : Args) (fs : filesystem)
    (files : list (string * list GPXTrackPoint)) : filesystem * result unit :=
  match files with
  | [] => (fs, Ok tt)
  | (gpx_file, points) :: rest =>
      if negb (endswith gpx_file "_interpolated.gpx") then
        let '(fs', r) :=
          process_file pchip_interpolate fromtimestamp to_xml writable
                       parse_begintime utcfromtimestamp args fs gpx_file
                       points in
        match r with
        | Ok _ => main args fs' rest
        | Raise e => (fs', Raise e)
        end
      else main args fs rest
  end.

End MainLoop.

(** ** The arithmetic of the script, rounded

    The functions above compute with real numbers, which gives the values
    of the script up to rounding.  Where the script tests a computed
    distance for zero (line 148) or hands the cumulative distances to the
    interpolator, which wants them strictly increasing (line 86), the
    rounded value decides, and a rounded distance can be zero where the
    exact one is not, and conversely.  The functions below are those of
    lines 68-158 with every arithmetic operation on floats taken from a
    record of operations: the operations of binary64 on finite values are
    one instance, the exact ones ([exact_ops]) another.  The query points
    of [np.linspace] are values only and are taken as above. *)

Record float_ops : Type := mkOps {
  f_add : R -> R -> R;
  f_sub : R -> R -> R;
  f_mul : R -> R -> R;
  f_div : R -> R -> R;
  f_sq : R -> R;
  f_sqrt : R -> R;
  f_sin : R -> R;
  f_cos : R -> R;
  f_asin : R -> R;
  f_radians : R -> R
}.

Definition exact_ops : float_ops :=
  mkOps Rplus Rminus Rmult Rdiv (fun x => x ^ 2) sqrt sin cos asin radians.

(** Operations whose addition returns its first operand unless that is
    zero: the extreme case of the absorption of a small addend by a large
    sum in rounded arithmetic. *)
Definition absorbing_ops : float_ops :=
  mkOps (fun x y => if Req_dec_T x 0 then y else x)
        Rminus Rmult Rdiv (fun x => x ^ 2) sqrt sin cos asin radians.

Module Fl.

Section Ops.

Variable ops : float_ops.

(** Lines 105-115. *)
Definition dist_latlon (lat_i lon_i lat_j lon_j : R) : R :=
  let lat1 := f_radians ops lat_i in
  let lon1 := f_radians ops lon_i in
  let lat2 := f_radians ops lat_j in
  let lon2 := f_radians ops lon_j in
  let delta_lat := f_sub ops lat2 lat1 in
  let delta_lon := f_sub ops lon2 lon1 in
  let c := f_mul ops 2
             (f_asin ops
                (f_sqrt ops
                   (f_add ops
                      (f_sq ops (f_sin ops (f_div ops delta_lat 2)))
                      (f_mul ops
                         (f_mul ops (f_cos ops lat1) (f_cos ops lat2))
                         (f_sq ops (f_sin ops (f_div ops delta_lon 2))))))) in
  f_mul ops EARTH_RADIUS c.

(** Lines 104-121. *)
Definition distance_body (gpx_data : GPXData) (use_ele : bool)
    (gpx_dist : list R) (i : nat) : result (list R) :=
  let! lat_i := py_get (lat gpx_data) i in
  let! lon_i := py_get (lon gpx_data) i in
  let! lat_j := py_get (lat gpx_data) (i + 1)%nat in
  let! lon_j := py_get (lon gpx_data) (i + 1)%nat in
  let d := dist_latlon lat_i lon_i lat_j lon_j in
  if truthy (ele gpx_data) && use_ele then
    let! ele_j := py_get (ele gpx_data) (i + 1)%nat in
    let! ele_i := py_get (ele gpx_data) i in
    let dist_ele := f_sub ops ele_j ele_i in
    Ok (<[(i + 1)%nat
          := f_sqrt ops (f_add ops (f_sq ops d) (f_sq ops dist_ele))]> gpx_dist)
  else
    Ok (<[(i + 1)%nat := d]> gpx_dist).

Definition gpx_calculate_distance (gpx_data : GPXData) (use_ele : bool)
    : result (list R) :=
  let! n := py_len (lat gpx_data) in
  let gpx_dist := replicate n 0 in
  for_range (length gpx_dist - 1)%nat (distance_body gpx_data use_ele) gpx_dist.

(** [np.cumsum]: the first element is the first element of the array, every
    other one the rounded sum of its predecessor and the next element. *)
Fixpoint cumsum_from (acc : R) (l : list R) : list R :=
  match l with
  | [] => []
  | x :: l' => f_add ops acc x :: cumsum_from (f_add ops acc x) l'
  end.

Definition np_cumsum (l : list R) : list R :=
  match l with
  | [] => []
  | x :: l' => x :: cumsum_from x l'
  end.

(** Lines 146-158. *)
Definition kept_indices (gpx_data : GPXData) : result (list R * list nat) :=
  let! gpx_dist := gpx_calculate_distance gpx_data false in
  Ok (gpx_dist, 0%nat :: np_nonzero gpx_dist).

Definition gpx_remove_duplicates (gpx_data : GPXData) : result GPXData :=
  let! di := kept_indices gpx_data in
  let '(gpx_dist, i_dist) := di in
  if decide (length i_dist = length gpx_dist) then Ok gpx_data
  else build_nodup gpx_data i_dist.

(** [a / b] for a finite dividend, as [np_div] above. *)
Definition np_div (a : R) (b : npfloat) : npfloat :=
  match b with
  | NaN => NaN
  | PosInf | NegInf => Fin 0
  | Fin y =>
      if Req_dec_T y 0 then
        if Req_dec_T a 0 then NaN
        else if Rlt_dec 0 a then PosInf else NegInf
      else Fin (f_div ops a y)
  end.

(** Lines 74-94. *)
Definition gpx_interpolate
    (pchip_interpolate :
       list R -> list (list R) -> list R -> result (list (list R)))
    (gpx_data : GPXData) (distance : R) (num : option Z) : result GPXData :=
  if all_empty gpx_data then Ok gpx_data
  else
    let! _gpx_data := gpx_remove_duplicates gpx_data in
    let! _gpx_dist := gpx_calculate_distance _gpx_data true in
    let xi := np_cumsum _gpx_dist in
    let! yi := np_array (present_rows _gpx_data) in
    let! num :=
      match num with
      | Some k => Ok k
      | None => let! total := last_elem xi in
                int_ceil (np_div total (Fin distance))
      end in
    let! x0 := first_elem xi in
    let! xn := last_elem xi in
    let! x := np_linspace x0 xn num in
    let! y := pchip_interpolate xi yi x in
    let! y_lat := row y 0 in
    let! y_lon := row y 1 in
    let! y_ele := if truthy (ele gpx_data)
                  then let! r := row y 2 in Ok (Some r) else Ok None in
    let! y_tstamp := if truthy (tstamp gpx_data)
                     then let! r := last_elem y in Ok (Some r) else Ok None in
    Ok (mkGPXData (Some y_lat) (Some y_lon) y_ele y_tstamp (tz gpx_data)).

End Ops.

End Fl.

(** ** Vocabulary of the specification *)

(** The parallel channels of a track have one length; elevation and
    timestamps may be absent. *)
Definition chan_len_ok (n : nat) (c : channel) : Prop :=
  match c with
  | None => True
  | Some l => length l = n
  end.

(** The haversine of an angle and the great-circle distance of two points
    given in degrees, as the textbooks have them. *)
Definition haversine (theta : R) : R := (1 - cos theta) / 2.

Definition great_circle (lat_i lon_i lat_j lon_j : R) : R :=
  let phi1 := radians lat_i in
  let phi2 := radians lat_j in
  let h := haversine (phi2 - phi1)
           + cos phi1 * cos phi2 * haversine (radians lon_j - radians lon_i) in
  2 * EARTH_RADIUS * asin (sqrt h).

(** A list of timestamps (or of cumulative distances) that never goes down. *)
Definition nondecreasing (l : list R) : Prop :=
  forall i a b, l !! i = Some a -> l !! S i = Some b -> a <= b.

(** The step between consecutive timestamps that [main] leaves behind when a
    retiming runs: the interval where [intervaltime] is positive, the
    distance over the velocity otherwise. *)
Definition retimed_step (args : Args) (gpx_dist : list R) (j : nat) : R :=
  match intervaltime args with
  | Some dt => if Rlt_dec 0 dt then dt
               else default 0 (gpx_dist !! j) / velocity args
  | None => default 0 (gpx_dist !! j) / velocity args
  end.

(** *** Duplicate removal as the specification words it

    A point is a pair of latitude and longitude in degrees.  Scanning the
    track, a point is dropped when its distance from the previous retained
    point is zero; point 0 is always retained.  The result is a mask over
    the points, which selects the retained elements of every channel. *)

Definition gc_points (p q : R * R) : R :=
  great_circle (fst p) (snd p) (fst q) (snd q).

Fixpoint retained_mask_from (prev : R * R) (pts : list (R * R)) : list bool :=
  match pts with
  | [] => []
  | p :: rest =>
      if Req_dec_T (gc_points prev p) 0
      then false :: retained_mask_from prev rest
      else true :: retained_mask_from p rest
  end.

Definition retained_mask (pts : list (R * R)) : list bool :=
  match pts with
  | [] => []
  | p :: rest => true :: retained_mask_from p rest
  end.

Fixpoint select {A : Type} (mask : list bool) (l : list A) : list A :=
  match mask, l with
  | b :: mask', x :: l' => if b then x :: select mask' l' else select mask' l'
  | _, _ => []
  end.

(** The track whose channels are the selected elements of the channels of
    [g]; an absent channel stays absent. *)
Definition apply_mask (mask : list bool) (g : GPXData) : GPXData :=
  mkGPXData (select mask <$> lat g) (select mask <$> lon g)
            (select mask <$> ele g) (select mask <$> tstamp g) (tz g).

Definition strictly_increasing (l : list R) : Prop :=
  forall i a b, l !! i = Some a -> l !! S i = Some b -> a < b.

(** Modelled from the spec: [pchip_interpolate] is a routine of SciPy and
    not part of the script; this is the contract the specification gives
    for the monotone cubic interpolator.  For a strictly increasing axis
    [xi] of at least two knots, rows [yi] of the length of [xi] and queries
    [x] within the knots, the result has one row per row of [yi] and one
    column per query. *)
Definition pchip_contract
    (pchip : list R -> list (list R) -> list R -> result (list (list R)))
    : Prop :=
  forall xi yi x x0 xn,
    (2 <= length xi)%nat -> strictly_increasing xi ->
    Forall (fun r => length r = length xi) yi ->
    head xi = Some x0 -> last xi = Some xn ->
    Forall (fun q => x0 <= q <= xn) x ->
    exists y, pchip xi yi x = Ok y
              /\ length y = length yi
              /\ Forall (fun r => length r = length x) y.

(** Modelled from the spec: the interpolant passes through the known points,
    and a query axis that starts at the first knot and ends at the last one
    reproduces the end points of every row. *)
Definition pchip_endpoints
    (pchip : list R -> list (list R) -> list R -> result (list (list R)))
    : Prop :=
  forall xi yi x y x0 xn,
    (2 <= length xi)%nat -> strictly_increasing xi ->
    Forall (fun r => length r = length xi) yi ->
    head xi = Some x0 -> last xi = Some xn ->
    pchip xi yi x = Ok y ->
    forall i yrow r, yi !! i = Some yrow -> y !! i = Some r ->
      (head x = Some x0 -> head r = head yrow)
      /\ (last x = Some xn -> last r = last yrow).

(** Modelled from the spec: the same, for an evaluation in floating point.
    The values at the ends of a query axis that starts at the first knot and
    ends at the last one are the end values of every row within the
    tolerance [tol]. *)
Definition pchip_endpoints_within (tol : R)
    (pchip : list R -> list (list R) -> list R -> result (list (list R)))
    : Prop :=
  forall xi yi x y x0 xn,
    (2 <= length xi)%nat -> strictly_increasing xi ->
    Forall (fun r => length r = length xi) yi ->
    head xi = Some x0 -> last xi = Some xn ->
    pchip xi yi x = Ok y ->
    forall i yrow r, yi !! i = Some yrow -> y !! i = Some r ->
      (head x = Some x0 ->
       forall v w, head r = Some v -> head yrow = Some w ->
                   Rabs (v - w) <= tol)
      /\ (last x = Some xn ->
          forall v w, last r = Some v -> last yrow = Some w ->
                      Rabs (v - w) <= tol).

(** Modelled from the spec: the monotone cubic interpolator itself
    ([scipy.interpolate.pchip_interpolate], not part of the script).  Per
    channel, the tangent at an interior knot is the weighted harmonic mean of
    the two adjacent secant slopes, or zero where they differ in sign; the
    tangent at an end is the one-sided three-point estimate, limited to keep
    the shape; a query is evaluated with the Hermite cubic of the knot
    interval that encloses it.  Fewer than two knots, a knot axis that is
    not strictly increasing and a row of another length than the axis are
    input shape errors. *)
Definition knot (l : list R) (i : nat) : R := default 0 (l !! i).

Definition secant (xi yrow : list R) (i : nat) : R :=
  (knot yrow (S i) - knot yrow i) / (knot xi (S i) - knot xi i).

Definition sgn (x : R) : Z :=
  if Rlt_dec 0 x then 1%Z else if Rlt_dec x 0 then (-1)%Z else 0%Z.

Definition interior_tangent (xi yrow : list R) (i : nat) : R :=
  let h0 := knot xi i - knot xi (i - 1) in
  let h1 := knot xi (S i) - knot xi i in
  let m0 := secant xi yrow (i - 1) in
  let m1 := secant xi yrow i in
  if Rlt_dec 0 (m0 * m1) then
    let w1 := 2 * h1 + h0 in
    let w2 := h1 + 2 * h0 in
    (w1 + w2) / (w1 / m0 + w2 / m1)
  else 0.

Definition edge_tangent (h0 h1 m0 m1 : R) : R :=
  let d := ((2 * h0 + h1) * m0 - h0 * m1) / (h0 + h1) in
  if decide (sgn d = sgn m0) then
    if decide (sgn m0 = sgn m1) then d
    else if Rlt_dec (3 * Rabs m0) (Rabs d) then 3 * m0 else d
  else 0.

Definition tangent (xi yrow : list R) (i : nat) : R :=
  let n := length xi in
  let h j := knot xi (S j) - knot xi j in
  if decide (n = 2%nat) then secant xi yrow 0
  else if decide (i = 0%nat) then
    edge_tangent (h 0%nat) (h 1%nat) (secant xi yrow 0) (secant xi yrow 1)
  else if decide (i = (n - 1)%nat) then
    edge_tangent (h (n - 2)%nat) (h (n - 3)%nat)
                 (secant xi yrow (n - 2)) (secant xi yrow (n - 3))
  else interior_tangent xi yrow i.

(** The index of the knot interval of a query: the number of interior knots
    that are not beyond the query. *)
Fixpoint count_le (q : R) (l : list R) : nat :=
  match l with
  | [] => 0
  | x :: l' => ((if Rle_dec x q then 1 else 0) + count_le q l')%nat
  end.

Definition find_interval (xi : list R) (q : R) : nat :=
  count_le q (take (length xi - 2) (drop 1 xi)).

Definition hermite (xi yrow : list R) (q : R) : R :=
  let i := find_interval xi q in
  let h := knot xi (S i) - knot xi i in
  let t := (q - knot xi i) / h in
  (2 * t ^ 3 - 3 * t ^ 2 + 1) * knot yrow i
  + (t ^ 3 - 2 * t ^ 2 + t) * h * tangent xi yrow i
  + (- 2 * t ^ 3 + 3 * t ^ 2) * knot yrow (S i)
  + (t ^ 3 - t ^ 2) * h * tangent xi yrow (S i).

Fixpoint increasingb (l : list R) : bool :=
  match l with
  | a :: (b :: _) as rest => if Rlt_dec a b then increasingb rest else false
  | _ => true
  end.

Definition pchip_model (xi : list R) (yi : list (list R)) (x : list R)
    : result (list (list R)) :=
  if (length xi <? 2)%nat then
    Raise (ValueError "x must contain at least 2 elements")
  else if negb (forallb (fun r => Nat.eqb (length r) (length xi)) yi) then
    Raise (ValueError "x and y arrays must be equal in length along the axis")
  else if negb (increasingb xi) then
    Raise (ValueError "x must be strictly increasing")
  else Ok ((fun yrow => hermite xi yrow <$> x) <$> yi).

(** *** Auxiliary definitions of the proofs *)

(** What one step of the loop stores at index [i+1]. *)
Definition step_distance (g : GPXData) (use_ele : bool) (i : nat) (v : R)
    : Prop :=
  exists lat1 lon1 lat2 lon2,
    py_get (lat g) i = Ok lat1 /\ py_get (lon g) i = Ok lon1
    /\ py_get (lat g) (S i) = Ok lat2 /\ py_get (lon g) (S i) = Ok lon2
    /\ if truthy (ele g) && use_ele then
         exists e1 e2,
           py_get (ele g) i = Ok e1 /\ py_get (ele g) (S i) = Ok e2
           /\ v = sqrt (great_circle lat1 lon1 lat2 lon2 ^ 2 + (e2 - e1) ^ 2)
       else v = great_circle lat1 lon1 lat2 lon2.

(** The invariant of the loop of [gpx_calculate_distance] after [k]
    iterations. *)
Definition distance_inv (g : GPXData) (use_ele : bool) (n k : nat)
    (d : list R) : Prop :=
  length d = n
  /\ (forall j, (j < n)%nat -> (j = 0 \/ k < j)%nat -> d !! j = Some 0)
  /\ (forall i, (i < k)%nat -> exists v, d !! S i = Some v
                                         /\ step_distance g use_ele i v).

(** The quotient and the speed the function computes from one distance and
    one time delta. *)
Definition quot_at (d dt : R) : npfloat :=
  if Rlt_dec dt EPS then NaN else Fin (d / dt).

Definition speed_at (d dt : R) : R := nan_to_num 0 (quot_at d dt).

(** A reference that is [None] or points into the store. *)
Definition ref_ok (h : store) (r : option loc) : Prop :=
  match r with
  | Some l => is_Some (h !! l)
  | None => True
  end.

(** A dictionary all of whose references point into the store. *)
Definition obj_ok (h : store) (o : GPXObj) : Prop :=
  ref_ok h (o_lat o) /\ ref_ok h (o_lon o) /\ ref_ok h (o_ele o)
  /\ ref_ok h (o_tstamp o).

(** A reference that does not point into the store [h]. *)
Definition ref_new (h : store) (r : option loc) : Prop :=
  match r with
  | Some l => h !! l = None
  | None => True
  end.

(** A dictionary none of whose references points into the store [h]. *)
Definition obj_new (h : store) (o : GPXObj) : Prop :=
  ref_new h (o_lat o) /\ ref_new h (o_lon o) /\ ref_new h (o_ele o)
  /\ ref_new h (o_tstamp o).

(** The point of the unit sphere at a latitude and longitude in degrees. *)
Definition on_sphere (lat_i lon_i : R) : R * R * R :=
  (cos (radians lat_i) * cos (radians lon_i),
   cos (radians lat_i) * sin (radians lon_i),
   sin (radians lat_i)).

(** The distances of the consecutive points of a list. *)
Fixpoint steps (prev : R * R) (pts : list (R * R)) : list R :=
  match pts with
  | [] => []
  | p :: rest => gc_points prev p :: steps p rest
  end.

(** The mask of the non-zero elements of an array. *)
Definition nonzero_mask (ds : list R) : list bool :=
  (fun x => if Req_dec_T x 0 then false else true) <$> ds.

(** The row that a channel contributes to the array [yi]. *)
Definition chan_rows (c : channel) : list (list R) :=
  if truthy c then [default [] c] else [].

(** * Properties *)

(** ** The error monad and loops *)

Lemma bind_Ok {A B : Type} (m : result A) (k : A -> result B) (b : B) :
  bind m k = Ok b <-> exists a, m = Ok a /\ k a = Ok b.
Proof.
  destruct m as [a|e]; simpl; split.
  - eauto.
  - intros (a' & Ha & Hk). congruence.
  - discriminate.
  - intros (a' & Ha & _). discriminate.
Qed.

(** A loop whose body keeps an invariant and never raises runs to the end. *)
Lemma for_range_from_inv {A : Type} (P : nat -> A -> Prop)
    (body : A -> nat -> result A) (n start : nat) (acc : A) :
  P start acc ->
  (forall i a, (start <= i < start + n)%nat -> P i a ->
               exists a', body a i = Ok a' /\ P (S i) a') ->
  exists r, for_range_from start n body acc = Ok r /\ P (start + n)%nat r.
Proof.
  revert start acc.
  induction n as [|n IH]; intros start acc H0 Hstep; simpl.
  - exists acc. split; [reflexivity|]. now rewrite Nat.add_0_r.
  - destruct (Hstep start acc) as (a' & Hb & Ha'); [lia|assumption|].
    rewrite Hb. simpl.
    destruct (IH (S start) a') as (r & Hr & HP); [assumption| |].
    + intros i a Hi. apply Hstep. lia.
    + exists r. split; [assumption|].
      now replace (start + S n)%nat with (S start + n)%nat by lia.
Qed.

(** ** [gpx_calculate_distance] *)

Lemma sin_half_sqr (theta : R) : sin (theta / 2) ^ 2 = haversine theta.
Proof.
  unfold haversine.
  replace theta with (2 * (theta / 2)) at 2 by field.
  rewrite cos_2a_sin. field.
Qed.

Lemma dist_latlon_great_circle (a b c d : R) :
  dist_latlon a b c d = great_circle a b c d.
Proof.
  unfold dist_latlon, great_circle. cbv zeta.
  rewrite !sin_half_sqr. ring.
Qed.

Lemma py_get_lt (l : list R) (i : nat) :
  (i < length l)%nat -> exists x, py_get (Some l) i = Ok x /\ l !! i = Some x.
Proof.
  intros Hi. destruct (lookup_lt_is_Some_2 l i Hi) as [x Hx].
  exists x. simpl. now rewrite Hx.
Qed.

Lemma truthy_Some (c : channel) :
  truthy c = true -> exists x l, c = Some (x :: l).
Proof. destruct c as [[|x l]|]; simpl; try discriminate. eauto. Qed.

Lemma distance_body_inv (g : GPXData) (use_ele : bool) (la lo : list R)
    (k : nat) (d : list R) :
  lat g = Some la -> lon g = Some lo -> length lo = length la ->
  chan_len_ok (length la) (ele g) ->
  (S k < length la)%nat ->
  distance_inv g use_ele (length la) k d ->
  exists d', distance_body g use_ele d k = Ok d'
             /\ distance_inv g use_ele (length la) (S k) d'.
Proof.
  intros Hla Hlo Hlen Hele Hk (Hd & Hzero & Hdone).
  assert (Hstore : forall v, step_distance g use_ele k v ->
            distance_inv g use_ele (length la) (S k) (<[S k := v]> d)).
  { intros v Hv. repeat split.
    - now rewrite length_insert.
    - intros j Hj Hjk. rewrite list_lookup_insert_ne by lia.
      apply Hzero; lia.
    - intros i Hi. destruct (decide (i = k)) as [->|Hne].
      + exists v. split; [|assumption].
        apply list_lookup_insert_eq. lia.
      + rewrite list_lookup_insert_ne by lia. apply Hdone. lia. }
  destruct (py_get_lt la k) as (lat1 & Hlat1 & _); [lia|].
  destruct (py_get_lt lo k) as (lon1 & Hlon1 & _); [lia|].
  destruct (py_get_lt la (S k)) as (lat2 & Hlat2 & _); [lia|].
  destruct (py_get_lt lo (S k)) as (lon2 & Hlon2 & _); [lia|].
  rewrite <- Hla in Hlat1, Hlat2. rewrite <- Hlo in Hlon1, Hlon2.
  unfold distance_body.
  replace (k + 1)%nat with (S k) by lia.
  rewrite Hlat1, Hlon1, Hlat2, Hlon2. cbn [bind].
  rewrite dist_latlon_great_circle.
  destruct (truthy (ele g) && use_ele) eqn:Hbranch.
  - apply andb_true_iff in Hbranch as Hb. destruct Hb as [Ht Huse].
    destruct (truthy_Some _ Ht) as (e0 & el & Hel).
    rewrite Hel in Hele. simpl in Hele.
    destruct (py_get_lt (e0 :: el) (S k)) as (e2 & He2 & _); [simpl; lia|].
    destruct (py_get_lt (e0 :: el) k) as (e1 & He1 & _); [simpl; lia|].
    rewrite <- Hel in He1, He2.
    rewrite He2, He1. cbn [bind].
    eexists. split; [reflexivity|]. apply Hstore.
    exists lat1, lon1, lat2, lon2. rewrite Hbranch.
    do 4 (split; [assumption|]).
    exists e1, e2. auto.
  - eexists. split; [reflexivity|]. apply Hstore.
    exists lat1, lon1, lat2, lon2. rewrite Hbranch. auto.
Qed.

Lemma gpx_calculate_distance_inv (g : GPXData) (use_ele : bool)
    (la lo : list R) :
  lat g = Some la -> lon g = Some lo -> length lo = length la ->
  chan_len_ok (length la) (ele g) ->
  exists d, gpx_calculate_distance g use_ele = Ok d
            /\ distance_inv g use_ele (length la) (length la - 1) d.
Proof.
  intros Hla Hlo Hlen Hele.
  unfold gpx_calculate_distance, for_range. rewrite Hla. cbn [py_len bind].
  rewrite length_replicate.
  destruct (for_range_from_inv (distance_inv g use_ele (length la))
              (distance_body g use_ele) (length la - 1) 0
              (replicate (length la) 0)) as (d & Hd & Hinv).
  - repeat split.
    + apply length_replicate.
    + intros j Hj _. apply lookup_replicate_2. exact Hj.
    + intros i Hi. lia.
  - intros i a Hi Hinv.
    apply (distance_body_inv g use_ele la lo); auto. lia.
  - exists d. split; [exact Hd|exact Hinv].
Qed.

Lemma py_get_Ok (c : channel) (i : nat) (x : R) :
  py_get c i = Ok x <-> exists l, c = Some l /\ l !! i = Some x.
Proof.
  unfold py_get. destruct c as [l|].
  - destruct (l !! i) as [y|] eqn:Hy; split.
    + intros [= ->]. eauto.
    + intros (l' & [= <-] & Hl). congruence.
    + discriminate.
    + intros (l' & [= <-] & Hl). congruence.
  - split; [discriminate|]. intros (l & Hl & _). discriminate.
Qed.

(** C1. On a track whose latitude and longitude channels have one length
    (and whose elevation channel, when present, has that length too),
    [gpx_calculate_distance] returns a list of the length of the track; its
    element 0 is 0; its element [i+1] is the great-circle (haversine)
    distance between points [i] and [i+1], combined with the elevation
    difference as [sqrt (d^2 + dele^2)] exactly when [use_ele] is true and
    the elevation channel is a non-empty list. *)
Theorem gpx_calculate_distance_spec (g : GPXData) (use_ele : bool)
    (la lo : list R) :
  lat g = Some la -> lon g = Some lo -> length lo = length la ->
  chan_len_ok (length la) (ele g) ->
  exists d,
    gpx_calculate_distance g use_ele = Ok d
    /\ length d = length la
    /\ (forall x, d !! 0%nat = Some x -> x = 0)
    /\ forall i lat1 lon1 lat2 lon2,
         la !! i = Some lat1 -> lo !! i = Some lon1 ->
         la !! S i = Some lat2 -> lo !! S i = Some lon2 ->
         let d_latlon := great_circle lat1 lon1 lat2 lon2 in
         match ele g, use_ele with
         | Some (e :: el), true =>
             exists e1 e2,
               (e :: el) !! i = Some e1 /\ (e :: el) !! S i = Some e2
               /\ d !! S i = Some (sqrt (d_latlon ^ 2 + (e2 - e1) ^ 2))
         | _, _ => d !! S i = Some d_latlon
         end.
Proof.
  intros Hla Hlo Hlen Hele.
  destruct (gpx_calculate_distance_inv g use_ele la lo Hla Hlo Hlen Hele)
    as (d & Hd & Hlend & Hzero & Hsteps).
  exists d. split; [exact Hd|]. split; [exact Hlend|]. split.
  - intros x Hx.
    assert (Hpos : (0 < length la)%nat).
    { rewrite <- Hlend. apply lookup_lt_Some in Hx. exact Hx. }
    rewrite (Hzero 0%nat Hpos (or_introl eq_refl)) in Hx. congruence.
  - intros i lat1 lon1 lat2 lon2 H1 H2 H3 H4 d_latlon.
    assert (Hi : (i < length la - 1)%nat).
    { apply lookup_lt_Some in H3. lia. }
    destruct (Hsteps i Hi) as (v & Hv & a1 & b1 & a2 & b2 & G1 & G2 & G3 & G4 & Hval).
    rewrite Hla in G1, G3. rewrite Hlo in G2, G4.
    apply py_get_Ok in G1 as (? & [= <-] & G1), G2 as (? & [= <-] & G2),
                       G3 as (? & [= <-] & G3), G4 as (? & [= <-] & G4).
    assert (a1 = lat1) as -> by congruence.
    assert (b1 = lon1) as -> by congruence.
    assert (a2 = lat2) as -> by congruence.
    assert (b2 = lon2) as -> by congruence.
    fold d_latlon in Hval.
    destruct (ele g) as [[|e el]|] eqn:He; cbn [truthy andb] in Hval.
    + now rewrite Hv, Hval.
    + destruct use_ele; cbn [truthy andb] in Hval.
      * destruct Hval as (e1 & e2 & E1 & E2 & ->).
        apply py_get_Ok in E1 as (? & [= <-] & E1), E2 as (? & [= <-] & E2).
        exists e1, e2. auto.
      * now rewrite Hv, Hval.
    + now rewrite Hv, Hval.
Qed.

Lemma gpx_calculate_distance_spec_witness :
  exists d,
    gpx_calculate_distance (mkGPXData (Some [0; 0]) (Some [0; 180])
                              (Some [10; 13]) None None) true = Ok d
    /\ length d = 2%nat
    /\ d !! 1%nat = Some (sqrt (great_circle 0 0 0 180 ^ 2 + (13 - 10) ^ 2)).
Proof.
  destruct (gpx_calculate_distance_spec
              (mkGPXData (Some [0; 0]) (Some [0; 180]) (Some [10; 13]) None None)
              true [0; 0] [0; 180] eq_refl eq_refl eq_refl eq_refl)
    as (d & Hd & Hlen & _ & Hstep).
  exists d. split; [exact Hd|]. split; [exact Hlen|].
  destruct (Hstep 0%nat 0 0 0 180 eq_refl eq_refl eq_refl eq_refl)
    as (e1 & e2 & [= <-] & [= <-] & Hv).
  exact Hv.
Defined.

(** ** Distances are non-negative *)

Lemma EARTH_RADIUS_pos : 0 < EARTH_RADIUS.
Proof. unfold EARTH_RADIUS. lra. Qed.

Lemma asin_nonneg (x : R) : 0 <= x -> 0 <= asin x.
Proof.
  intros Hx. destruct (Rle_dec 1 x) as [H1|H1].
  - unfold asin. destruct (Rle_dec x (-1)); [lra|].
    destruct (Rle_dec 1 x); [|lra]. pose proof PI_RGT_0. lra.
  - destruct (Req_dec x 0) as [->|Hne].
    + rewrite asin_0. lra.
    + rewrite asin_atan by lra. rewrite <- atan_0.
      left. apply atan_increasing.
      apply Rdiv_lt_0_compat; [lra|].
      apply sqrt_lt_R0. unfold Rsqr. nra.
Qed.

Lemma great_circle_nonneg (a b c d : R) : 0 <= great_circle a b c d.
Proof.
  unfold great_circle. cbv zeta.
  apply Rmult_le_pos.
  - pose proof EARTH_RADIUS_pos. lra.
  - apply asin_nonneg, sqrt_pos.
Qed.

Lemma step_distance_nonneg (g : GPXData) (use_ele : bool) (i : nat) (v : R) :
  step_distance g use_ele i v -> 0 <= v.
Proof.
  intros (a1 & b1 & a2 & b2 & _ & _ & _ & _ & Hv).
  destruct (truthy (ele g) && use_ele).
  - destruct Hv as (e1 & e2 & _ & _ & ->). apply sqrt_pos.
  - subst v. apply great_circle_nonneg.
Qed.

Lemma distance_inv_nonneg (g : GPXData) (use_ele : bool) (n : nat)
    (d : list R) :
  distance_inv g use_ele n (n - 1) d -> Forall (fun x => 0 <= x) d.
Proof.
  intros (Hlen & Hzero & Hsteps).
  apply Forall_lookup. intros j x Hj.
  assert (Hjn : (j < n)%nat) by (rewrite <- Hlen; eapply lookup_lt_Some; eauto).
  destruct j as [|i].
  - rewrite (Hzero 0%nat Hjn (or_introl eq_refl)) in Hj.
    injection Hj as <-. lra.
  - destruct (Hsteps i) as (v & Hv & Hstep); [lia|].
    rewrite Hv in Hj. injection Hj as <-.
    eapply step_distance_nonneg; eauto.
Qed.

(** ** [np.cumsum] *)

Lemma cumsum_from_length (acc : R) (l : list R) :
  length (cumsum_from acc l) = length l.
Proof. revert acc. induction l as [|x l IH]; intros acc; simpl; auto. Qed.

Lemma cumsum_from_succ (acc : R) (l : list R) (i : nat) (a b : R) :
  cumsum_from acc l !! i = Some a ->
  cumsum_from acc l !! S i = Some b ->
  exists x, l !! S i = Some x /\ b = a + x.
Proof.
  revert acc i. induction l as [|y l IH]; intros acc i Ha Hb; [discriminate|].
  destruct i as [|i]; simpl in *.
  - injection Ha as <-. destruct l as [|z l]; [discriminate|].
    simpl in Hb. injection Hb as <-. eauto.
  - eapply IH; eauto.
Qed.

Lemma cumsum_from_head (acc : R) (l : list R) (a : R) :
  cumsum_from acc l !! 0%nat = Some a ->
  exists x, l !! 0%nat = Some x /\ a = acc + x.
Proof. destruct l as [|y l]; [discriminate|]. simpl. intros [= <-]. eauto. Qed.

(** C2. On every track with latitude and longitude channels of one length,
    every per-segment distance is non-negative (so also where consecutive
    points coincide), the cumulative sum of the distances is non-decreasing
    and its first element is 0. *)
Theorem cumulative_distance_monotone (g : GPXData) (use_ele : bool)
    (la lo : list R) :
  lat g = Some la -> lon g = Some lo -> length lo = length la ->
  chan_len_ok (length la) (ele g) ->
  exists d,
    gpx_calculate_distance g use_ele = Ok d
    /\ Forall (fun x => 0 <= x) d
    /\ (forall i a b, np_cumsum d !! i = Some a ->
                      np_cumsum d !! S i = Some b -> a <= b)
    /\ (forall a, np_cumsum d !! 0%nat = Some a -> a = 0).
Proof.
  intros Hla Hlo Hlen Hele.
  destruct (gpx_calculate_distance_inv g use_ele la lo Hla Hlo Hlen Hele)
    as (d & Hd & Hinv).
  pose proof (distance_inv_nonneg _ _ _ _ Hinv) as Hpos.
  exists d. split; [exact Hd|]. split; [exact Hpos|]. split.
  - intros i a b Ha Hb.
    destruct (cumsum_from_succ 0 d i a b Ha Hb) as (x & Hx & ->).
    rewrite Forall_lookup in Hpos. specialize (Hpos _ _ Hx). simpl in Hpos. lra.
  - intros a Ha.
    destruct (cumsum_from_head 0 d a Ha) as (x & Hx & ->).
    destruct Hinv as (Hl & Hzero & _).
    assert (Hn : (0 < length la)%nat).
    { rewrite <- Hl. eapply lookup_lt_Some; eauto. }
    rewrite (Hzero 0%nat Hn (or_introl eq_refl)) in Hx.
    injection Hx as <-. lra.
Qed.

Lemma cumulative_distance_monotone_witness :
  exists d,
    gpx_calculate_distance (mkGPXData (Some [1; 1; 2]) (Some [1; 1; 2])
                              None None None) true = Ok d
    /\ Forall (fun x => 0 <= x) d.
Proof.
  destruct (cumulative_distance_monotone
              (mkGPXData (Some [1; 1; 2]) (Some [1; 1; 2]) None None None)
              true [1; 1; 2] [1; 1; 2] eq_refl eq_refl eq_refl I)
    as (d & Hd & Hpos & _).
  exists d. split; [exact Hd|exact Hpos].
Defined.

(** ** [gpx_calculate_speed] *)

Lemma EPS_pos : 0 < EPS.
Proof. unfold EPS. apply Rinv_0_lt_compat. lra. Qed.

Lemma masked_quot (d dt : R) :
  np_div d (if np_lt (Fin dt) EPS then NaN else Fin dt) = quot_at d dt.
Proof.
  unfold quot_at, np_lt. destruct (Rlt_dec dt EPS) as [Hlt|Hge]; simpl.
  - reflexivity.
  - pose proof EPS_pos. destruct (Req_dec_T dt 0); [lra|reflexivity].
Qed.

Lemma speed_at_below (d dt : R) : dt < EPS -> speed_at d dt = 0.
Proof.
  intros Hlt. unfold speed_at, quot_at.
  destruct (Rlt_dec dt EPS); [reflexivity|contradiction].
Qed.

Lemma speed_at_above (d dt : R) : EPS <= dt -> speed_at d dt = d / dt.
Proof.
  intros Hge. unfold speed_at, quot_at.
  destruct (Rlt_dec dt EPS); [lra|reflexivity].
Qed.

Lemma speed_at_nonneg (d dt : R) : 0 <= d -> 0 <= speed_at d dt.
Proof.
  intros Hd. destruct (Rlt_dec dt EPS) as [Hlt|Hge].
  - rewrite speed_at_below by exact Hlt. lra.
  - rewrite speed_at_above by lra.
    pose proof EPS_pos. apply Rmult_le_pos; [exact Hd|].
    left. apply Rinv_0_lt_compat. lra.
Qed.

Lemma quot_at_finite (d dt : R) :
  quot_at d dt <> PosInf /\ quot_at d dt <> NegInf.
Proof. unfold quot_at. destruct (Rlt_dec dt EPS); split; discriminate. Qed.

Lemma np_diff_prepend_length (p : R) (a : list R) :
  length (np_diff_prepend p a) = length a.
Proof. revert p. induction a as [|x a IH]; intros p; simpl; auto. Qed.

Lemma np_diff_prepend_succ (p : R) (a : list R) (i : nat) (x y : R) :
  a !! i = Some x -> a !! S i = Some y ->
  np_diff_prepend p a !! S i = Some (y - x).
Proof.
  revert p i. induction a as [|z a IH]; intros p i Hx Hy; [discriminate|].
  destruct i as [|i]; simpl in *.
  - injection Hx as ->. destruct a as [|w a]; [discriminate|].
    simpl in *. now injection Hy as ->.
  - eapply IH; eauto.
Qed.

(** The shape of the result of [gpx_calculate_speed]: it is [nan_to_num]
    of a quotient array whose element [i] is [quot_at] of the [i]-th
    distance and the [i]-th time delta. *)
Lemma gpx_calculate_speed_char (g : GPXData) (la lo : list R) (t0 : R)
    (ts : list R) :
  lat g = Some la -> lon g = Some lo -> length lo = length la ->
  chan_len_ok (length la) (ele g) ->
  tstamp g = Some (t0 :: ts) -> length (t0 :: ts) = length la ->
  exists d q,
    gpx_calculate_distance g true = Ok d
    /\ Forall (fun x => 0 <= x) d
    /\ length d = length la
    /\ gpx_calculate_speed g = Ok (nan_to_num 0 <$> q)
    /\ length q = length la
    /\ forall i di dti,
         d !! i = Some di -> np_diff_prepend t0 (t0 :: ts) !! i = Some dti ->
         q !! i = Some (quot_at di dti).
Proof.
  intros Hla Hlo Hlen Hele Hts Htlen.
  destruct (gpx_calculate_distance_inv g true la lo Hla Hlo Hlen Hele)
    as (d & Hd & Hinv).
  pose proof (distance_inv_nonneg _ _ _ _ Hinv) as Hpos.
  destruct Hinv as (Hdlen & _).
  unfold gpx_calculate_speed. rewrite Hd, Hts.
  change (default [] (Some (t0 :: ts))) with (t0 :: ts).
  change (py_get (Some (t0 :: ts)) 0) with (@Ok R t0). cbn [bind].
  set (dts := np_diff_prepend t0 (t0 :: ts)).
  assert (Hdts : length dts = length la).
  { unfold dts. now rewrite np_diff_prepend_length. }
  unfold np_divide, mask_below.
  rewrite !length_fmap, Hdts, Hdlen.
  destruct (decide (length la = length la)) as [_|Hne]; [|congruence].
  cbn [bind]. eexists d, _. split; [reflexivity|]. split; [exact Hpos|].
  split; [exact Hdlen|]. split; [reflexivity|]. split.
  - rewrite length_zip_with, !length_fmap. lia.
  - intros i di dti Hdi Hdti.
    rewrite lookup_zip_with, Hdi. cbn [mbind option_bind].
    rewrite !list_lookup_fmap, Hdti. cbn [fmap option_fmap option_map mbind option_bind].
    now rewrite masked_quot.
Qed.

(** C6. On a track with a non-empty timestamp channel, [gpx_calculate_speed]
    returns a list of the length of the track; element 0 is 0; every step
    whose timestamp delta is below [EPS] has speed 0; no quotient is an
    infinity (the only special value, the NaN the function stores itself, is
    replaced by 0), and every returned speed is a non-negative real. *)
Theorem gpx_calculate_speed_spec (g : GPXData) (la lo : list R) (t0 : R)
    (ts : list R) :
  lat g = Some la -> lon g = Some lo -> length lo = length la ->
  chan_len_ok (length la) (ele g) ->
  tstamp g = Some (t0 :: ts) -> length (t0 :: ts) = length la ->
  exists q s,
    gpx_calculate_speed g = Ok s
    /\ s = nan_to_num 0 <$> q
    /\ length s = length la
    /\ s !! 0%nat = Some 0
    /\ (forall i t1 t2,
          (t0 :: ts) !! i = Some t1 -> (t0 :: ts) !! S i = Some t2 ->
          t2 - t1 < EPS -> s !! S i = Some 0)
    /\ Forall (fun x => x <> PosInf /\ x <> NegInf) q
    /\ Forall (fun v => 0 <= v) s.
Proof.
  intros Hla Hlo Hlen Hele Hts Htlen.
  destruct (gpx_calculate_speed_char g la lo t0 ts Hla Hlo Hlen Hele Hts Htlen)
    as (d & q & Hd & Hpos & Hdlen & Hs & Hqlen & Hq).
  assert (Hat : forall i x, q !! i = Some x ->
            exists di dti, d !! i = Some di
                           /\ np_diff_prepend t0 (t0 :: ts) !! i = Some dti
                           /\ x = quot_at di dti).
  { intros i x Hx. apply lookup_lt_Some in Hx as Hi.
    destruct (lookup_lt_is_Some_2 d i) as [di Hdi]; [lia|].
    destruct (lookup_lt_is_Some_2 (np_diff_prepend t0 (t0 :: ts)) i)
      as [dti Hdti]; [rewrite np_diff_prepend_length; lia|].
    exists di, dti. rewrite (Hq i di dti Hdi Hdti) in Hx.
    injection Hx as <-. auto. }
  exists q, (nan_to_num 0 <$> q). split; [exact Hs|]. split; [reflexivity|].
  split; [now rewrite length_fmap|]. split; [|split; [|split]].
  - destruct (lookup_lt_is_Some_2 d 0) as [d0 Hd0]; [simpl in Htlen; lia|].
    rewrite list_lookup_fmap, (Hq 0%nat d0 (t0 - t0) Hd0 eq_refl).
    cbn [fmap option_fmap option_map].
    fold (speed_at d0 (t0 - t0)). rewrite speed_at_below; [reflexivity|].
    pose proof EPS_pos. lra.
  - intros i t1 t2 H1 H2 Hlt.
    destruct (lookup_lt_is_Some_2 d (S i)) as [di Hdi].
    { apply lookup_lt_Some in H2. lia. }
    rewrite list_lookup_fmap,
      (Hq (S i) di (t2 - t1) Hdi (np_diff_prepend_succ _ _ _ _ _ H1 H2)).
    cbn [fmap option_fmap option_map].
    fold (speed_at di (t2 - t1)). now rewrite speed_at_below.
  - apply Forall_lookup. intros i x Hx.
    destruct (Hat i x Hx) as (di & dti & _ & _ & ->). apply quot_at_finite.
  - apply Forall_lookup. intros i v Hv.
    rewrite list_lookup_fmap in Hv.
    destruct (q !! i) as [x|] eqn:Hx; [|discriminate].
    injection Hv as <-.
    destruct (Hat i x Hx) as (di & dti & Hdi & _ & ->).
    apply (speed_at_nonneg di dti).
    rewrite Forall_lookup in Hpos. exact (Hpos i di Hdi).
Qed.

Lemma gpx_calculate_speed_spec_witness :
  exists s,
    gpx_calculate_speed (mkGPXData (Some [0; 0; 0]) (Some [0; 1; 2])
                           (Some [0; 0; 0]) (Some [0; 10; 10]) (Some UTC))
    = Ok s
    /\ length s = 3%nat /\ s !! 0%nat = Some 0 /\ s !! 2%nat = Some 0.
Proof.
  destruct (gpx_calculate_speed_spec
              (mkGPXData (Some [0; 0; 0]) (Some [0; 1; 2]) (Some [0; 0; 0])
                 (Some [0; 10; 10]) (Some UTC))
              [0; 0; 0] [0; 1; 2] 0 [10; 10]
              eq_refl eq_refl eq_refl eq_refl eq_refl eq_refl)
    as (q & s & Hs & _ & Hlen & H0 & Hsmall & _).
  exists s. split; [exact Hs|]. split; [exact Hlen|]. split; [exact H0|].
  apply (Hsmall 1%nat 10 10 eq_refl eq_refl).
  pose proof EPS_pos. lra.
Defined.

(** C10. On a track with a non-empty timestamp channel, a step whose
    timestamp delta is strictly below [EPS] has speed 0; in particular a
    step at which the timestamps decrease has speed 0: the function returns
    normally and the speed there is not negative. *)
Theorem gpx_calculate_speed_negative_delta (g : GPXData) (la lo : list R)
    (t0 : R) (ts : list R) (i : nat) (t1 t2 : R) :
  lat g = Some la -> lon g = Some lo -> length lo = length la ->
  chan_len_ok (length la) (ele g) ->
  tstamp g = Some (t0 :: ts) -> length (t0 :: ts) = length la ->
  (t0 :: ts) !! i = Some t1 -> (t0 :: ts) !! S i = Some t2 ->
  exists s,
    gpx_calculate_speed g = Ok s
    /\ (t2 - t1 < EPS -> s !! S i = Some 0)
    /\ (t2 < t1 -> s !! S i = Some 0).
Proof.
  intros Hla Hlo Hlen Hele Hts Htlen H1 H2.
  destruct (gpx_calculate_speed_char g la lo t0 ts Hla Hlo Hlen Hele Hts Htlen)
    as (d & q & Hd & _ & Hdlen & Hs & _ & Hq).
  exists (nan_to_num 0 <$> q). split; [exact Hs|].
  assert (Hbelow : t2 - t1 < EPS -> (nan_to_num 0 <$> q) !! S i = Some 0).
  { intros Hlt.
    destruct (lookup_lt_is_Some_2 d (S i)) as [di Hdi].
    { apply lookup_lt_Some in H2. lia. }
    rewrite list_lookup_fmap,
      (Hq (S i) di (t2 - t1) Hdi (np_diff_prepend_succ _ _ _ _ _ H1 H2)).
    cbn [fmap option_fmap option_map].
    fold (speed_at di (t2 - t1)). now rewrite speed_at_below. }
  split; [exact Hbelow|].
  intros Hdec. apply Hbelow. pose proof EPS_pos. lra.
Qed.

Lemma gpx_calculate_speed_negative_delta_witness :
  exists s,
    gpx_calculate_speed (mkGPXData (Some [0; 0]) (Some [0; 1]) None
                           (Some [20; 5]) (Some UTC)) = Ok s
    /\ s !! 1%nat = Some 0.
Proof.
  destruct (gpx_calculate_speed_negative_delta
              (mkGPXData (Some [0; 0]) (Some [0; 1]) None (Some [20; 5])
                 (Some UTC))
              [0; 0] [0; 1] 20 [5] 0%nat 20 5
              eq_refl eq_refl eq_refl I eq_refl eq_refl eq_refl eq_refl)
    as (s & Hs & _ & Hdec).
  exists s. split; [exact Hs|]. apply Hdec. lra.
Defined.

(** ** [gpx_write] *)

(** C7. With [write_speed] true and the timestamp channel absent ([None] or
    empty), [gpx_write] raises the [ValueError] of line 218 and leaves the
    file system as it was: nothing is serialized and no file is written,
    whatever the track, the file name and the external routines are. *)
Theorem gpx_write_speed_without_tstamp
    (fromtimestamp : R -> option tzinfo -> result datetime)
    (to_xml : list GPXTrackPoint -> string -> string)
    (writable : string -> bool)
    (fs : filesystem) (gpx_file : string) (gpx_data : GPXData)
    (gpx_dist : list R) :
  truthy (tstamp gpx_data) = false ->
  gpx_write fromtimestamp to_xml writable fs gpx_file gpx_data gpx_dist true
  = (fs, Raise (ValueError "tstamp data is missing from gpx_data")).
Proof.
  intros Habsent. unfold gpx_write. rewrite Habsent. reflexivity.
Qed.

Lemma gpx_write_speed_without_tstamp_witness :
  gpx_write (fun t z => Ok (mkDatetime t z)) (fun _ v => v) (fun _ => true)
            ∅ "out.gpx"
            (mkGPXData (Some [1; 2]) (Some [1; 2]) (Some [0; 0]) None None)
            [0; 1] true
  = (∅, Raise (ValueError "tstamp data is missing from gpx_data")).
Proof.
  apply (gpx_write_speed_without_tstamp
           (fun t z => Ok (mkDatetime t z)) (fun _ v => v) (fun _ => true)
           ∅ "out.gpx"
           (mkGPXData (Some [1; 2]) (Some [1; 2]) (Some [0; 0]) None None)
           [0; 1]).
  reflexivity.
Defined.

(** ** The timestamp adjustments of [main] *)

Section TimeSynthesis.

Variable parse_begintime : string -> result R.
Variable o : GPXObj.
Variable lt : loc.
Variable n : nat.
Variable h0 : store.
Hypothesis o_tstamp_lt : o_tstamp o = Some lt.
(** The latitude list keeps its length while the timestamps are rewritten. *)
Hypothesis lat_len :
  forall ts, length ts = n ->
             py_len (load_chan (<[lt := ts]> h0) (o_lat o)) = Ok n.

Lemma getitem_tstamp (ts : list R) (i : nat) (x : R) :
  ts !! i = Some x ->
  py_get (load_chan (<[lt := ts]> h0) (o_tstamp o)) i = Ok x.
Proof.
  intros Hx. rewrite o_tstamp_lt. cbn [load_chan].
  rewrite lookup_insert_eq. simpl. now rewrite Hx.
Qed.

Lemma setitem_tstamp (ts : list R) (i : nat) (v : R) :
  (i < length ts)%nat ->
  setitem (<[lt := ts]> h0) (o_tstamp o) i v = Ok (<[lt := <[i := v]> ts]> h0).
Proof.
  intros Hi. rewrite o_tstamp_lt. unfold setitem.
  rewrite lookup_insert_eq.
  destruct (decide (i < length ts)%nat) as [_|Hn]; [|contradiction].
  now rewrite insert_insert_eq.
Qed.

(** The loop of lines 286-287 keeps the shape of the store. *)
Lemma shift_loop (deltatime : R) (ts : list R) :
  length ts = n ->
  exists ts',
    for_range n (shift_body o deltatime) (<[lt := ts]> h0)
    = Ok (<[lt := ts']> h0)
    /\ length ts' = n.
Proof.
  intros Hlen. unfold for_range.
  destruct (for_range_from_inv
              (fun (_ : nat) h => exists ts', h = <[lt := ts']> h0 /\ length ts' = n)
              (shift_body o deltatime) n 0 (<[lt := ts]> h0))
    as (h & Hh & ts' & -> & Hlen').
  - eauto.
  - intros i a Hi (ts1 & -> & Hl1).
    destruct (lookup_lt_is_Some_2 ts1 i) as [x Hx]; [lia|].
    unfold shift_body. rewrite (getitem_tstamp ts1 i x Hx). cbn [bind].
    rewrite setitem_tstamp by lia.
    eexists. split; [reflexivity|].
    eexists. split; [reflexivity|]. now rewrite length_insert.
  - eauto.
Qed.

(** The loops of lines 292-293 and 297-298: afterwards every timestamp but
    the first is its predecessor plus the step. *)
Lemma retime_loop (step : nat -> result R) (inc : nat -> R) (ts : list R) :
  length ts = n ->
  (forall j, (j < n)%nat -> step j = Ok (inc j)) ->
  exists ts',
    for_range (n - 1) (retime_body o step) (<[lt := ts]> h0)
    = Ok (<[lt := ts']> h0)
    /\ length ts' = n
    /\ ts' !! 0%nat = ts !! 0%nat
    /\ forall i a b, ts' !! i = Some a -> ts' !! S i = Some b ->
                     b = a + inc (S i).
Proof.
  intros Hlen Hstep. unfold for_range.
  destruct (for_range_from_inv
              (fun (k : nat) h =>
                 exists ts', h = <[lt := ts']> h0 /\ length ts' = n
                   /\ ts' !! 0%nat = ts !! 0%nat
                   /\ forall i a b, (i < k)%nat -> ts' !! i = Some a ->
                        ts' !! S i = Some b -> b = a + inc (S i))
              (retime_body o step) (n - 1) 0 (<[lt := ts]> h0))
    as (h & Hh & ts' & -> & Hlen' & Hhead & Hrec).
  - exists ts. repeat split; auto. intros i a b Hi. lia.
  - intros k a Hk (ts1 & -> & Hl1 & Hh1 & Hr1).
    destruct (lookup_lt_is_Some_2 ts1 k) as [x Hx]; [lia|].
    unfold retime_body. rewrite (getitem_tstamp ts1 k x Hx). cbn [bind].
    replace (k + 1)%nat with (S k) by lia.
    rewrite Hstep by lia. cbn [bind].
    rewrite setitem_tstamp by lia.
    eexists. split; [reflexivity|].
    eexists. split; [reflexivity|]. split; [now rewrite length_insert|].
    split.
    + rewrite list_lookup_insert_ne by lia. exact Hh1.
    + intros i a' b' Hi Ha' Hb'.
      destruct (decide (i = k)) as [->|Hne].
      * rewrite list_lookup_insert_ne in Ha' by lia.
        rewrite list_lookup_insert_eq in Hb' by lia.
        congruence.
      * rewrite list_lookup_insert_ne in Ha' by lia.
        rewrite list_lookup_insert_ne in Hb' by lia.
        apply (Hr1 i a' b'); [lia|assumption|assumption].
  - exists ts'. split; [exact Hh|]. split; [exact Hlen'|].
    split; [exact Hhead|].
    intros i a b Ha Hb. apply (Hrec i a b); [|assumption|assumption].
    apply lookup_lt_Some in Hb. lia.
Qed.

Lemma begin_shift_shape (args : Args) (ts : list R) :
  length ts = n -> (0 < n)%nat ->
  (forall b, begintime args = Some b -> b <> EmptyString ->
             exists t, parse_begintime b = Ok t) ->
  exists ts',
    begin_shift parse_begintime args o (<[lt := ts]> h0)
    = Ok (<[lt := ts']> h0)
    /\ length ts' = n.
Proof.
  intros Hlen Hpos Hparse. unfold begin_shift.
  destruct (begintime args) as [[|c b]|] eqn:Hb; [eauto| |eauto].
  destruct (Hparse _ eq_refl) as [t Ht]; [discriminate|].
  rewrite Ht. cbn [bind].
  destruct (lookup_lt_is_Some_2 ts 0) as [t0 Ht0]; [lia|].
  rewrite (getitem_tstamp ts 0 t0 Ht0). cbn [bind].
  rewrite (lat_len ts Hlen). cbn [bind].
  apply shift_loop. exact Hlen.
Qed.

End TimeSynthesis.

Lemma load_chan_Some (h : store) (r : option loc) (l : list R) :
  load_chan h r = Some l <-> exists k, r = Some k /\ h !! k = Some l.
Proof.
  destruct r as [k|]; simpl; split.
  - eauto.
  - intros (k' & [= <-] & Hk). exact Hk.
  - discriminate.
  - intros (k' & Hk & _). discriminate.
Qed.

(** The three adjustments return normally on a track with timestamps
    (provided the begin time parses), and if a retiming runs, every
    timestamp but the first is afterwards its predecessor plus
    [retimed_step]. *)
Lemma time_synthesis_retimed
    (parse_begintime : string -> result R) (args : Args) (h : store)
    (o : GPXObj) (la : list R) (t0 : R) (ts gpx_dist : list R) :
  lat (load h o) = Some la ->
  tstamp (load h o) = Some (t0 :: ts) -> length (t0 :: ts) = length la ->
  length gpx_dist = length la ->
  (forall b, begintime args = Some b -> b <> EmptyString ->
             exists t, parse_begintime b = Ok t) ->
  exists h' ts',
    time_synthesis parse_begintime args o gpx_dist h = Ok h'
    /\ tstamp (load h' o) = Some ts'
    /\ length ts' = length la
    /\ ((0 < velocity args \/ exists dt, intervaltime args = Some dt /\ 0 < dt) ->
        forall i a b, ts' !! i = Some a -> ts' !! S i = Some b ->
                      b = a + retimed_step args gpx_dist (S i)).
Proof.
  intros Hla Hts Htlen Hdlen Hparse.
  cbn [load tstamp lat] in Hts, Hla.
  apply load_chan_Some in Hts as (lt & Hot & Hlt).
  apply load_chan_Some in Hla as (ll & Hol & Hll).
  set (n := length la) in *.
  assert (Hlatlen : forall ts1, length ts1 = n ->
            py_len (load_chan (<[lt := ts1]> h) (o_lat o)) = Ok n).
  { intros ts1 Hl1. rewrite Hol. cbn [load_chan].
    destruct (decide (lt = ll)) as [->|Hne].
    - rewrite lookup_insert_eq. simpl. now rewrite Hl1.
    - rewrite lookup_insert_ne by exact Hne. rewrite Hll. reflexivity. }
  assert (Hn : (0 < n)%nat) by (simpl in Htlen; lia).
  enough (Hgoal : forall hs, hs = <[lt := t0 :: ts]> h ->
            exists h' ts',
              time_synthesis parse_begintime args o gpx_dist hs = Ok h'
              /\ tstamp (load h' o) = Some ts'
              /\ length ts' = n
              /\ ((0 < velocity args
                   \/ exists dt, intervaltime args = Some dt /\ 0 < dt) ->
                  forall i a b, ts' !! i = Some a -> ts' !! S i = Some b ->
                                b = a + retimed_step args gpx_dist (S i))).
  { apply Hgoal. symmetry. apply insert_id. exact Hlt. }
  intros hs ->.
  unfold time_synthesis.
  destruct (begin_shift_shape parse_begintime o lt n h Hot Hlatlen args
              (t0 :: ts) Htlen Hn Hparse) as (ts1 & -> & Hl1).
  cbn [bind].
  (* the velocity retiming *)
  assert (Hvel : exists ts2,
            velocity_retiming args o gpx_dist (<[lt := ts1]> h)
            = Ok (<[lt := ts2]> h)
            /\ length ts2 = n
            /\ (0 < velocity args ->
                forall i a b, ts2 !! i = Some a -> ts2 !! S i = Some b ->
                  b = a + default 0 (gpx_dist !! S i) / velocity args)).
  { unfold velocity_retiming.
    destruct (Rlt_dec 0 (velocity args)) as [Hv|Hv].
    - rewrite (Hlatlen ts1 Hl1). cbn [bind].
      destruct (retime_loop o lt n h Hot
                  (py_get (Some ((fun x => x / velocity args) <$> gpx_dist)))
                  (fun j => default 0 (gpx_dist !! j) / velocity args)
                  ts1 Hl1) as (ts2 & -> & Hl2 & _ & Hrec).
      + intros j Hj.
        destruct (lookup_lt_is_Some_2 gpx_dist j) as [x Hx]; [lia|].
        simpl. rewrite list_lookup_fmap, Hx. reflexivity.
      + exists ts2. auto.
    - exists ts1. split; [reflexivity|]. split; [exact Hl1|]. intros; lra. }
  destruct Hvel as (ts2 & -> & Hl2 & Hrec2). cbn [bind].
  assert (Hload : forall ts3, tstamp (load (<[lt := ts3]> h) o) = Some ts3).
  { intros ts3. cbn [load tstamp]. rewrite Hot. apply lookup_insert_eq. }
  (* the interval retiming *)
  unfold interval_retiming, retimed_step.
  destruct (intervaltime args) as [dt|] eqn:Hint.
  - destruct (Rlt_dec 0 dt) as [Hdt|Hdt].
    + rewrite (Hlatlen ts2 Hl2). cbn [bind].
      destruct (retime_loop o lt n h Hot (fun _ => Ok dt) (fun _ => dt)
                  ts2 Hl2) as (ts3 & -> & Hl3 & _ & Hrec3); [reflexivity|].
      exists (<[lt := ts3]> h), ts3.
      split; [reflexivity|]. split; [apply Hload|]. split; [exact Hl3|].
      intros _. exact Hrec3.
    + exists (<[lt := ts2]> h), ts2.
      split; [reflexivity|]. split; [apply Hload|]. split; [exact Hl2|].
      intros Hactive. apply Hrec2.
      destruct Hactive as [Hv|(dt' & [= <-] & Hdt')]; [exact Hv|lra].
  - exists (<[lt := ts2]> h), ts2.
    split; [reflexivity|]. split; [apply Hload|]. split; [exact Hl2|].
    intros Hactive. apply Hrec2.
    destruct Hactive as [Hv|(dt' & [=] & _)]; exact Hv.
Qed.

Lemma retimed_step_nonneg (args : Args) (gpx_dist : list R) (j : nat) :
  Forall (fun x => 0 <= x) gpx_dist ->
  (0 < velocity args \/ exists dt, intervaltime args = Some dt /\ 0 < dt) ->
  0 <= retimed_step args gpx_dist j.
Proof.
  intros Hpos Hactive. unfold retimed_step.
  assert (Hquot : 0 < velocity args ->
            0 <= default 0 (gpx_dist !! j) / velocity args).
  { intros Hv. apply Rmult_le_pos; [|left; now apply Rinv_0_lt_compat].
    destruct (gpx_dist !! j) as [x|] eqn:Hx; simpl; [|lra].
    rewrite Forall_lookup in Hpos. exact (Hpos j x Hx). }
  destruct (intervaltime args) as [dt|].
  - destruct (Rlt_dec 0 dt) as [Hdt|Hdt]; [lra|].
    apply Hquot. destruct Hactive as [Hv|(dt' & [= <-] & Hdt')]; [exact Hv|lra].
  - apply Hquot. destruct Hactive as [Hv|(dt' & [=] & _)]; exact Hv.
Qed.

(** C8. Take a track with latitude, longitude and timestamp channels of one
    non-zero length, and arguments under which a retiming runs (the velocity
    is positive, or the interval is present and positive).  Then the three
    adjustments of [main] return normally (provided the begin time parses),
    and afterwards every timestamp but the first is its predecessor plus
    the interval (if that retiming ran: it is the later one) or else plus
    the distance of the step over the velocity; hence the timestamps are
    non-decreasing. *)
Theorem time_synthesis_nondecreasing
    (parse_begintime : string -> result R) (args : Args) (h : store)
    (o : GPXObj) (la lo : list R) (t0 : R) (ts gpx_dist : list R) :
  lat (load h o) = Some la -> lon (load h o) = Some lo ->
  length lo = length la -> chan_len_ok (length la) (ele (load h o)) ->
  tstamp (load h o) = Some (t0 :: ts) -> length (t0 :: ts) = length la ->
  gpx_calculate_distance (load h o) true = Ok gpx_dist ->
  (forall b, begintime args = Some b -> b <> EmptyString ->
             exists t, parse_begintime b = Ok t) ->
  (0 < velocity args \/ exists dt, intervaltime args = Some dt /\ 0 < dt) ->
  exists h' ts',
    time_synthesis parse_begintime args o gpx_dist h = Ok h'
    /\ tstamp (load h' o) = Some ts'
    /\ length ts' = length la
    /\ (forall i a b, ts' !! i = Some a -> ts' !! S i = Some b ->
                      b = a + retimed_step args gpx_dist (S i))
    /\ nondecreasing ts'.
Proof.
  intros Hla Hlo Hlen Hele Hts Htlen Hdist Hparse Hactive.
  destruct (gpx_calculate_distance_inv _ true la lo Hla Hlo Hlen Hele)
    as (d & Hd & Hinv).
  assert (d = gpx_dist) as -> by congruence.
  pose proof (distance_inv_nonneg _ _ _ _ Hinv) as Hpos.
  destruct Hinv as (Hdlen & _).
  destruct (time_synthesis_retimed parse_begintime args h o la t0 ts gpx_dist
              Hla Hts Htlen Hdlen Hparse)
    as (h' & ts' & Hsyn & Hload & Hl & Hrec).
  exists h', ts'. repeat (split; [assumption|]).
  split; [exact (Hrec Hactive)|].
  intros i a b Ha Hb. rewrite (Hrec Hactive i a b Ha Hb).
  pose proof (retimed_step_nonneg args gpx_dist (S i) Hpos Hactive). lra.
Qed.

Lemma time_synthesis_nondecreasing_witness :
  let h : store := <[2%nat := [5; 3]]> (<[1%nat := [0; 1]]> (<[0%nat := [0; 0]]> ∅)) in
  let o := mkGPXObj (Some 0%nat) (Some 1%nat) None (Some 2%nat) (Some UTC) in
  let args := mkArgs 1 None None 2 false None in
  exists gpx_dist h' ts',
    gpx_calculate_distance (load h o) true = Ok gpx_dist
    /\ time_synthesis (fun _ => Raise (ValueError "bad format")) args o gpx_dist h
       = Ok h'
    /\ tstamp (load h' o) = Some ts'
    /\ nondecreasing ts'.
Proof.
  intros h o args.
  destruct (gpx_calculate_distance_inv (load h o) true [0; 0] [0; 1]
              eq_refl eq_refl eq_refl I) as (d & Hd & _).
  destruct (time_synthesis_nondecreasing
              (fun _ => Raise (ValueError "bad format")) args h o
              [0; 0] [0; 1] 5 [3] d
              eq_refl eq_refl eq_refl I eq_refl eq_refl Hd)
    as (h' & ts' & Hsyn & Hload & _ & _ & Hmono).
  - intros b Hb. discriminate.
  - left. simpl. lra.
  - exists d, h', ts'. auto.
Defined.

(** ** The store: allocation and frames *)

(** What holds before a loop and is kept by every successful iteration holds
    after the loop, if the loop returns. *)
Lemma for_range_from_preserves {A : Type} (Q : A -> Prop)
    (body : A -> nat -> result A) (n start : nat) (acc r : A) :
  (forall i a a', body a i = Ok a' -> Q a -> Q a') ->
  Q acc -> for_range_from start n body acc = Ok r -> Q r.
Proof.
  intros Hbody. revert start acc.
  induction n as [|n IH]; intros start acc HQ Hrun; simpl in Hrun.
  - now injection Hrun as <-.
  - apply bind_Ok in Hrun as (a' & Ha' & Hrest).
    eapply IH; [|exact Hrest]. eapply Hbody; eauto.
Qed.

Lemma load_chan_weaken (h h' : store) (r : option loc) :
  h ⊆ h' -> ref_ok h r -> load_chan h' r = load_chan h r.
Proof.
  intros Hsub Hok. destruct r as [l|]; [|reflexivity].
  destruct Hok as [x Hx]. simpl. rewrite Hx.
  eapply lookup_weaken; eauto.
Qed.

Lemma ref_ok_weaken (h h' : store) (r : option loc) :
  h ⊆ h' -> ref_ok h r -> ref_ok h' r.
Proof.
  intros Hsub Hok. destruct r as [l|]; [|exact I].
  destruct Hok as [x Hx]. exists x. eapply lookup_weaken; eauto.
Qed.

Lemma ref_new_weaken (h h' : store) (r : option loc) :
  h ⊆ h' -> ref_new h' r -> ref_new h r.
Proof.
  intros Hsub Hnew. destruct r as [l|]; [|exact I]. simpl in *.
  destruct (h !! l) as [x|] eqn:Hx; [|reflexivity].
  rewrite (lookup_weaken _ _ _ _ Hx Hsub) in Hnew. discriminate.
Qed.

Lemma load_weaken (h h' : store) (o : GPXObj) :
  h ⊆ h' -> obj_ok h o -> load h' o = load h o.
Proof.
  intros Hsub (H1 & H2 & H3 & H4). unfold load.
  now rewrite !(load_chan_weaken h h') by assumption.
Qed.

Lemma alloc_chan_spec (h h' : store) (c : channel) (r : option loc) :
  alloc_chan h c = (h', r) ->
  h ⊆ h' /\ load_chan h' r = c /\ ref_ok h' r /\ ref_new h r.
Proof.
  unfold alloc_chan. destruct c as [l|]; intros [= <- <-].
  - assert (Hfresh : h !! fresh (dom h) = None).
    { apply not_elem_of_dom. apply is_fresh. }
    repeat split.
    + now apply insert_subseteq.
    + simpl. apply lookup_insert_eq.
    + exists l. apply lookup_insert_eq.
    + exact Hfresh.
  - repeat split; reflexivity.
Qed.

Lemma alloc_data_spec (h h' : store) (g : GPXData) (o : GPXObj) :
  alloc_data h g = (h', o) ->
  h ⊆ h' /\ load h' o = g /\ obj_ok h' o /\ obj_new h o.
Proof.
  unfold alloc_data.
  destruct (alloc_chan h (lat g)) as [h1 r1] eqn:E1.
  destruct (alloc_chan h1 (lon g)) as [h2 r2] eqn:E2.
  destruct (alloc_chan h2 (ele g)) as [h3 r3] eqn:E3.
  destruct (alloc_chan h3 (tstamp g)) as [h4 r4] eqn:E4.
  intros [= <- <-].
  apply alloc_chan_spec in E1 as (S1 & L1 & O1 & N1).
  apply alloc_chan_spec in E2 as (S2 & L2 & O2 & N2).
  apply alloc_chan_spec in E3 as (S3 & L3 & O3 & N3).
  apply alloc_chan_spec in E4 as (S4 & L4 & O4 & N4).
  assert (S24 : h2 ⊆ h4) by (etrans; [exact S3|exact S4]).
  assert (S14 : h1 ⊆ h4) by (etrans; [exact S2|exact S24]).
  assert (S02 : h ⊆ h2) by (etrans; [exact S1|exact S2]).
  assert (S03 : h ⊆ h3) by (etrans; [exact S02|exact S3]).
  split; [etrans; [exact S1|exact S14]|]. split; [|split].
  - unfold load. cbn [o_lat o_lon o_ele o_tstamp o_tz].
    rewrite (load_chan_weaken h1 h4 r1 S14 O1), L1.
    rewrite (load_chan_weaken h2 h4 r2 S24 O2), L2.
    rewrite (load_chan_weaken h3 h4 r3 S4 O3), L3, L4.
    now destruct g.
  - repeat split; cbn [o_lat o_lon o_ele o_tstamp].
    + exact (ref_ok_weaken h1 h4 r1 S14 O1).
    + exact (ref_ok_weaken h2 h4 r2 S24 O2).
    + exact (ref_ok_weaken h3 h4 r3 S4 O3).
    + exact O4.
  - repeat split; cbn [o_lat o_lon o_ele o_tstamp].
    + exact N1.
    + exact (ref_new_weaken h h1 r2 S1 N2).
    + exact (ref_new_weaken h h2 r3 S02 N3).
    + exact (ref_new_weaken h h3 r4 S03 N4).
Qed.

(** ** Points at distance zero

    The argument of the square root in the haversine formula is a quarter of
    the squared chord between the two points on the unit sphere, so the
    distance is zero exactly when the two points are the same point of the
    sphere. *)

Lemma haversine_chord (p1 l1 p2 l2 : R) :
  haversine (p2 - p1) + cos p1 * cos p2 * haversine (l2 - l1)
  = ((cos p1 * cos l1 - cos p2 * cos l2) ^ 2
     + (cos p1 * sin l1 - cos p2 * sin l2) ^ 2
     + (sin p1 - sin p2) ^ 2) / 4.
Proof.
  unfold haversine. rewrite !cos_minus.
  pose proof (sin2_cos2 p1) as H1. pose proof (sin2_cos2 p2) as H2.
  pose proof (sin2_cos2 l1) as H3. pose proof (sin2_cos2 l2) as H4.
  unfold Rsqr in *.
  generalize dependent (sin p1). generalize dependent (cos p1).
  generalize dependent (sin p2). generalize dependent (cos p2).
  generalize dependent (sin l1). generalize dependent (cos l1).
  generalize dependent (sin l2). generalize dependent (cos l2).
  intros cl2 sl2 H4 cl1 sl1 H3 cp2 sp2 H2 cp1 sp1 H1.
  nra.
Qed.

Lemma asin_eq_0 (x : R) : 0 <= x -> asin x = 0 -> x = 0.
Proof.
  intros Hx H0. destruct (Rle_dec 1 x) as [H1|H1].
  - exfalso. unfold asin in H0.
    destruct (Rle_dec x (-1)); [lra|].
    destruct (Rle_dec 1 x); [|lra]. pose proof PI_RGT_0. lra.
  - rewrite <- (sin_asin x) by lra. rewrite H0. apply sin_0.
Qed.

Lemma great_circle_zero_iff (a b c d : R) :
  great_circle a b c d = 0 <-> on_sphere a b = on_sphere c d.
Proof.
  unfold great_circle, on_sphere. cbv zeta.
  rewrite haversine_chord.
  set (x := cos (radians a) * cos (radians b) - cos (radians c) * cos (radians d)).
  set (y := cos (radians a) * sin (radians b) - cos (radians c) * sin (radians d)).
  set (z := sin (radians a) - sin (radians c)).
  assert (Hq : 0 <= (x ^ 2 + y ^ 2 + z ^ 2) / 4) by nra.
  split.
  - intros H0.
    assert (Hasin : asin (sqrt ((x ^ 2 + y ^ 2 + z ^ 2) / 4)) = 0).
    { pose proof EARTH_RADIUS_pos. nra. }
    apply asin_eq_0 in Hasin; [|apply sqrt_pos].
    apply sqrt_eq_0 in Hasin; [|exact Hq].
    assert (x = 0 /\ y = 0 /\ z = 0) as (Hx & Hy & Hz) by (repeat split; nra).
    unfold x, y, z in *. f_equal; [f_equal|]; lra.
  - intros [= Hx Hy Hz].
    assert (x = 0) as -> by (unfold x; lra).
    assert (y = 0) as -> by (unfold y; lra).
    assert (z = 0) as -> by (unfold z; lra).
    replace ((0 ^ 2 + 0 ^ 2 + 0 ^ 2) / 4) with 0 by field.
    rewrite sqrt_0, asin_0. ring.
Qed.

(** ** [gpx_remove_duplicates] *)

Lemma steps_length (prev : R * R) (pts : list (R * R)) :
  length (steps prev pts) = length pts.
Proof. revert prev. induction pts as [|p pts IH]; intros prev; simpl; auto. Qed.

Lemma steps_lookup (prev : R * R) (pts : list (R * R)) (i : nat) (p q : R * R) :
  (prev :: pts) !! i = Some p -> (prev :: pts) !! S i = Some q ->
  steps prev pts !! i = Some (gc_points p q).
Proof.
  revert prev i. induction pts as [|r pts IH]; intros prev i Hp Hq.
  - destruct i; discriminate.
  - destruct i as [|i]; simpl in *.
    + now injection Hp as ->; injection Hq as ->.
    + apply IH; assumption.
Qed.

Lemma lookup_zip_pair {A B : Type} (l1 : list A) (l2 : list B) (i : nat)
    (x : A) (y : B) :
  l1 !! i = Some x -> l2 !! i = Some y -> zip l1 l2 !! i = Some (x, y).
Proof.
  intros H1 H2. rewrite lookup_zip_with, H1. cbn [mbind option_bind].
  now rewrite H2.
Qed.

(** Without elevation the result of [gpx_calculate_distance] is 0 followed by
    the distances of the consecutive points. *)
Lemma gpx_calculate_distance_steps (g : GPXData) (la lo : list R)
    (a o : R) (la' lo' : list R) :
  lat g = Some la -> lon g = Some lo -> length lo = length la ->
  chan_len_ok (length la) (ele g) ->
  la = a :: la' -> lo = o :: lo' ->
  gpx_calculate_distance g false = Ok (0 :: steps (a, o) (zip la' lo')).
Proof.
  intros Hla Hlo Hlen Hele -> ->.
  destruct (gpx_calculate_distance_inv g false _ _ Hla Hlo Hlen Hele)
    as (d & Hd & Hdlen & Hzero & Hsteps).
  rewrite Hd. f_equal. apply list_eq. intros i.
  simpl in Hlen, Hdlen. injection Hlen as Hlen.
  destruct i as [|i].
  - apply Hzero; [simpl; lia|now left].
  - destruct (decide (i < length la')%nat) as [Hi|Hi].
    + destruct (Hsteps i) as (v & Hv & lat1 & lon1 & lat2 & lon2
                               & G1 & G2 & G3 & G4 & Hval); [simpl; lia|].
      rewrite andb_false_r in Hval. subst v. rewrite Hv.
      rewrite Hla in G1, G3. rewrite Hlo in G2, G4.
      apply py_get_Ok in G1 as (? & [= <-] & G1), G2 as (? & [= <-] & G2),
                         G3 as (? & [= <-] & G3), G4 as (? & [= <-] & G4).
      symmetry. simpl.
      apply (steps_lookup (a, o) (zip la' lo') i (lat1, lon1) (lat2, lon2)).
      * change ((a, o) :: zip la' lo') with (zip (a :: la') (o :: lo')).
        now apply lookup_zip_pair.
      * change ((a, o) :: zip la' lo') with (zip (a :: la') (o :: lo')).
        now apply lookup_zip_pair.
    + rewrite !lookup_ge_None_2; [reflexivity| |].
      * simpl. rewrite steps_length, length_zip_with. lia.
      * simpl in *. lia.
Qed.

Lemma gc_points_zero_iff (p q : R * R) :
  gc_points p q = 0 <-> on_sphere (fst p) (snd p) = on_sphere (fst q) (snd q).
Proof. apply great_circle_zero_iff. Qed.

(** Two points at distance zero are at distance zero from the same points. *)
Lemma gc_points_zero_trans (p p' q : R * R) :
  gc_points p p' = 0 -> (gc_points p q = 0 <-> gc_points p' q = 0).
Proof.
  rewrite !gc_points_zero_iff. intros ->. reflexivity.
Qed.

Lemma retained_mask_from_same_place (p p' : R * R) (pts : list (R * R)) :
  gc_points p p' = 0 ->
  retained_mask_from p pts = retained_mask_from p' pts.
Proof.
  intros Hpp. induction pts as [|q pts IH]; [reflexivity|]. simpl.
  pose proof (gc_points_zero_trans p p' q Hpp) as Hiff.
  destruct (Req_dec_T (gc_points p q) 0) as [Hz|Hnz],
           (Req_dec_T (gc_points p' q) 0) as [Hz'|Hnz'].
  - now rewrite IH.
  - tauto.
  - tauto.
  - reflexivity.
Qed.

(** The code compares a point with its predecessor in the input, the
    specification with the previous retained point: the masks agree. *)
Lemma nonzero_mask_steps (prev : R * R) (pts : list (R * R)) :
  nonzero_mask (steps prev pts) = retained_mask_from prev pts.
Proof.
  revert prev. induction pts as [|p pts IH]; intros prev; [reflexivity|].
  unfold nonzero_mask in *. simpl.
  destruct (Req_dec_T (gc_points prev p) 0) as [Hz|Hnz].
  - rewrite IH. f_equal. symmetry.
    now apply retained_mask_from_same_place.
  - now rewrite IH.
Qed.

Lemma take_indices_nonzero (l ds : list R) (k : nat) :
  (k + length ds = length l)%nat ->
  take_indices (Some l) (nonzero_from k ds)
  = Ok (select (nonzero_mask ds) (drop k l)).
Proof.
  revert k. induction ds as [|x ds IH]; intros k Hlen; [reflexivity|].
  simpl in Hlen.
  destruct (lookup_lt_is_Some_2 l k) as [y Hy]; [lia|].
  rewrite (drop_S l y k Hy). unfold nonzero_mask in *. simpl.
  destruct (Req_dec_T x 0) as [Hz|Hnz].
  - apply IH. lia.
  - simpl. rewrite Hy. cbn [bind]. rewrite IH by lia. reflexivity.
Qed.

Lemma nonzero_from_length_le (ds : list R) (k : nat) :
  (length (nonzero_from k ds) <= length ds)%nat.
Proof.
  revert k. induction ds as [|x ds IH]; intros k; simpl; [lia|].
  specialize (IH (S k)). destruct (Req_dec_T x 0); simpl; lia.
Qed.

Lemma nonzero_from_length_eq (ds : list R) (k : nat) :
  length (nonzero_from k ds) = length ds <->
  Forall (fun b => b = true) (nonzero_mask ds).
Proof.
  revert k. induction ds as [|x ds IH]; intros k.
  - split; [constructor|reflexivity].
  - unfold nonzero_mask in *. rewrite fmap_cons. cbn [nonzero_from].
    pose proof (nonzero_from_length_le ds (S k)) as Hle.
    destruct (Req_dec_T x 0) as [Hz|Hnz]; simpl.
    + split; [lia|]. intros HF. inversion HF; discriminate.
    + rewrite Forall_cons. specialize (IH (S k)).
      split.
      * intros [= Hl]. split; [reflexivity|]. now apply IH.
      * intros [_ HF]. f_equal. now apply IH.
Qed.

Lemma select_all_true {A : Type} (mask : list bool) (l : list A) :
  length mask = length l -> Forall (fun b => b = true) mask ->
  select mask l = l.
Proof.
  revert l. induction mask as [|b mask IH]; intros [|x l] Hlen HF;
    try discriminate; [reflexivity|].
  apply Forall_cons in HF as [-> HF]. simpl. f_equal.
  apply IH; [simpl in Hlen; lia|exact HF].
Qed.

Lemma select_length {A B : Type} (mask : list bool) (l1 : list A)
    (l2 : list B) :
  length l1 = length l2 -> length (select mask l1) = length (select mask l2).
Proof.
  revert l1 l2. induction mask as [|b mask IH]; intros [|x l1] [|y l2] Hlen;
    try discriminate; try reflexivity.
  simpl in *. destruct b; simpl; [f_equal|]; apply IH; lia.
Qed.

Lemma select_zip {A B : Type} (mask : list bool) (l1 : list A) (l2 : list B) :
  length l1 = length l2 ->
  zip (select mask l1) (select mask l2) = select mask (zip l1 l2).
Proof.
  revert l1 l2. induction mask as [|b mask IH]; intros [|x l1] [|y l2] Hlen;
    try discriminate; try reflexivity.
  simpl in *. destruct b; simpl; [f_equal|]; apply IH; lia.
Qed.

Lemma retained_mask_from_length (prev : R * R) (pts : list (R * R)) :
  length (retained_mask_from prev pts) = length pts.
Proof.
  revert prev. induction pts as [|p pts IH]; intros prev; [reflexivity|].
  simpl. destruct (Req_dec_T (gc_points prev p) 0); simpl; now rewrite IH.
Qed.

(** No retained point is at distance zero from the retained point before
    it: on the retained points the mask is all true. *)
Lemma retained_mask_from_select (prev : R * R) (pts : list (R * R)) :
  Forall (fun b => b = true)
    (retained_mask_from prev (select (retained_mask_from prev pts) pts)).
Proof.
  revert prev. induction pts as [|p pts IH]; intros prev; [constructor|].
  simpl. destruct (Req_dec_T (gc_points prev p) 0) as [Hz|Hnz]; simpl.
  - apply IH.
  - destruct (Req_dec_T (gc_points prev p) 0); [contradiction|].
    constructor; [reflexivity|apply IH].
Qed.

Lemma reindex_nonzero (c : channel) (ds : list R) :
  chan_len_ok (S (length ds)) c ->
  reindex c (0%nat :: nonzero_from 1 ds)
  = Ok (select (true :: nonzero_mask ds) <$> c).
Proof.
  intros Hlen. unfold reindex. destruct c as [[|x l]|]; simpl in Hlen.
  - discriminate.
  - cbn [truthy take_indices py_get lookup list_lookup bind].
    rewrite (take_indices_nonzero (x :: l) ds 1) by (simpl; lia).
    reflexivity.
  - reflexivity.
Qed.

Lemma apply_mask_all_true (mask : list bool) (g : GPXData) (la : list R) :
  lat g = Some la -> length mask = length la ->
  chan_len_ok (length la) (lon g) -> chan_len_ok (length la) (ele g) ->
  chan_len_ok (length la) (tstamp g) ->
  Forall (fun b => b = true) mask ->
  apply_mask mask g = g.
Proof.
  intros Hla Hm Hlo Hele Hts HF. unfold apply_mask.
  assert (Hc : forall c, chan_len_ok (length la) c -> select mask <$> c = c).
  { intros [l|] Hl; [|reflexivity]. simpl in *.
    rewrite select_all_true; [reflexivity|congruence|exact HF]. }
  rewrite (Hc (lon g) Hlo), (Hc (ele g) Hele), (Hc (tstamp g) Hts).
  rewrite (Hc (lat g)) by (rewrite Hla; reflexivity).
  now destruct g.
Qed.

(** On a non-empty track [gpx_remove_duplicates] keeps, in every channel that
    is present, the elements the retained mask selects. *)
Lemma gpx_remove_duplicates_mask (g : GPXData) (a o : R) (la lo : list R) :
  lat g = Some (a :: la) -> lon g = Some (o :: lo) -> length lo = length la ->
  chan_len_ok (S (length la)) (ele g) ->
  chan_len_ok (S (length la)) (tstamp g) ->
  gpx_remove_duplicates g
  = Ok (apply_mask (retained_mask (zip (a :: la) (o :: lo))) g).
Proof.
  intros Hla Hlo Hlen Hele Hts.
  unfold gpx_remove_duplicates, kept_indices.
  rewrite (gpx_calculate_distance_steps g (a :: la) (o :: lo) a o la lo)
    by (simpl; auto).
  cbn [bind]. unfold np_nonzero. cbn [nonzero_from].
  destruct (Req_dec_T 0 0) as [_|Hne]; [|contradiction].
  set (ds := steps (a, o) (zip la lo)).
  assert (Hds : length ds = length la).
  { unfold ds. rewrite steps_length, length_zip_with. lia. }
  assert (Hmask : retained_mask (zip (a :: la) (o :: lo))
                  = true :: nonzero_mask ds).
  { simpl. unfold ds. now rewrite nonzero_mask_steps. }
  rewrite Hmask.
  destruct (decide (length (0%nat :: nonzero_from 1 ds) = length (0 :: ds)))
    as [Heq|Hneq].
  - f_equal. symmetry. apply (apply_mask_all_true _ g (a :: la)).
    + exact Hla.
    + simpl. unfold nonzero_mask. rewrite length_fmap. lia.
    + rewrite Hlo. simpl. lia.
    + exact Hele.
    + exact Hts.
    + constructor; [reflexivity|].
      apply (nonzero_from_length_eq ds 1). simpl in Heq. lia.
  - unfold build_nodup. rewrite <- Hds in Hele, Hts.
    rewrite !reindex_nonzero; try assumption.
    + reflexivity.
    + rewrite Hlo. simpl. lia.
    + rewrite Hla. simpl. lia.
Qed.

Lemma retained_mask_from_all_true (prev : R * R) (pts : list (R * R)) :
  Forall (fun b => b = true) (retained_mask_from prev pts)
  <-> Forall (fun d => d <> 0) (steps prev pts).
Proof.
  revert prev. induction pts as [|p pts IH]; intros prev; simpl.
  - split; constructor.
  - destruct (Req_dec_T (gc_points prev p) 0) as [Hz|Hnz];
      rewrite !Forall_cons.
    + split; [intros [[=] _]|intros [Hne _]; contradiction].
    + rewrite IH. tauto.
Qed.

(** If two consecutive points are not at the same place, a point other than
    point 0 is retained. *)
Lemma retained_select_nonempty (prev : R * R) (pts : list (R * R)) :
  Exists (fun d => d <> 0) (steps prev pts) ->
  select (retained_mask_from prev pts) pts <> [].
Proof.
  revert prev. induction pts as [|p pts IH]; intros prev Hex; simpl in *.
  - inversion Hex.
  - destruct (Req_dec_T (gc_points prev p) 0) as [Hz|Hnz]; [|discriminate].
    apply Exists_cons in Hex as [Hne|Hex]; [contradiction|].
    rewrite (retained_mask_from_same_place prev p pts Hz).
    apply IH. exact Hex.
Qed.

Lemma chan_len_ok_select (mask : list bool) (l0 : list R) (c : channel) :
  chan_len_ok (length l0) c ->
  chan_len_ok (length (select mask l0)) (select mask <$> c).
Proof.
  destruct c as [l|]; simpl; [|auto].
  intros Hl. now apply select_length.
Qed.

(** Duplicate removal on a non-empty track: the result is the track of the
    retained points; point 0 is retained; no two consecutive retained points
    are at distance zero; a track without duplicates is returned as it is;
    removing duplicates a second time changes nothing. *)
Lemma gpx_remove_duplicates_nonempty (g : GPXData) (a o : R) (la lo : list R) :
  lat g = Some (a :: la) -> lon g = Some (o :: lo) -> length lo = length la ->
  chan_len_ok (S (length la)) (ele g) ->
  chan_len_ok (S (length la)) (tstamp g) ->
  let mask := retained_mask (zip (a :: la) (o :: lo)) in
  let g' := apply_mask mask g in
  gpx_remove_duplicates g = Ok g'
  /\ (exists la' lo',
        lat g' = Some (a :: la') /\ lon g' = Some (o :: lo')
        /\ length lo' = length la'
        /\ chan_len_ok (S (length la')) (ele g')
        /\ chan_len_ok (S (length la')) (tstamp g')
        /\ Forall (fun d => d <> 0) (steps (a, o) (zip la' lo'))
        /\ (Exists (fun d => d <> 0) (steps (a, o) (zip la lo)) -> la' <> []))
  /\ (Forall (fun d => d <> 0) (steps (a, o) (zip la lo)) -> g' = g)
  /\ gpx_remove_duplicates g' = Ok g'.
Proof.
  intros Hla Hlo Hlen Hele Hts mask g'.
  pose proof (gpx_remove_duplicates_mask g a o la lo Hla Hlo Hlen Hele Hts)
    as Hrd. fold mask in Hrd. fold g' in Hrd.
  set (mf := retained_mask_from (a, o) (zip la lo)).
  assert (Hmask : mask = true :: mf) by reflexivity.
  assert (Hla' : lat g' = Some (a :: select mf la)).
  { unfold g', apply_mask. cbn [lat]. rewrite Hla, Hmask. reflexivity. }
  assert (Hlo' : lon g' = Some (o :: select mf lo)).
  { unfold g', apply_mask. cbn [lon]. rewrite Hlo, Hmask. reflexivity. }
  assert (Hlen' : length (select mf lo) = length (select mf la)).
  { apply select_length. exact Hlen. }
  assert (Hsel : S (length (select mf la)) = length (select mask (a :: la))).
  { rewrite Hmask. reflexivity. }
  assert (Hele' : chan_len_ok (S (length (select mf la))) (ele g')).
  { rewrite Hsel. unfold g', apply_mask. cbn [ele].
    apply chan_len_ok_select. exact Hele. }
  assert (Hts' : chan_len_ok (S (length (select mf la))) (tstamp g')).
  { rewrite Hsel. unfold g', apply_mask. cbn [tstamp].
    apply chan_len_ok_select. exact Hts. }
  assert (Hall : Forall (fun b => b = true)
                   (retained_mask_from (a, o)
                      (zip (select mf la) (select mf lo)))).
  { rewrite select_zip by (symmetry; exact Hlen).
    apply retained_mask_from_select. }
  split; [exact Hrd|]. split; [|split].
  - exists (select mf la), (select mf lo).
    repeat (split; [assumption|]). split.
    + apply retained_mask_from_all_true. exact Hall.
    + intros Hex Hnil.
      apply (retained_select_nonempty (a, o) (zip la lo) Hex).
      apply length_zero_iff_nil. fold mf.
      rewrite (select_length mf (zip la lo) la)
        by (rewrite length_zip_with; lia).
      now rewrite Hnil.
  - intros Hnz. apply (apply_mask_all_true mask g (a :: la)).
    + exact Hla.
    + rewrite Hmask. simpl. unfold mf.
      rewrite retained_mask_from_length, length_zip_with. lia.
    + rewrite Hlo. simpl. lia.
    + exact Hele.
    + exact Hts.
    + rewrite Hmask. constructor; [reflexivity|].
      apply retained_mask_from_all_true. exact Hnz.
  - rewrite (gpx_remove_duplicates_mask g' a o (select mf la) (select mf lo)
               Hla' Hlo' Hlen' Hele' Hts').
    f_equal. apply (apply_mask_all_true _ g' (a :: select mf la)).
    + exact Hla'.
    + simpl. rewrite retained_mask_from_length, length_zip_with. lia.
    + rewrite Hlo'. simpl. lia.
    + exact Hele'.
    + exact Hts'.
    + constructor; [reflexivity|exact Hall].
Qed.

(** C3, at the empty track.  For the track that [gpx_read] returns for a
    file without track points, [gpx_remove_duplicates] does not return its
    input: it returns a dictionary whose four channels are [None]; applied
    to that result it raises a [TypeError].  So on this track, which has no
    duplicates, the function neither returns its input unchanged nor is it
    idempotent. *)
Theorem gpx_remove_duplicates_empty_track :
  let t := gpx_read [] in
  let t' := mkGPXData None None None None None in
  t = mkGPXData (Some []) (Some []) (Some []) (Some []) None
  /\ gpx_remove_duplicates t = Ok t'
  /\ t' <> t
  /\ gpx_remove_duplicates t' = Raise TypeError.
Proof.
  cbv zeta. split; [reflexivity|]. split; [|split].
  - unfold gpx_remove_duplicates, kept_indices, gpx_calculate_distance.
    cbn. destruct (decide (1 = 0)%nat); [lia|]. reflexivity.
  - discriminate.
  - reflexivity.
Qed.

(** ** [gpx_interpolate] *)

Lemma np_ceil_spec (x : R) : IZR (np_ceil x) - 1 < x <= IZR (np_ceil x).
Proof.
  unfold np_ceil. destruct (archimed (- x)) as [H1 H2].
  rewrite opp_IZR, minus_IZR. lra.
Qed.

Lemma np_linspace_spec (start stop : R) (k : Z) :
  (0 <= k)%Z -> start <= stop ->
  exists x, np_linspace start stop k = Ok x
            /\ length x = Z.to_nat k
            /\ Forall (fun q => start <= q <= stop) x
            /\ ((0 < k)%Z -> head x = Some start)
            /\ ((1 < k)%Z -> last x = Some stop).
Proof.
  intros Hk Hle. unfold np_linspace.
  destruct (Z.ltb_spec k 0) as [Hneg|_]; [lia|].
  set (n := Z.to_nat k).
  set (y := (fun i : nat =>
               if (0 <? n - 1)%nat
               then INR i * ((stop - start) / INR (n - 1)) + start
               else INR i * (stop - start) + start) <$> seq 0 n).
  assert (Hylen : length y = n).
  { unfold y. now rewrite length_fmap, length_seq. }
  assert (Hy : Forall (fun q => start <= q <= stop) y).
  { unfold y. apply Forall_fmap, Forall_forall. intros i Hi.
    apply elem_of_seq in Hi. simpl.
    destruct (Nat.ltb_spec 0 (n - 1)) as [Hdiv|Hdiv].
    - assert (Hd : 0 < INR (n - 1)) by (apply lt_0_INR; lia).
      assert (Hi0 : 0 <= INR i) by apply pos_INR.
      assert (Hin : INR i <= INR (n - 1)) by (apply le_INR; lia).
      assert (Hfrac : 0 <= INR i / INR (n - 1) <= 1).
      { split.
        - apply Rmult_le_pos; [exact Hi0|]. left. now apply Rinv_0_lt_compat.
        - apply (Rmult_le_reg_r (INR (n - 1))); [exact Hd|].
          unfold Rdiv. rewrite Rmult_assoc, Rinv_l by lra. lra. }
      replace (INR i * ((stop - start) / INR (n - 1)))
        with ((stop - start) * (INR i / INR (n - 1))) by (field; lra).
      nra.
    - assert (i = 0%nat) as -> by lia. simpl. lra. }
  assert (Hhead : (0 < n)%nat -> head y = Some start).
  { intros Hn. unfold y. destruct n as [|n']; [lia|].
    cbn [seq fmap list_fmap head]. f_equal.
    destruct (0 <? S n' - 1)%nat; simpl; lra. }
  eexists. split; [reflexivity|].
  destruct (Nat.ltb_spec 1 n) as [Hn|Hn].
  - split; [now rewrite length_insert|]. split; [|split].
    + apply Forall_insert; [exact Hy|lra].
    + intros _. rewrite head_lookup, list_lookup_insert_ne by lia.
      rewrite <- head_lookup. apply Hhead. lia.
    + intros _. rewrite last_lookup, length_insert, Hylen.
      replace (Init.Nat.pred n) with (n - 1)%nat by lia.
      apply list_lookup_insert_eq. lia.
  - split; [exact Hylen|]. split; [exact Hy|]. split.
    + intros Hpos. apply Hhead. lia.
    + intros Hbig. lia.
Qed.

(** With or without elevation, the distance between two consecutive points
    that are not at the same place is positive. *)
Lemma gpx_calculate_distance_positive (g : GPXData) (use_ele : bool)
    (a o : R) (la lo : list R) :
  lat g = Some (a :: la) -> lon g = Some (o :: lo) -> length lo = length la ->
  chan_len_ok (S (length la)) (ele g) ->
  Forall (fun d => d <> 0) (steps (a, o) (zip la lo)) ->
  exists d,
    gpx_calculate_distance g use_ele = Ok d
    /\ length d = S (length la)
    /\ d !! 0%nat = Some 0
    /\ forall i v, d !! S i = Some v -> 0 < v.
Proof.
  intros Hla Hlo Hlen Hele Hnz.
  destruct (gpx_calculate_distance_inv g use_ele (a :: la) (o :: lo))
    as (d & Hd & Hdlen & Hzero & Hsteps); try assumption; [simpl; lia|].
  exists d. split; [exact Hd|]. split; [exact Hdlen|]. split.
  - apply Hzero; [simpl; lia|now left].
  - intros i v Hv.
    assert (Hi : (i < length la)%nat).
    { apply lookup_lt_Some in Hv. simpl in Hdlen. lia. }
    destruct (Hsteps i) as (v' & Hv' & lat1 & lon1 & lat2 & lon2
                             & G1 & G2 & G3 & G4 & Hval); [simpl; lia|].
    assert (v' = v) as -> by congruence.
    rewrite Hla in G1, G3. rewrite Hlo in G2, G4.
    apply py_get_Ok in G1 as (? & [= <-] & G1), G2 as (? & [= <-] & G2),
                       G3 as (? & [= <-] & G3), G4 as (? & [= <-] & G4).
    pose proof (steps_lookup (a, o) (zip la lo) i (lat1, lon1) (lat2, lon2))
      as Hstep.
    change ((a, o) :: zip la lo) with (zip (a :: la) (o :: lo)) in Hstep.
    specialize (Hstep (lookup_zip_pair _ _ _ _ _ G1 G2)
                      (lookup_zip_pair _ _ _ _ _ G3 G4)).
    rewrite Forall_lookup in Hnz. specialize (Hnz _ _ Hstep).
    unfold gc_points in Hnz. cbn [fst snd] in Hnz.
    pose proof (great_circle_nonneg lat1 lon1 lat2 lon2) as Hge.
    assert (Hgc : 0 < great_circle lat1 lon1 lat2 lon2) by lra.
    destruct (truthy (ele g) && use_ele).
    + destruct Hval as (e1 & e2 & _ & _ & ->).
      apply sqrt_lt_R0.
      pose proof (pow2_ge_0 (e2 - e1)).
      pose proof (pow_lt _ 2 Hgc). lra.
    + now subst v.
Qed.

Lemma np_cumsum_length (l : list R) : length (np_cumsum l) = length l.
Proof. apply cumsum_from_length. Qed.

Lemma np_cumsum_increasing (d : list R) :
  (forall i v, d !! S i = Some v -> 0 < v) ->
  strictly_increasing (np_cumsum d).
Proof.
  intros Hpos i a b Ha Hb.
  destruct (cumsum_from_succ 0 d i a b Ha Hb) as (x & Hx & ->).
  specialize (Hpos i x Hx). lra.
Qed.

Lemma np_cumsum_head (d : list R) (x : R) :
  d !! 0%nat = Some x -> head (np_cumsum d) = Some (0 + x).
Proof. destruct d as [|y d]; [discriminate|]. now intros [= ->]. Qed.

Lemma strictly_increasing_le (l : list R) (i j : nat) (a b : R) :
  strictly_increasing l -> (i <= j)%nat ->
  l !! i = Some a -> l !! j = Some b -> a <= b.
Proof.
  intros Hinc Hij Ha. revert b. induction Hij as [|j Hij IH]; intros b Hb.
  - assert (a = b) by congruence. lra.
  - destruct (lookup_lt_is_Some_2 l j) as [c Hc].
    { apply lookup_lt_Some in Hb. lia. }
    specialize (IH c Hc). specialize (Hinc j c b Hc Hb). lra.
Qed.

Lemma present_rows_eq (g : GPXData) :
  present_rows g
  = chan_rows (lat g) ++ chan_rows (lon g) ++ chan_rows (ele g)
    ++ chan_rows (tstamp g).
Proof.
  unfold present_rows.
  destruct (lat g) as [[|? ?]|], (lon g) as [[|? ?]|],
           (ele g) as [[|? ?]|], (tstamp g) as [[|? ?]|]; reflexivity.
Qed.

Lemma truthy_len_ok (n : nat) (c : channel) :
  chan_len_ok (S n) c -> truthy c = bool_decide (is_Some c).
Proof.
  destruct c as [[|x l]|]; simpl; intros Hl; try discriminate; reflexivity.
Qed.

Lemma chan_rows_len_ok (n : nat) (c : channel) :
  chan_len_ok (S n) c -> Forall (fun r => length r = S n) (chan_rows c).
Proof.
  destruct c as [[|x l]|]; simpl; intros Hl; try discriminate.
  - unfold chan_rows. simpl. constructor; [exact Hl|constructor].
  - constructor.
Qed.

Lemma np_array_ok (rows : list (list R)) (n : nat) :
  Forall (fun r => length r = n) rows -> np_array rows = Ok rows.
Proof.
  intros HF. destruct rows as [|r rest]; [reflexivity|]. simpl.
  apply Forall_cons in HF as [Hr HF].
  replace (forallb _ rest) with true; [reflexivity|].
  symmetry. apply forallb_forall. intros r' Hin.
  apply Nat.eqb_eq. rewrite Forall_forall in HF.
  rewrite Hr. apply HF. now apply list_elem_of_In.
Qed.

Lemma row_ok {A : Type} (y : list A) (i : nat) :
  (i < length y)%nat -> exists r, row y i = Ok r /\ y !! i = Some r.
Proof.
  intros Hi. destruct (lookup_lt_is_Some_2 y i Hi) as [r Hr].
  exists r. unfold row. now rewrite Hr.
Qed.

Lemma last_elem_ok {A : Type} (y : list A) :
  (0 < length y)%nat -> exists r, last_elem y = Ok r /\ last y = Some r.
Proof.
  intros Hy. destruct (last y) as [r|] eqn:Hr.
  - exists r. unfold last_elem. now rewrite Hr.
  - apply last_None in Hr. subst y. simpl in Hy. lia.
Qed.

(** The interpolation of a track that has two points at different places:
    with [num = k] it returns a track whose present channels have [k]
    elements. *)
Lemma gpx_interpolate_shape
    (pchip : list R -> list (list R) -> list R -> result (list (list R)))
    (g : GPXData) (a o : R) (la lo : list R) (dist : R) (k : Z) :
  pchip_contract pchip ->
  lat g = Some (a :: la) -> lon g = Some (o :: lo) -> length lo = length la ->
  chan_len_ok (S (length la)) (ele g) ->
  chan_len_ok (S (length la)) (tstamp g) ->
  Exists (fun d => d <> 0) (steps (a, o) (zip la lo)) ->
  (0 <= k)%Z ->
  exists out la' lo',
    gpx_interpolate pchip g dist (Some k) = Ok out
    /\ lat out = Some la' /\ length la' = Z.to_nat k
    /\ lon out = Some lo' /\ length lo' = Z.to_nat k
    /\ chan_len_ok (Z.to_nat k) (ele out)
    /\ chan_len_ok (Z.to_nat k) (tstamp out)
    /\ (is_Some (ele out) <-> is_Some (ele g))
    /\ (is_Some (tstamp out) <-> is_Some (tstamp g))
    /\ tz out = tz g
    /\ (pchip_endpoints pchip -> (2 <= k)%Z ->
        exists g' la1 lo1,
          gpx_remove_duplicates g = Ok g'
          /\ lat g' = Some la1 /\ lon g' = Some lo1
          /\ head la' = Some a /\ head lo' = Some o
          /\ last la' = last la1 /\ last lo' = last lo1).
Proof.
  intros Hc Hla Hlo Hlen Hele Hts Hex Hk.
  destruct (gpx_remove_duplicates_nonempty g a o la lo Hla Hlo Hlen Hele Hts)
    as (Hrd & (la1 & lo1 & Hla1 & Hlo1 & Hlen1 & Hele1 & Hts1 & Hnz & Hne) & _).
  specialize (Hne Hex).
  set (g' := apply_mask (retained_mask (zip (a :: la) (o :: lo))) g) in *.
  destruct (gpx_calculate_distance_positive g' true a o la1 lo1
              Hla1 Hlo1 Hlen1 Hele1 Hnz) as (d & Hd & Hdlen & Hd0 & Hdpos).
  set (xi := np_cumsum d).
  assert (Hxilen : length xi = S (length la1)).
  { unfold xi. now rewrite np_cumsum_length. }
  assert (Hla1len : (1 <= length la1)%nat).
  { destruct la1; [contradiction|simpl; lia]. }
  assert (Hinc : strictly_increasing xi) by now apply np_cumsum_increasing.
  assert (Hhead : head xi = Some (0 + 0)) by now apply np_cumsum_head.
  destruct (last_elem_ok xi) as (xn & Hlast_elem & Hlast); [lia|].
  assert (Hfirst_elem : first_elem xi = Ok (0 + 0)).
  { unfold first_elem. now rewrite Hhead. }
  assert (Hle : 0 + 0 <= xn).
  { rewrite last_lookup in Hlast. rewrite head_lookup in Hhead.
    eapply (strictly_increasing_le xi 0 _ _ _ Hinc); [|exact Hhead|exact Hlast].
    lia. }
  (* the rows of the array *)
  set (rows := present_rows g').
  assert (Hrows : rows = [a :: la1; o :: lo1] ++ chan_rows (ele g')
                         ++ chan_rows (tstamp g')).
  { unfold rows. rewrite present_rows_eq, Hla1, Hlo1. reflexivity. }
  assert (Hrowlen : Forall (fun r => length r = length xi) rows).
  { rewrite Hrows, Hxilen. repeat apply Forall_app_2.
    - repeat constructor; simpl; lia.
    - now apply chan_rows_len_ok.
    - now apply chan_rows_len_ok. }
  (* the same channels are present before and after duplicate removal *)
  assert (Hsome_e : is_Some (ele g') <-> is_Some (ele g)).
  { unfold g', apply_mask. cbn [ele]. now rewrite fmap_is_Some. }
  assert (Hsome_t : is_Some (tstamp g') <-> is_Some (tstamp g)).
  { unfold g', apply_mask. cbn [tstamp]. now rewrite fmap_is_Some. }
  assert (Htz : tz g' = tz g) by reflexivity.
  assert (Hall : all_empty g = false).
  { unfold all_empty. now rewrite Hla. }
  destruct (np_linspace_spec (0 + 0) xn k Hk Hle)
    as (x & Hx & Hxlen & Hxrange & Hxhead & Hxlast).
  destruct (Hc xi rows x (0 + 0) xn) as (y & Hy & Hylen & Hycols);
    try assumption; [lia|].
  assert (Hylen2 : (2 <= length y)%nat).
  { rewrite Hylen, Hrows. simpl. lia. }
  destruct (row_ok y 0) as (y0 & Hy0 & Hy0'); [lia|].
  destruct (row_ok y 1) as (y1 & Hy1 & Hy1'); [lia|].
  rewrite Forall_lookup in Hycols.
  (* run the function *)
  unfold gpx_interpolate. rewrite Hall, Hrd. cbn [bind].
  rewrite Hd. cbn [bind]. fold xi. fold rows.
  rewrite (np_array_ok rows (length xi) Hrowlen). cbn [bind].
  rewrite Hfirst_elem, Hlast_elem. cbn [bind].
  rewrite Hx. cbn [bind]. rewrite Hy. cbn [bind].
  rewrite Hy0, Hy1. cbn [bind].
  rewrite (truthy_len_ok _ _ Hele), (truthy_len_ok _ _ Hts).
  assert (Hrow_e : is_Some (ele g) -> exists r, row y 2 = Ok r
                                               /\ length r = Z.to_nat k).
  { intros He. destruct (row_ok y 2) as (r & Hr & Hr').
    - rewrite Hylen, Hrows. apply Hsome_e in He.
      unfold chan_rows at 1. rewrite (truthy_len_ok _ _ Hele1).
      rewrite bool_decide_eq_true_2 by exact He. simpl. lia.
    - exists r. split; [exact Hr|]. rewrite <- Hxlen. eapply Hycols; eauto. }
  assert (Hrow_t : exists r, last_elem y = Ok r /\ length r = Z.to_nat k).
  { destruct (last_elem_ok y) as (r & Hr & Hr'); [lia|].
    exists r. split; [exact Hr|]. rewrite <- Hxlen.
    rewrite last_lookup in Hr'. eapply Hycols; eauto. }
  destruct Hrow_t as (rt & Hrt & Hrtlen).
  assert (Hcols0 : length y0 = Z.to_nat k).
  { rewrite <- Hxlen. eapply Hycols; eauto. }
  assert (Hcols1 : length y1 = Z.to_nat k).
  { rewrite <- Hxlen. eapply Hycols; eauto. }
  assert (Hends : pchip_endpoints pchip -> (2 <= k)%Z ->
            exists g1 la2 lo2,
              Ok g' = Ok g1
              /\ lat g1 = Some la2 /\ lon g1 = Some lo2
              /\ head y0 = Some a /\ head y1 = Some o
              /\ last y0 = last la2 /\ last y1 = last lo2).
  { intros He Hk2.
    assert (Hlast' : last xi = Some xn) by exact Hlast.
    destruct (He xi rows x y (0 + 0) xn ltac:(lia) Hinc Hrowlen Hhead Hlast'
                Hy 0%nat (a :: la1) y0) as (Hh0 & Hl0);
      [rewrite Hrows; reflexivity|exact Hy0'|].
    destruct (He xi rows x y (0 + 0) xn ltac:(lia) Hinc Hrowlen Hhead Hlast'
                Hy 1%nat (o :: lo1) y1) as (Hh1 & Hl1);
      [rewrite Hrows; reflexivity|exact Hy1'|].
    exists g', (a :: la1), (o :: lo1).
    split; [reflexivity|]. split; [exact Hla1|]. split; [exact Hlo1|].
    split; [apply Hh0, Hxhead; lia|]. split; [apply Hh1, Hxhead; lia|].
    split; [apply Hl0, Hxlast; lia|apply Hl1, Hxlast; lia]. }
  destruct (ele g) as [el|] eqn:Eele.
  - destruct (Hrow_e (ltac:(eauto))) as (re & Hre & Hrelen).
    rewrite bool_decide_eq_true_2 by eauto. rewrite Hre. cbn [bind].
    destruct (tstamp g) as [tl|] eqn:Etl.
    + rewrite bool_decide_eq_true_2 by eauto. rewrite Hrt. cbn [bind].
      eexists _, y0, y1. split; [reflexivity|]. cbn.
      repeat split; eauto.
    + rewrite bool_decide_eq_false_2 by (intros [? [=]]). cbn [bind].
      eexists _, y0, y1. split; [reflexivity|]. cbn.
      repeat split; eauto.
  - rewrite bool_decide_eq_false_2 by (intros [? [=]]). cbn [bind].
    destruct (tstamp g) as [tl|] eqn:Etl.
    + rewrite bool_decide_eq_true_2 by eauto. rewrite Hrt. cbn [bind].
      eexists _, y0, y1. split; [reflexivity|]. cbn.
      repeat split; eauto.
    + rewrite bool_decide_eq_false_2 by (intros [? [=]]). cbn [bind].
      eexists _, y0, y1. split; [reflexivity|]. cbn.
      repeat split; eauto.
Qed.

Lemma increasingb_true (l : list R) :
  strictly_increasing l -> increasingb l = true.
Proof.
  induction l as [|a l IH]; intros Hinc; [reflexivity|].
  destruct l as [|b rest]; [reflexivity|].
  cbn [increasingb].
  destruct (Rlt_dec a b) as [_|Hab].
  - apply IH. intros i x y Hx Hy. apply (Hinc (S i) x y); assumption.
  - exfalso. apply Hab. apply (Hinc 0%nat a b); reflexivity.
Qed.

(** The model of the interpolator meets the contract. *)
Lemma pchip_model_contract : pchip_contract pchip_model.
Proof.
  intros xi yi x x0 xn Hn Hinc Hrows _ _ _. unfold pchip_model.
  destruct (Nat.ltb_spec (length xi) 2) as [Hlt|_]; [lia|].
  replace (forallb _ yi) with true.
  - rewrite (increasingb_true xi Hinc). cbn [negb].
    eexists. split; [reflexivity|]. split; [now rewrite length_fmap|].
    apply Forall_fmap, Forall_forall. intros r _. simpl.
    now rewrite length_fmap.
  - symmetry. apply forallb_forall. intros r Hr. apply Nat.eqb_eq.
    rewrite Forall_forall in Hrows. apply Hrows. now apply list_elem_of_In.
Qed.

Lemma gpx_interpolate_num_absent
    (pchip : list R -> list (list R) -> list R -> result (list (list R)))
    (g g' : GPXData) (d : list R) (total dist : R) :
  gpx_remove_duplicates g = Ok g' ->
  gpx_calculate_distance g' true = Ok d ->
  last (np_cumsum d) = Some total ->
  dist <> 0 ->
  gpx_interpolate pchip g dist None
  = gpx_interpolate pchip g dist (Some (np_ceil (total / dist))).
Proof.
  intros Hrd Hd Hlast Hdist. unfold gpx_interpolate.
  destruct (all_empty g); [reflexivity|].
  rewrite Hrd. cbn [bind]. rewrite Hd. cbn [bind].
  destruct (np_array (present_rows g')) as [rows|e]; [|reflexivity].
  cbn [bind]. unfold last_elem at 1. rewrite Hlast. cbn [bind np_div].
  destruct (Req_dec_T dist 0); [contradiction|]. reflexivity.
Qed.

Lemma equator_opposite_points : gc_points (0, 0) (0, 180) <> 0.
Proof.
  rewrite gc_points_zero_iff. unfold on_sphere, radians. cbn [fst snd].
  replace (0 * (PI / 180)) with 0 by field.
  replace (180 * (PI / 180)) with PI by field.
  rewrite cos_0, sin_0, cos_PI, sin_PI. intros [= H]. lra.
Qed.

(** ** [main]: what the timestamp adjustments touch *)

Lemma setitem_frame (h h' : store) (r : option loc) (i : nat) (v : R) :
  setitem h r i v = Ok h' ->
  forall l, r <> Some l -> h' !! l = h !! l.
Proof.
  unfold setitem. destruct r as [k|]; [|discriminate].
  destruct (h !! k) as [lst|]; [|discriminate].
  destruct (decide (i < length lst)%nat) as [Hi|Hi]; [|discriminate].
  intros [= <-] l Hl. apply lookup_insert_ne. congruence.
Qed.

(** The adjustments of lines 281-298 change no list object other than the
    timestamp list of the dictionary they are applied to. *)
Lemma time_synthesis_frame (parse_begintime : string -> result R)
    (args : Args) (o : GPXObj) (gpx_dist : list R) (h h' : store) :
  time_synthesis parse_begintime args o gpx_dist h = Ok h' ->
  forall l, o_tstamp o <> Some l -> h' !! l = h !! l.
Proof.
  intros Hrun l Hl.
  assert (Hshift : forall dt h1 h2 i,
            shift_body o dt h1 i = Ok h2 -> h1 !! l = h !! l -> h2 !! l = h !! l).
  { intros dt h1 h2 i Hb H1. unfold shift_body in Hb.
    apply bind_Ok in Hb as (t & _ & Hset).
    rewrite (setitem_frame _ _ _ _ _ Hset l Hl). exact H1. }
  assert (Hretime : forall step h1 h2 i,
            retime_body o step h1 i = Ok h2 -> h1 !! l = h !! l ->
            h2 !! l = h !! l).
  { intros step h1 h2 i Hb H1. unfold retime_body in Hb.
    apply bind_Ok in Hb as (t & _ & Hb).
    apply bind_Ok in Hb as (dt & _ & Hset).
    rewrite (setitem_frame _ _ _ _ _ Hset l Hl). exact H1. }
  unfold time_synthesis in Hrun.
  apply bind_Ok in Hrun as (h1 & Hbegin & Hrun).
  apply bind_Ok in Hrun as (h2 & Hvel & Hint).
  assert (H1 : h1 !! l = h !! l).
  { unfold begin_shift in Hbegin.
    destruct (begintime args) as [[|c b]|]; try (now injection Hbegin as <-).
    apply bind_Ok in Hbegin as (dt_utc & _ & Hbegin).
    apply bind_Ok in Hbegin as (t0 & _ & Hbegin).
    apply bind_Ok in Hbegin as (n & _ & Hloop).
    eapply (for_range_from_preserves (fun hx => hx !! l = h !! l));
      [|reflexivity|exact Hloop].
    intros i a a' Hb. apply (Hshift _ _ _ _ Hb). }
  assert (H2 : h2 !! l = h !! l).
  { unfold velocity_retiming in Hvel.
    destruct (Rlt_dec 0 (velocity args)); [|now injection Hvel as <-].
    apply bind_Ok in Hvel as (n & _ & Hloop).
    eapply (for_range_from_preserves (fun hx => hx !! l = h !! l));
      [|exact H1|exact Hloop].
    intros i a a' Hb. apply (Hretime _ _ _ _ Hb). }
  unfold interval_retiming in Hint.
  destruct (intervaltime args) as [dt|]; [|now injection Hint as <-].
  destruct (Rlt_dec 0 dt); [|now injection Hint as <-].
  apply bind_Ok in Hint as (n & _ & Hloop).
  eapply (for_range_from_preserves (fun hx => hx !! l = h !! l));
    [|exact H2|exact Hloop].
  intros i a a' Hb. apply (Hretime _ _ _ _ Hb).
Qed.

(** ** [gpx_read] *)

Lemma gpx_read_shape (points : list GPXTrackPoint) :
  exists la lo el ts tzv,
    gpx_read points = mkGPXData (Some la) (Some lo) (Some el) (Some ts) tzv
    /\ length la = length points /\ length lo = length points
    /\ length el = length points /\ length ts = length points.
Proof.
  unfold gpx_read.
  enough (Hgen : forall la lo el ts tzv n,
            length la = n -> length lo = n -> length el = n -> length ts = n ->
            exists la' lo' el' ts' tzv',
              foldl read_point
                (mkGPXData (Some la) (Some lo) (Some el) (Some ts) tzv) points
              = mkGPXData (Some la') (Some lo') (Some el') (Some ts') tzv'
              /\ length la' = (n + length points)%nat
              /\ length lo' = (n + length points)%nat
              /\ length el' = (n + length points)%nat
              /\ length ts' = (n + length points)%nat).
  { apply (Hgen [] [] [] [] None 0%nat); reflexivity. }
  induction points as [|p points IH]; intros la lo el ts tzv n H1 H2 H3 H4.
  - exists la, lo, el, ts, tzv. simpl. rewrite Nat.add_0_r. auto.
  - cbn [foldl].
    destruct (IH (la ++ [latitude p]) (lo ++ [longitude p])
                 (el ++ [default 0 (elevation p)])
                 (ts ++ [default 0 (dt_timestamp <$> time p)])
                 (match time p with
                  | Some t => dt_tzinfo t
                  | None => Some UTC
                  end) (S n)) as
      (la' & lo' & el' & ts' & tzv' & Hf & L1 & L2 & L3 & L4);
      [rewrite length_app; simpl; lia ..|].
    exists la', lo', el', ts', tzv'. split; [exact Hf|].
    simpl. rewrite L1, L2, L3, L4. lia.
Qed.

(** ** [main]: the functions on objects and on values *)

Lemma gpx_remove_duplicates_obj_Ok (h h' : store) (o o' : GPXObj) :
  gpx_remove_duplicates_obj h o = Ok (h', o') ->
  gpx_remove_duplicates (load h o) = Ok (load h' o')
  /\ h ⊆ h' /\ (obj_ok h o -> obj_ok h' o').
Proof.
  unfold gpx_remove_duplicates_obj, gpx_remove_duplicates.
  destruct (kept_indices (load h o)) as [[gpx_dist i_dist]|e]; [|discriminate].
  cbn [bind].
  destruct (decide (length i_dist = length gpx_dist)) as [_|_].
  - intros [= <- <-]. auto.
  - destruct (build_nodup (load h o) i_dist) as [g|e]; [|discriminate].
    cbn [bind]. intros [= Halloc].
    apply alloc_data_spec in Halloc as (Hsub & Hload & Hok & _).
    rewrite Hload. auto.
Qed.

Lemma gpx_remove_duplicates_obj_total (h : store) (o : GPXObj) (g' : GPXData) :
  gpx_remove_duplicates (load h o) = Ok g' ->
  exists h' o', gpx_remove_duplicates_obj h o = Ok (h', o').
Proof.
  unfold gpx_remove_duplicates_obj, gpx_remove_duplicates.
  destruct (kept_indices (load h o)) as [[gpx_dist i_dist]|e]; [|discriminate].
  cbn [bind].
  destruct (decide (length i_dist = length gpx_dist)) as [_|_]; [eauto|].
  destruct (build_nodup (load h o) i_dist) as [g|e]; [|discriminate].
  cbn [bind]. intros _.
  destruct (alloc_data h g) as [h' o'] eqn:Halloc. eauto.
Qed.

Lemma gpx_interpolate_obj_Ok
    (pchip : list R -> list (list R) -> list R -> result (list (list R)))
    (h h' : store) (o o' : GPXObj) (dist : R) (k : option Z) :
  all_empty (load h o) = false ->
  gpx_interpolate_obj pchip h o dist k = Ok (h', o') ->
  gpx_interpolate pchip (load h o) dist k = Ok (load h' o')
  /\ h ⊆ h' /\ obj_ok h' o' /\ obj_new h o'.
Proof.
  intros Hne. unfold gpx_interpolate_obj. rewrite Hne.
  destruct (gpx_interpolate pchip (load h o) dist k) as [g|e]; [|discriminate].
  cbn [bind]. intros [= Halloc].
  apply alloc_data_spec in Halloc as (Hsub & Hload & Hok & Hnew).
  rewrite Hload. auto.
Qed.

Lemma gpx_interpolate_obj_total
    (pchip : list R -> list (list R) -> list R -> result (list (list R)))
    (h : store) (o : GPXObj) (dist : R) (k : option Z) (g : GPXData) :
  gpx_interpolate pchip (load h o) dist k = Ok g ->
  exists h' o', gpx_interpolate_obj pchip h o dist k = Ok (h', o').
Proof.
  intros Hg. unfold gpx_interpolate_obj.
  destruct (all_empty (load h o)); [eauto|].
  rewrite Hg. cbn [bind].
  destruct (alloc_data h g) as [h' o'] eqn:Halloc. eauto.
Qed.

(** After [gpx_read] and [gpx_remove_duplicates] the latitude channel is
    never the empty list: it is a non-empty list, or [None] when the file
    has no points. *)
Lemma gpx_read_nodup_lat (points : list GPXTrackPoint) (nodup : GPXData) :
  gpx_remove_duplicates (gpx_read points) = Ok nodup ->
  truthy (lat nodup) = true \/ lat nodup = None.
Proof.
  destruct (gpx_read_shape points)
    as (la & lo & el & ts & tzv & Hread & L1 & L2 & L3 & L4).
  rewrite Hread.
  destruct la as [|a la].
  - assert (points = []) as -> by (destruct points; [reflexivity|discriminate]).
    destruct lo, el, ts; try discriminate.
    unfold gpx_remove_duplicates, kept_indices, gpx_calculate_distance.
    cbn. destruct (decide (1 = 0)%nat); [lia|].
    intros [= <-]. now right.
  - destruct lo as [|o lo]; [simpl in *; lia|].
    rewrite (gpx_remove_duplicates_mask _ a o la lo); cbn [lat lon ele tstamp];
      try reflexivity; try (simpl in *; lia).
    intros [= <-]. left. reflexivity.
Qed.

Section MainProperties.

Variable pchip_interpolate :
  list R -> list (list R) -> list R -> result (list (list R)).
Variable fromtimestamp : R -> option tzinfo -> result datetime.
Variable to_xml : list GPXTrackPoint -> string -> string.
Variable writable : string -> bool.
Variable parse_begintime : string -> result R.
Variable utcfromtimestamp : R -> result string.

(** The track handed to [gpx_write] is the interpolation of the track as
    it was read, after duplicate removal. *)
Lemma process_file_written (args : Args) (fs fs' : filesystem)
    (gpx_file : string) (points : list GPXTrackPoint) (summary : Summary)
    (written : GPXData) :
  process_file pchip_interpolate fromtimestamp to_xml writable
               parse_begintime utcfromtimestamp args fs gpx_file points
  = (fs', Ok (summary, written)) ->
  exists nodup,
    gpx_remove_duplicates (gpx_read points) = Ok nodup
    /\ gpx_interpolate pchip_interpolate nodup (distance args) (num args)
       = Ok written.
Proof.
  unfold process_file.
  destruct (alloc_data ∅ (gpx_read points)) as [h0 gd] eqn:Halloc.
  apply alloc_data_spec in Halloc as (_ & Hload0 & Hok0 & _).
  match goal with
  | |- context [match ?bw with Ok _ => _ | Raise _ => _ end] =>
      destruct bw as [[[summary0 written0] gpx_dist]|e] eqn:Hbw
  end; [|discriminate].
  destruct (gpx_write _ _ _ _ _ _ _ _) as [fs1 r]. intros [= _ Hr].
  destruct r as [[]|e]; [|discriminate]. cbn [bind] in Hr.
  apply bind_Ok in Hr as (n_written & _ & Hr).
  injection Hr as _ ->.
  (* the steps before the write *)
  apply bind_Ok in Hbw as ([h1 nd] & Hrd & Hbw).
  apply bind_Ok in Hbw as (n1 & Hlen1 & Hbw).
  apply bind_Ok in Hbw as (n0 & _ & Hbw).
  apply bind_Ok in Hbw as ([h2 gi] & Hinterp & Hbw).
  apply bind_Ok in Hbw as (gpx_dist' & _ & Hbw).
  apply bind_Ok in Hbw as (h3 & Hsyn & Hbw).
  apply bind_Ok in Hbw as (t_first & _ & Hbw).
  apply bind_Ok in Hbw as (start & _ & Hbw).
  apply bind_Ok in Hbw as (t_last & _ & Hbw).
  apply bind_Ok in Hbw as (stop & _ & Hbw).
  injection Hbw as _ Hwritten _.
  apply gpx_remove_duplicates_obj_Ok in Hrd as (Hrd & Hsub1 & Hok1).
  rewrite Hload0 in Hrd.
  exists (load h1 nd). split; [exact Hrd|].
  (* the interpolation does not take the short cut *)
  assert (Hne : all_empty (load h1 nd) = false).
  { destruct (gpx_read_nodup_lat points _ Hrd) as [Ht|Hnone].
    - unfold all_empty. now rewrite Ht.
    - cbn [load lat] in Hnone. rewrite Hnone in Hlen1. discriminate. }
  apply (gpx_interpolate_obj_Ok _ _ _ _ _ _ _ Hne) in Hinterp
    as (Hinterp & Hsub2 & Hok2 & Hnew2).
  rewrite Hinterp. f_equal. rewrite <- Hwritten.
  (* the adjustments leave the lists of the interpolated track alone *)
  assert (Hok_gd : obj_ok h1 gd).
  { destruct Hok0 as (A & B & C & D).
    repeat split; eapply ref_ok_weaken; eauto. }
  assert (Hframe : forall r, ref_ok h2 r -> ref_new h1 r ->
            load_chan h3 r = load_chan h2 r).
  { intros [l|] Hr Hn; [|reflexivity]. cbn [load_chan].
    apply (time_synthesis_frame _ _ _ _ _ _ Hsyn).
    intros Heq. destruct Hok_gd as (_ & _ & _ & Hts).
    rewrite Heq in Hts. destruct Hts as [x Hx].
    simpl in Hn. congruence. }
  destruct Hok2 as (A & B & C & D). destruct Hnew2 as (A' & B' & C' & D').
  unfold load.
  now rewrite !Hframe by assumption.
Qed.

End MainProperties.

(** ** [main] returns *)

Lemma gpx_read_channels (points : list GPXTrackPoint) :
  exists tzv,
    gpx_read points
    = mkGPXData (Some (latitude <$> points)) (Some (longitude <$> points))
        (Some ((fun p => default 0 (elevation p)) <$> points))
        (Some ((fun p => default 0 (dt_timestamp <$> time p)) <$> points))
        tzv.
Proof.
  unfold gpx_read.
  enough (Hgen : forall la lo el ts tzv,
            exists tzv',
              foldl read_point
                (mkGPXData (Some la) (Some lo) (Some el) (Some ts) tzv) points
              = mkGPXData (Some (la ++ (latitude <$> points)))
                  (Some (lo ++ (longitude <$> points)))
                  (Some (el ++ ((fun p => default 0 (elevation p)) <$> points)))
                  (Some (ts ++ ((fun p => default 0 (dt_timestamp <$> time p))
                                <$> points)))
                  tzv').
  { apply (Hgen [] [] [] [] None). }
  induction points as [|p points IH]; intros la lo el ts tzv.
  - exists tzv. cbn [foldl fmap list_fmap]. now rewrite !app_nil_r.
  - cbn [foldl].
    destruct (IH (la ++ [latitude p]) (lo ++ [longitude p])
                 (el ++ [default 0 (elevation p)])
                 (ts ++ [default 0 (dt_timestamp <$> time p)])
                 (match time p with
                  | Some t => dt_tzinfo t
                  | None => Some UTC
                  end)) as (tzv' & Hf).
    exists tzv'. cbn [fmap list_fmap] in *. rewrite <- !app_assoc in Hf.
    exact Hf.
Qed.

Section WriteProperties.

Variable fromtimestamp : R -> option tzinfo -> result datetime.
Variable to_xml : list GPXTrackPoint -> string -> string.
Variable writable : string -> bool.
Hypothesis fromtimestamp_total :
  forall t z, exists d, fromtimestamp t z = Ok d.

(** On a track with channels of one length, with timestamps if the speed is
    to be written, and for a file that can be written, [gpx_write] writes
    the file. *)
Lemma gpx_write_succeeds (fs : filesystem) (gpx_file : string)
    (g : GPXData) (gpx_dist : list R) (write_speed : bool)
    (la lo : list R) :
  lat g = Some la -> lon g = Some lo -> length lo = length la ->
  chan_len_ok (length la) (ele g) -> chan_len_ok (length la) (tstamp g) ->
  (write_speed = true -> truthy (tstamp g) = true) ->
  writable gpx_file = true ->
  exists points,
    gpx_write fromtimestamp to_xml writable fs gpx_file g gpx_dist write_speed
    = (<[gpx_file := to_xml points (if write_speed then "1.0" else "1.1")]> fs,
       Ok tt).
Proof.
  intros Hla Hlo Hlen Hele Hts Hspeed Hw. unfold gpx_write.
  assert (Hsp : exists gpx_speed,
            (if write_speed then
               if negb (truthy (tstamp g)) then
                 Raise (ValueError "tstamp data is missing from gpx_data")
               else let! s := gpx_calculate_speed g in Ok (Some s)
             else Ok None) = Ok gpx_speed
            /\ match gpx_speed with
               | Some sl => length sl = length la
               | None => True
               end).
  { destruct write_speed; [|exists None; auto].
    rewrite (Hspeed eq_refl). cbn [negb].
    destruct (truthy_Some _ (Hspeed eq_refl)) as (t0 & ts & Hts').
    rewrite Hts' in Hts. cbn [chan_len_ok] in Hts.
    destruct (gpx_calculate_speed_char g la lo t0 ts Hla Hlo Hlen Hele Hts' Hts)
      as (d & q & _ & _ & _ & Hs & Hq & _).
    rewrite Hs. cbn [bind]. eexists. split; [reflexivity|].
    cbn. now rewrite length_fmap. }
  destruct Hsp as (gpx_speed & -> & Hsl). cbn [bind].
  rewrite Hla. cbn [py_len bind].
  destruct (for_range_from_inv (fun _ _ => True)
              (write_body fromtimestamp g gpx_speed) (length la) 0 [])
    as (points & Hpoints & _); [exact I| |].
  - intros i pts Hi _. unfold write_body.
    rewrite Hla, Hlo.
    destruct (py_get_lt la i) as (x & -> & _); [lia|].
    destruct (py_get_lt lo i) as (y & -> & _); [lia|]. cbn [bind].
    assert (Hchan : forall c, chan_len_ok (length la) c -> truthy c = true ->
              exists v, py_get c i = Ok v).
    { intros [l|] Hl Ht; [|discriminate]. simpl in Hl.
      destruct (py_get_lt l i) as (v & Hv & _); [lia|]. eauto. }
    assert (He : exists el, (if truthy (ele g)
                             then let! e := py_get (ele g) i in Ok (Some e)
                             else Ok None) = Ok el).
    { destruct (truthy (ele g)) eqn:Ht; [|eauto].
      destruct (Hchan _ Hele Ht) as (v & ->). cbn [bind]. eauto. }
    destruct He as (el & ->). cbn [bind].
    assert (Htm : exists tm, (if truthy (tstamp g)
                              then let! t := py_get (tstamp g) i in
                                   let! d := fromtimestamp t (tz g) in
                                   Ok (Some d)
                              else Ok None) = Ok tm).
    { destruct (truthy (tstamp g)) eqn:Ht; [|eauto].
      destruct (Hchan _ Hts Ht) as (v & ->). cbn [bind].
      destruct (fromtimestamp_total v (tz g)) as (d & ->). cbn [bind]. eauto. }
    destruct Htm as (tm & ->). cbn [bind].
    destruct gpx_speed as [sl|].
    + destruct (py_get_lt sl i) as (v & -> & _); [lia|]. cbn [bind].
      eexists. split; [reflexivity|exact I].
    + cbn [bind]. eexists. split; [reflexivity|exact I].
  - unfold for_range. rewrite Hpoints, Hw. eauto.
Qed.

End WriteProperties.

Lemma load_after_synthesis (parse_begintime : string -> result R)
    (args : Args) (gd gi : GPXObj) (gpx_dist : list R) (h1 h2 h3 : store) :
  time_synthesis parse_begintime args gd gpx_dist h2 = Ok h3 ->
  obj_ok h1 gd -> obj_ok h2 gi -> obj_new h1 gi ->
  load h3 gi = load h2 gi.
Proof.
  intros Hsyn Hgd (A & B & C & D) (A' & B' & C' & D').
  assert (Hframe : forall r, ref_ok h2 r -> ref_new h1 r ->
            load_chan h3 r = load_chan h2 r).
  { intros [l|] Hr Hn; [|reflexivity]. cbn [load_chan].
    apply (time_synthesis_frame _ _ _ _ _ _ Hsyn).
    intros Heq. destruct Hgd as (_ & _ & _ & Hts).
    rewrite Heq in Hts. destruct Hts as [x Hx].
    simpl in Hn. congruence. }
  unfold load. now rewrite !Hframe by assumption.
Qed.

Lemma zip_latlon (points : list GPXTrackPoint) :
  zip (latitude <$> points) (longitude <$> points)
  = (fun p => (latitude p, longitude p)) <$> points.
Proof. induction points as [|p points IH]; [reflexivity|]. cbn. now f_equal. Qed.

Lemma obj_ok_weaken (h h' : store) (o : GPXObj) :
  h ⊆ h' -> obj_ok h o -> obj_ok h' o.
Proof.
  intros Hsub (A & B & C & D). repeat split; eapply ref_ok_weaken; eauto.
Qed.

Section MainReturns.

Variable pchip_interpolate :
  list R -> list (list R) -> list R -> result (list (list R)).
Variable fromtimestamp : R -> option tzinfo -> result datetime.
Variable to_xml : list GPXTrackPoint -> string -> string.
Variable writable : string -> bool.
Variable parse_begintime : string -> result R.
Variable utcfromtimestamp : R -> result string.
Hypothesis pchip_ok : pchip_contract pchip_interpolate.
Hypothesis fromtimestamp_total :
  forall t z, exists d, fromtimestamp t z = Ok d.
Hypothesis utcfromtimestamp_total :
  forall t, exists s, utcfromtimestamp t = Ok s.

(** For a file with two consecutive points at different places [main]
    writes the output file, when the number of points asked for is at
    least 2, the begin time parses and the output file can be written. *)
Lemma process_file_succeeds (args : Args) (fs : filesystem)
    (gpx_file : string) (p0 : GPXTrackPoint) (rest : list GPXTrackPoint)
    (k : Z) :
  num args = Some k -> (2 <= k)%Z ->
  (forall b, begintime args = Some b -> b <> EmptyString ->
             exists t, parse_begintime b = Ok t) ->
  Exists (fun d => d <> 0)
    (steps (latitude p0, longitude p0)
           ((fun p => (latitude p, longitude p)) <$> rest)) ->
  writable (String.append (substring 0 (String.length gpx_file - 4) gpx_file)
                          "_interpolated.gpx") = true ->
  exists fs' summary written,
    process_file pchip_interpolate fromtimestamp to_xml writable
                 parse_begintime utcfromtimestamp args fs gpx_file
                 (p0 :: rest)
    = (fs', Ok (summary, written)).
Proof.
  intros Hnum Hk Hparse Hex Hw.
  destruct (gpx_read_channels (p0 :: rest)) as (tzv & Hread).
  cbn [fmap list_fmap] in Hread.
  set (a := latitude p0) in *. set (o := longitude p0) in *.
  set (la := latitude <$> rest) in *. set (lo := longitude <$> rest) in *.
  set (el := (fun p => default 0 (elevation p)) <$> rest) in *.
  set (ts := (fun p => default 0 (dt_timestamp <$> time p)) <$> rest) in *.
  fold (list_fmap _ _ latitude rest) in Hread.
  set (g0 := gpx_read (p0 :: rest)) in *.
  assert (Hlen : length lo = length la).
  { unfold lo, la. now rewrite !length_fmap. }
  assert (Hlat0 : lat g0 = Some (a :: la)) by now rewrite Hread.
  assert (Hlon0 : lon g0 = Some (o :: lo)) by now rewrite Hread.
  assert (Hele0 : chan_len_ok (S (length la)) (ele g0)).
  { rewrite Hread. cbn [ele chan_len_ok length]. unfold el, la.
    now rewrite !length_fmap. }
  assert (Hts0 : chan_len_ok (S (length la)) (tstamp g0)).
  { rewrite Hread. cbn [tstamp chan_len_ok length]. unfold ts, la.
    now rewrite !length_fmap. }
  assert (Hex0 : Exists (fun d => d <> 0) (steps (a, o) (zip la lo))).
  { unfold la, lo. rewrite zip_latlon. exact Hex. }
  unfold process_file. fold g0.
  destruct (alloc_data ∅ g0) as [h0 gd] eqn:Halloc.
  apply alloc_data_spec in Halloc as (_ & Hload0 & Hok0 & _).
  (* duplicate removal *)
  destruct (gpx_remove_duplicates_nonempty g0 a o la lo
              Hlat0 Hlon0 Hlen Hele0 Hts0)
    as (Hrd & (la1 & lo1 & Hla1 & Hlo1 & Hlen1 & Hele1 & Hts1 & Hnz & Hne) & _).
  specialize (Hne Hex0).
  rewrite <- Hload0 in Hrd at 1.
  destruct (gpx_remove_duplicates_obj_total h0 gd _ Hrd) as (h1 & nd & Hobj).
  rewrite Hobj. cbn [bind].
  apply gpx_remove_duplicates_obj_Ok in Hobj as (Hrd1 & Hsub1 & Hok1).
  assert (Hnd : load h1 nd
                = apply_mask (retained_mask (zip (a :: la) (o :: lo))) g0).
  { congruence. }
  assert (Hgd1 : load h1 gd = g0).
  { rewrite (load_weaken h0 h1 gd Hsub1 Hok0). exact Hload0. }
  change (load_chan h1 (o_lat nd)) with (lat (load h1 nd)).
  change (load_chan h1 (o_lat gd)) with (lat (load h1 gd)).
  rewrite Hnd, Hla1, Hgd1, Hlat0. cbn [py_len bind].
  (* interpolation *)
  assert (Hex1 : Exists (fun d => d <> 0) (steps (a, o) (zip la1 lo1))).
  { destruct la1 as [|x la1]; [contradiction|].
    destruct lo1 as [|y lo1]; [discriminate|].
    apply Forall_cons in Hnz as [Hx _]. now left. }
  rewrite <- Hnd in Hla1, Hlo1, Hele1, Hts1.
  destruct (gpx_interpolate_shape pchip_interpolate (load h1 nd) a o la1 lo1
              (distance args) k pchip_ok Hla1 Hlo1 Hlen1 Hele1 Hts1 Hex1)
    as (out & lao & loo & Hout & Hlao & Hlaolen & Hloo & Hloolen
        & Heleo & Htso & _ & Htsome & _); [lia|].
  rewrite <- Hnum in Hout.
  destruct (gpx_interpolate_obj_total _ h1 nd _ _ _ Hout) as (h2 & gi & Hiobj).
  rewrite Hiobj. cbn [bind].
  assert (Hne1 : all_empty (load h1 nd) = false).
  { unfold all_empty. now rewrite Hla1. }
  apply (gpx_interpolate_obj_Ok _ _ _ _ _ _ _ Hne1) in Hiobj
    as (Hout2 & Hsub2 & Hok2 & Hnew2).
  assert (Hgi : load h2 gi = out) by congruence.
  assert (Hgd2 : load h2 gd = g0).
  { rewrite (load_weaken h1 h2 gd Hsub2); [exact Hgd1|].
    eapply obj_ok_weaken; eauto. }
  (* the distances of the track as read *)
  rewrite Hgd2.
  destruct (gpx_calculate_distance_inv g0 true (a :: la) (o :: lo))
    as (d & Hd & Hdlen & _); try assumption; [simpl; lia|].
  rewrite Hd. cbn [bind].
  (* the timestamps *)
  destruct (time_synthesis_retimed parse_begintime args h2 gd (a :: la)
              (default 0 (dt_timestamp <$> time p0)) ts d)
    as (h3 & ts' & Hsyn & Hts' & Hts'len & _).
  { now rewrite Hgd2. }
  { rewrite Hgd2, Hread. reflexivity. }
  { simpl. unfold ts, la. now rewrite !length_fmap. }
  { exact Hdlen. }
  { exact Hparse. }
  rewrite Hsyn. cbn [bind].
  change (load_chan h3 (o_tstamp gd)) with (tstamp (load h3 gd)).
  rewrite Hts'.
  destruct ts' as [|t_first ts']; [discriminate|].
  change (py_get (Some (t_first :: ts')) 0) with (@Ok R t_first).
  cbn [bind].
  destruct (utcfromtimestamp_total t_first) as (start & ->). cbn [bind].
  change (default [] (Some (t_first :: ts'))) with (t_first :: ts').
  destruct (last_elem_ok (t_first :: ts')) as (t_last & -> & _);
    [simpl; lia|].
  cbn [bind].
  destruct (utcfromtimestamp_total t_last) as (stop & ->). cbn [bind].
  (* the write *)
  assert (Hwritten : load h3 gi = out).
  { rewrite (load_after_synthesis _ _ _ _ _ h1 h2 h3 Hsyn); auto.
    eapply obj_ok_weaken; eauto. }
  rewrite Hwritten.
  destruct (gpx_write_succeeds fromtimestamp to_xml writable
              fromtimestamp_total fs
              (String.append
                 (substring 0 (String.length gpx_file - 4) gpx_file)
                 "_interpolated.gpx")
              out d (speed args) lao loo
              Hlao Hloo (eq_trans Hloolen (eq_sym Hlaolen)))
    as (pts & Hwrite); try exact Hw.
  - now rewrite Hlaolen.
  - now rewrite Hlaolen.
  - intros _. destruct (tstamp out) as [[|t l]|]; [| reflexivity |].
    + simpl in Htso. lia.
    + exfalso.
      assert (Hsome : is_Some (tstamp (load h1 nd))).
      { rewrite Hnd. unfold apply_mask. cbn [tstamp].
        rewrite Hread. cbn [tstamp]. eauto. }
      apply Htsome in Hsome. destruct Hsome as [? [=]].
  - rewrite Hwrite, Hlao. cbn [bind py_len]. eauto.
Qed.

End MainReturns.

(** C9. Whenever [main] writes the output file, the track it writes is the
    interpolation of the track as it was read (after duplicate removal),
    computed from the points, [distance] and [num] alone: the lists of the
    interpolated track are new objects, which the adjustments of the
    timestamps of [gpx_data] (lemma [time_synthesis_frame]) do not touch.
    Hence two runs on the same file that differ only in [begintime],
    [velocity], [intervaltime] (and [speed]) write the same coordinates and
    timestamps. *)
Theorem written_track_unaffected_by_retiming
    (pchip_interpolate :
       list R -> list (list R) -> list R -> result (list (list R)))
    (fromtimestamp : R -> option tzinfo -> result datetime)
    (to_xml : list GPXTrackPoint -> string -> string)
    (writable : string -> bool)
    (parse_begintime : string -> result R)
    (utcfromtimestamp : R -> result string)
    (args : Args) (fs fs' : filesystem) (gpx_file : string)
    (points : list GPXTrackPoint) (summary : Summary) (written : GPXData) :
  process_file pchip_interpolate fromtimestamp to_xml writable
               parse_begintime utcfromtimestamp args fs gpx_file points
  = (fs', Ok (summary, written)) ->
  (exists nodup,
     gpx_remove_duplicates (gpx_read points) = Ok nodup
     /\ gpx_interpolate pchip_interpolate nodup (distance args) (num args)
        = Ok written)
  /\ forall args2 fs2 fs2' summary2 written2,
       distance args2 = distance args -> num args2 = num args ->
       process_file pchip_interpolate fromtimestamp to_xml writable
                    parse_begintime utcfromtimestamp args2 fs2 gpx_file points
       = (fs2', Ok (summary2, written2)) ->
       written2 = written.
Proof.
  intros Hrun.
  apply process_file_written in Hrun as (nodup & Hrd & Hout).
  split; [eauto|].
  intros args2 fs2 fs2' summary2 written2 Hdist Hnum Hrun2.
  apply process_file_written in Hrun2 as (nodup2 & Hrd2 & Hout2).
  rewrite Hdist, Hnum in Hout2. congruence.
Qed.

Lemma written_track_unaffected_by_retiming_witness :
  let run := process_file pchip_model (fun t z => Ok (mkDatetime t z))
               (fun _ version => version) (fun _ => true) (fun _ => Ok 0)
               (fun _ => Ok "1970-01-01T00:00:00"%string) in
  let points := [mkPoint 0 0 None None None; mkPoint 0 180 None None None] in
  exists fs1 s1 w1 fs2 s2 w2,
    run (mkArgs 1 (Some 3%Z) None 1 false None) ∅ "track.gpx"%string points
    = (fs1, Ok (s1, w1))
    /\ run (mkArgs 1 (Some 3%Z) (Some 5) 2 true (Some "20240201-120000Z"%string))
           ∅ "track.gpx"%string points
       = (fs2, Ok (s2, w2))
    /\ w2 = w1.
Proof.
  intros run points.
  assert (Hex : Exists (fun d => d <> 0)
                  (steps (0, 0) ((fun p => (latitude p, longitude p))
                                 <$> [mkPoint 0 180 None None None]))).
  { constructor. apply equator_opposite_points. }
  destruct (process_file_succeeds pchip_model (fun t z => Ok (mkDatetime t z))
              (fun _ version => version) (fun _ => true) (fun _ => Ok 0)
              (fun _ => Ok "1970-01-01T00:00:00"%string)
              pchip_model_contract (fun t z => ex_intro _ _ eq_refl)
              (fun t => ex_intro _ _ eq_refl)
              (mkArgs 1 (Some 3%Z) None 1 false None) ∅ "track.gpx"%string
              (mkPoint 0 0 None None None) [mkPoint 0 180 None None None] 3%Z
              eq_refl ltac:(lia) ltac:(intros b [=]) Hex eq_refl)
    as (fs1 & s1 & w1 & Hrun1).
  destruct (process_file_succeeds pchip_model (fun t z => Ok (mkDatetime t z))
              (fun _ version => version) (fun _ => true) (fun _ => Ok 0)
              (fun _ => Ok "1970-01-01T00:00:00"%string)
              pchip_model_contract (fun t z => ex_intro _ _ eq_refl)
              (fun t => ex_intro _ _ eq_refl)
              (mkArgs 1 (Some 3%Z) (Some 5) 2 true
                 (Some "20240201-120000Z"%string))
              ∅ "track.gpx"%string
              (mkPoint 0 0 None None None) [mkPoint 0 180 None None None] 3%Z
              eq_refl ltac:(lia) ltac:(intros b _ _; eauto) Hex eq_refl)
    as (fs2 & s2 & w2 & Hrun2).
  exists fs1, s1, w1, fs2, s2, w2.
  split; [exact Hrun1|]. split; [exact Hrun2|].
  destruct (written_track_unaffected_by_retiming _ _ _ _ _ _ _ _ _ _ _ _ _ Hrun1)
    as (_ & Hsame).
  apply (Hsame (mkArgs 1 (Some 3%Z) (Some 5) 2 true
                  (Some "20240201-120000Z"%string))
               ∅ fs2 s2 w2 eq_refl eq_refl Hrun2).
Defined.

(** ** A point and itself *)

Lemma gc_points_same (p : R * R) : gc_points p p = 0.
Proof. now apply gc_points_zero_iff. Qed.

(** ** The interpolator at its end points *)

Lemma count_le_none (q : R) (l : list R) :
  Forall (fun x => q < x) l -> count_le q l = 0%nat.
Proof.
  induction 1 as [|x l Hx _ IH]; [reflexivity|]. simpl.
  destruct (Rle_dec x q); [lra|]. exact IH.
Qed.

Lemma count_le_all (q : R) (l : list R) :
  Forall (fun x => x <= q) l -> count_le q l = length l.
Proof.
  induction 1 as [|x l Hx _ IH]; [reflexivity|]. simpl.
  destruct (Rle_dec x q); [|lra]. now rewrite IH.
Qed.

Lemma strictly_increasing_lt (l : list R) (i j : nat) (a b : R) :
  strictly_increasing l -> (i < j)%nat ->
  l !! i = Some a -> l !! j = Some b -> a < b.
Proof.
  intros Hinc Hij Ha Hb.
  destruct (lookup_lt_is_Some_2 l (S i)) as [c Hc].
  { apply lookup_lt_Some in Hb. lia. }
  pose proof (Hinc i a c Ha Hc).
  pose proof (strictly_increasing_le l (S i) j c b Hinc ltac:(lia) Hc Hb). lra.
Qed.

Lemma find_interval_first (xi : list R) (x0 : R) :
  strictly_increasing xi -> head xi = Some x0 -> find_interval xi x0 = 0%nat.
Proof.
  intros Hinc Hhead. unfold find_interval. apply count_le_none.
  apply Forall_take, Forall_lookup. intros i x Hx.
  rewrite lookup_drop in Hx. rewrite head_lookup in Hhead.
  apply (strictly_increasing_lt xi 0 (1 + i) x0 x Hinc); [lia|assumption..].
Qed.

Lemma find_interval_last (xi : list R) (xn : R) :
  strictly_increasing xi -> last xi = Some xn ->
  find_interval xi xn = (length xi - 2)%nat.
Proof.
  intros Hinc Hlast. unfold find_interval. rewrite count_le_all.
  - rewrite length_take, length_drop. lia.
  - apply Forall_take, Forall_lookup. intros i x Hx.
    rewrite lookup_drop in Hx. rewrite last_lookup in Hlast.
    apply (strictly_increasing_le xi (1 + i) (Init.Nat.pred (length xi)) x xn
             Hinc); [|assumption..].
    apply lookup_lt_Some in Hx. lia.
Qed.

Lemma knot_lookup (l : list R) (i : nat) (x : R) :
  l !! i = Some x -> knot l i = x.
Proof. unfold knot. now intros ->. Qed.

Lemma hermite_first (xi yrow : list R) (x0 : R) :
  strictly_increasing xi -> head xi = Some x0 ->
  hermite xi yrow x0 = knot yrow 0.
Proof.
  intros Hinc Hhead. unfold hermite.
  rewrite (find_interval_first xi x0 Hinc Hhead). cbv zeta.
  rewrite head_lookup in Hhead. rewrite (knot_lookup xi 0 x0 Hhead).
  replace ((x0 - x0) / (knot xi 1 - x0)) with 0
    by (unfold Rdiv; ring).
  ring.
Qed.

Lemma hermite_last (xi yrow : list R) (xn : R) :
  (2 <= length xi)%nat -> strictly_increasing xi -> last xi = Some xn ->
  hermite xi yrow xn = knot yrow (length xi - 1).
Proof.
  intros Hn Hinc Hlast. unfold hermite.
  rewrite (find_interval_last xi xn Hinc Hlast). cbv zeta.
  replace (S (length xi - 2)) with (length xi - 1)%nat by lia.
  rewrite last_lookup in Hlast.
  replace (Init.Nat.pred (length xi)) with (length xi - 1)%nat in Hlast by lia.
  rewrite (knot_lookup xi _ xn Hlast).
  destruct (lookup_lt_is_Some_2 xi (length xi - 2)) as [xp Hxp]; [lia|].
  rewrite (knot_lookup xi _ xp Hxp).
  assert (Hlt : xp < xn).
  { apply (strictly_increasing_lt xi (length xi - 2) (length xi - 1) xp xn
             Hinc); [lia|assumption..]. }
  replace ((xn - xp) / (xn - xp)) with 1 by (field; lra).
  ring.
Qed.

(** The model of the interpolator reproduces the end points. *)
Lemma pchip_model_endpoints : pchip_endpoints pchip_model.
Proof.
  intros xi yi x y x0 xn Hn Hinc Hrows Hhead Hlast Hrun i yrow r Hyrow Hr.
  unfold pchip_model in Hrun.
  destruct (length xi <? 2)%nat; [discriminate|].
  destruct (negb (forallb _ yi)); [discriminate|].
  destruct (negb (increasingb xi)); [discriminate|].
  injection Hrun as <-.
  rewrite list_lookup_fmap, Hyrow in Hr. injection Hr as <-.
  rewrite Forall_lookup in Hrows. specialize (Hrows i yrow Hyrow).
  split.
  - intros Hx. destruct x as [|q x]; [discriminate|]. injection Hx as ->.
    cbn [fmap list_fmap head]. rewrite (hermite_first xi yrow x0 Hinc Hhead).
    destruct yrow as [|v yrow]; [simpl in Hrows; lia|]. reflexivity.
  - intros Hx. rewrite fmap_last, Hx. cbn [fmap option_fmap option_map].
    rewrite (hermite_last xi yrow xn Hn Hinc Hlast).
    rewrite last_lookup, <- Hrows.
    replace (Init.Nat.pred (length yrow)) with (length yrow - 1)%nat by lia.
    destruct (lookup_lt_is_Some_2 yrow (length yrow - 1)) as [v Hv]; [lia|].
    now rewrite Hv, (knot_lookup yrow _ v Hv).
Qed.

Lemma select_last {A : Type} (mask : list bool) (l : list A) :
  length mask = length l -> last mask = Some true ->
  last (select mask l) = last l.
Proof.
  revert l. induction mask as [|b mask IH]; intros [|x l] Hlen Hlast;
    try discriminate.
  simpl in Hlen. injection Hlen as Hlen.
  rewrite last_cons in Hlast. rewrite (last_cons x l).
  destruct (last mask) as [y|] eqn:Hm.
  - specialize (IH l Hlen Hlast).
    assert (Hl : is_Some (last l)).
    { destruct (last l) eqn:E; [eauto|]. apply last_None in E. subst l.
      destruct mask; [discriminate|discriminate]. }
    destruct Hl as [z Hz]. rewrite Hz in IH |- *.
    cbn [select]. destruct b.
    + now rewrite last_cons, IH.
    + exact IH.
  - apply last_None in Hm. subst mask. destruct l; [|discriminate].
    injection Hlast as ->. reflexivity.
Qed.

(** ** [main] on a file without track points *)

(** For a file without track points [gpx_remove_duplicates] hands [main] a
    dictionary without latitudes, and [main] raises a [TypeError] at the
    [len] of line 274; nothing is written. *)
Lemma process_file_no_points
    (pchip_interpolate :
       list R -> list (list R) -> list R -> result (list (list R)))
    (fromtimestamp : R -> option tzinfo -> result datetime)
    (to_xml : list GPXTrackPoint -> string -> string)
    (writable : string -> bool)
    (parse_begintime : string -> result R)
    (utcfromtimestamp : R -> result string)
    (args : Args) (fs : filesystem) (gpx_file : string) :
  process_file pchip_interpolate fromtimestamp to_xml writable
               parse_begintime utcfromtimestamp args fs gpx_file []
  = (fs, Raise TypeError).
Proof.
  unfold process_file.
  destruct (alloc_data ∅ (gpx_read [])) as [h0 gd] eqn:Halloc.
  apply alloc_data_spec in Halloc as (_ & Hload & _ & _).
  unfold gpx_remove_duplicates_obj, kept_indices. rewrite Hload.
  cbn [gpx_read foldl gpx_calculate_distance lat py_len bind length replicate
       for_range for_range_from Nat.sub np_nonzero nonzero_from].
  destruct (decide (length [0%nat] = length (@nil R))) as [Heq|_];
    [discriminate|].
  reflexivity.
Qed.

(** * Further properties of the script *)

(** ** [gpx_read] *)

Lemma gpx_read_tz_fold (points : list GPXTrackPoint) (acc : GPXData) :
  tz (foldl read_point acc points)
  = match last points with
    | Some p => match time p with
                | Some t => dt_tzinfo t
                | None => Some UTC
                end
    | None => tz acc
    end.
Proof.
  revert acc. induction points as [|p points IH]; intros acc; [reflexivity|].
  cbn [foldl]. rewrite IH, last_cons.
  destruct (last points); reflexivity.
Qed.

(** X1. [gpx_read] never leaves a channel out and never leaves a gap: all
    four channels are lists with one element per track point, in the order
    of the points; a point without elevation or without time contributes
    0; the time zone is the one of the time of the last point, UTC if the
    last point has no time, and [None] if there is no point. *)
Theorem gpx_read_spec (points : list GPXTrackPoint) :
  lat (gpx_read points) = Some (latitude <$> points)
  /\ lon (gpx_read points) = Some (longitude <$> points)
  /\ ele (gpx_read points)
     = Some ((fun p => default 0 (elevation p)) <$> points)
  /\ tstamp (gpx_read points)
     = Some ((fun p => default 0 (dt_timestamp <$> time p)) <$> points)
  /\ tz (gpx_read points)
     = match last points with
       | Some p => match time p with
                   | Some t => dt_tzinfo t
                   | None => Some UTC
                   end
       | None => None
       end.
Proof.
  destruct (gpx_read_channels points) as (tzv & Hread).
  rewrite Hread. cbn [lat lon ele tstamp].
  repeat (split; [reflexivity|]).
  rewrite <- Hread. unfold gpx_read. apply gpx_read_tz_fold.
Qed.

(** ** The great-circle distance *)

Lemma asin_le_PI2 (x : R) : asin x <= PI / 2.
Proof. apply asin_bound. Qed.

Lemma great_circle_le (a b c d : R) :
  great_circle a b c d <= PI * EARTH_RADIUS.
Proof.
  unfold great_circle. cbv zeta.
  match goal with |- context [asin ?x] => pose proof (asin_le_PI2 x) end.
  pose proof EARTH_RADIUS_pos. nra.
Qed.

(** X2. Without elevation, on a track whose latitude and longitude channels
    have one length, [gpx_calculate_distance] returns, and every distance it
    returns lies between 0 and half the circumference of the Earth
    ([PI * EARTH_RADIUS]), up to rounding. *)
Theorem gpx_calculate_distance_flat_range (g : GPXData) (la lo : list R) :
  lat g = Some la -> lon g = Some lo -> length lo = length la ->
  chan_len_ok (length la) (ele g) ->
  exists d,
    gpx_calculate_distance g false = Ok d
    /\ length d = length la
    /\ Forall (fun x => 0 <= x <= PI * EARTH_RADIUS) d.
Proof.
  intros Hla Hlo Hlen Hele.
  destruct (gpx_calculate_distance_inv g false la lo Hla Hlo Hlen Hele)
    as (d & Hd & Hdlen & Hzero & Hsteps).
  exists d. split; [exact Hd|]. split; [exact Hdlen|].
  apply Forall_lookup. intros j x Hx. destruct j as [|i].
  - rewrite Hzero in Hx.
    + injection Hx as <-. pose proof EARTH_RADIUS_pos. pose proof PI_RGT_0.
      nra.
    + rewrite <- Hdlen. eapply lookup_lt_Some; eauto.
    + now left.
  - assert (Hi : (i < length la - 1)%nat).
    { apply lookup_lt_Some in Hx. lia. }
    destruct (Hsteps i Hi) as (v' & Hv' & lat1 & lon1 & lat2 & lon2
                               & _ & _ & _ & _ & Hval).
    rewrite andb_false_r in Hval.
    assert (x = v') by congruence. subst.
    split; [apply great_circle_nonneg|apply great_circle_le].
Qed.

Lemma gpx_calculate_distance_flat_range_witness :
  exists d,
    gpx_calculate_distance
      (mkGPXData (Some [0; 0; 45]) (Some [0; 180; 10]) None None None) false
    = Ok d
    /\ Forall (fun x => 0 <= x <= PI * EARTH_RADIUS) d.
Proof.
  destruct (gpx_calculate_distance_flat_range
              (mkGPXData (Some [0; 0; 45]) (Some [0; 180; 10]) None None None)
              [0; 0; 45] [0; 180; 10] eq_refl eq_refl eq_refl I)
    as (d & Hd & _ & Hrange).
  exists d. split; [exact Hd|exact Hrange].
Defined.

(** ** Elevation in [gpx_calculate_distance] *)

Lemma py_get_fun (c : channel) (i : nat) (x y : R) :
  py_get c i = Ok x -> py_get c i = Ok y -> x = y.
Proof. congruence. Qed.

Lemma sqrt_hypot_ge (d e : R) : 0 <= d -> d <= sqrt (d ^ 2 + e ^ 2).
Proof.
  intros Hd. rewrite <- (sqrt_pow2 d) at 1 by exact Hd.
  apply sqrt_le_1_alt. pose proof (pow2_ge_0 e). lra.
Qed.

(** X3. Taking the elevation into account never shortens a step: on a track
    with channels of one length, each distance computed with
    [use_ele = True] is at least the distance computed with
    [use_ele = False] at the same index, the two lists have one length, and
    they are equal when the track has no elevations ([None] or []). *)
Theorem gpx_calculate_distance_elevation_ge (g : GPXData) (la lo : list R) :
  lat g = Some la -> lon g = Some lo -> length lo = length la ->
  chan_len_ok (length la) (ele g) ->
  exists d3 d2,
    gpx_calculate_distance g true = Ok d3
    /\ gpx_calculate_distance g false = Ok d2
    /\ length d3 = length d2
    /\ (forall i x y, d2 !! i = Some x -> d3 !! i = Some y -> x <= y)
    /\ (truthy (ele g) = false -> d3 = d2).
Proof.
  intros Hla Hlo Hlen Hele.
  destruct (gpx_calculate_distance_inv g true la lo Hla Hlo Hlen Hele)
    as (d3 & Hd3 & Hl3 & Hz3 & Hs3).
  destruct (gpx_calculate_distance_inv g false la lo Hla Hlo Hlen Hele)
    as (d2 & Hd2 & Hl2 & Hz2 & Hs2).
  assert (Hstep : forall i x y, d2 !! S i = Some x -> d3 !! S i = Some y ->
            x <= y /\ (truthy (ele g) = false -> x = y)).
  { intros i x y Hx Hy.
    assert (Hi : (i < length la - 1)%nat).
    { apply lookup_lt_Some in Hx. lia. }
    destruct (Hs3 i Hi) as (y' & Hy' & a1 & b1 & a2 & b2
                            & G1 & G2 & G3 & G4 & Hv3).
    destruct (Hs2 i Hi) as (x' & Hx' & a1' & b1' & a2' & b2'
                            & G1' & G2' & G3' & G4' & Hv2).
    assert (y' = y) as -> by congruence.
    assert (x' = x) as -> by congruence.
    rewrite (py_get_fun _ _ _ _ G1' G1), (py_get_fun _ _ _ _ G2' G2),
            (py_get_fun _ _ _ _ G3' G3), (py_get_fun _ _ _ _ G4' G4) in Hv2.
    rewrite andb_false_r in Hv2. rewrite andb_true_r in Hv3.
    destruct (truthy (ele g)).
    - destruct Hv3 as (e1 & e2 & _ & _ & ->). subst x.
      split; [|discriminate]. apply sqrt_hypot_ge, great_circle_nonneg.
    - subst. split; [lra|reflexivity]. }
  exists d3, d2. split; [exact Hd3|]. split; [exact Hd2|].
  split; [congruence|]. split.
  - intros [|i] x y Hx Hy.
    + rewrite Hz2 in Hx; [|apply lookup_lt_Some in Hx; lia|now left].
      rewrite Hz3 in Hy; [|apply lookup_lt_Some in Hy; lia|now left].
      injection Hx as <-. injection Hy as <-. lra.
    + now apply (Hstep i).
  - intros Hno. apply list_eq. intros [|i].
    + destruct la as [|a la'].
      * destruct d3, d2; try discriminate. reflexivity.
      * rewrite Hz2, Hz3; [reflexivity|simpl; lia|now left|simpl; lia|now left].
    + destruct (d2 !! S i) as [x|] eqn:Hx, (d3 !! S i) as [y|] eqn:Hy.
      * f_equal. symmetry. now apply (Hstep i).
      * apply lookup_lt_Some in Hx. apply lookup_ge_None in Hy. lia.
      * apply lookup_lt_Some in Hy. apply lookup_ge_None in Hx. lia.
      * reflexivity.
Qed.

Lemma gpx_calculate_distance_elevation_ge_witness :
  exists d3 d2,
    gpx_calculate_distance
      (mkGPXData (Some [0; 0]) (Some [0; 1]) (Some [10; 40]) None None) true
    = Ok d3
    /\ gpx_calculate_distance
         (mkGPXData (Some [0; 0]) (Some [0; 1]) (Some [10; 40]) None None) false
       = Ok d2
    /\ forall i x y, d2 !! i = Some x -> d3 !! i = Some y -> x <= y.
Proof.
  destruct (gpx_calculate_distance_elevation_ge
              (mkGPXData (Some [0; 0]) (Some [0; 1]) (Some [10; 40]) None None)
              [0; 0] [0; 1] eq_refl eq_refl eq_refl eq_refl)
    as (d3 & d2 & H3 & H2 & _ & Hle & _).
  exists d3, d2. auto.
Defined.

(** ** Channels of different lengths in [gpx_calculate_distance] *)

(** A loop raises [e] if one of its iterations raises [e] whatever the
    accumulator is, and every earlier iteration returns or raises [e]. *)
Lemma for_range_from_raises {A : Type} (body : A -> nat -> result A)
    (e : exn) (n start k : nat) (acc : A) :
  (start <= k < start + n)%nat ->
  (forall i a, (start <= i < k)%nat ->
               body a i = Raise e \/ exists a', body a i = Ok a') ->
  (forall a, body a k = Raise e) ->
  for_range_from start n body acc = Raise e.
Proof.
  revert start acc. induction n as [|n IH]; intros start acc Hk Hbefore Hat.
  - lia.
  - cbn [for_range_from].
    destruct (decide (start = k)) as [->|Hne].
    + rewrite Hat. reflexivity.
    + destruct (Hbefore start acc) as [Hr|(a' & Ha')]; [lia| |].
      * rewrite Hr. reflexivity.
      * rewrite Ha'. cbn [bind]. apply IH; [lia| |exact Hat].
        intros i a Hi. apply Hbefore. lia.
Qed.

Lemma py_get_Some_cases (l : list R) (i : nat) :
  py_get (Some l) i = Raise IndexError \/ exists x, py_get (Some l) i = Ok x.
Proof. unfold py_get. destruct (l !! i); eauto. Qed.

Lemma distance_body_cases (g : GPXData) (use_ele : bool) (la lo : list R)
    (d : list R) (i : nat) :
  lat g = Some la -> lon g = Some lo ->
  distance_body g use_ele d i = Raise IndexError
  \/ exists d', distance_body g use_ele d i = Ok d'.
Proof.
  intros Hla Hlo. unfold distance_body. rewrite Hla, Hlo.
  destruct (py_get_Some_cases la i) as [->|(x1 & ->)]; [now left|].
  destruct (py_get_Some_cases lo i) as [->|(x2 & ->)]; [now left|].
  destruct (py_get_Some_cases la (i + 1)) as [->|(x3 & ->)]; [now left|].
  destruct (py_get_Some_cases lo (i + 1)) as [->|(x4 & ->)]; [now left|].
  cbn [bind]. destruct (ele g) as [[|e0 el]|]; cbn [truthy andb]; eauto.
  destruct use_ele; eauto.
  destruct (py_get_Some_cases (e0 :: el) (i + 1)) as [->|(x5 & ->)];
    [now left|].
  destruct (py_get_Some_cases (e0 :: el) i) as [->|(x6 & ->)]; [now left|].
  cbn [bind]. eauto.
Qed.

(** X4. [gpx_calculate_distance] reads the longitudes only inside its loop.
    On a track with at most one latitude the loop does not run and the
    result is a list of zeros of that length, whatever the other channels
    are.  On a track with two or more latitudes the call raises a
    [TypeError] if the longitude channel is [None], and an [IndexError] if
    there are fewer longitudes than latitudes, whatever the elevations
    are. *)
Theorem gpx_calculate_distance_short_lon (g : GPXData) (use_ele : bool)
    (la : list R) :
  lat g = Some la ->
  ((length la <= 1)%nat ->
   gpx_calculate_distance g use_ele = Ok (replicate (length la) 0))
  /\ ((2 <= length la)%nat -> lon g = None ->
      gpx_calculate_distance g use_ele = Raise TypeError)
  /\ (forall lo, (2 <= length la)%nat -> lon g = Some lo ->
        (length lo < length la)%nat ->
        gpx_calculate_distance g use_ele = Raise IndexError).
Proof.
  intros Hla. unfold gpx_calculate_distance, for_range. rewrite Hla.
  cbn [py_len bind]. rewrite length_replicate. split; [|split].
  - intros Hle. replace (length la - 1)%nat with 0%nat by lia. reflexivity.
  - intros Hge Hlo. destruct la as [|a [|b la']]; cbn [length] in Hge; try lia.
    cbn [length Nat.sub for_range_from]. unfold distance_body.
    rewrite Hla, Hlo. reflexivity.
  - intros lo Hge Hlo Hlt.
    apply (for_range_from_raises _ _ _ _ (length lo - 1)); [lia| |].
    + intros i a _. now apply (distance_body_cases g use_ele la lo).
    + intros a. unfold distance_body. rewrite Hla, Hlo.
      destruct (py_get_Some_cases la (length lo - 1)) as [->|(x1 & ->)];
        [reflexivity|].
      destruct (py_get_Some_cases lo (length lo - 1)) as [->|(x2 & ->)];
        [reflexivity|].
      destruct (py_get_Some_cases la (length lo - 1 + 1)) as [->|(x3 & ->)];
        [reflexivity|].
      cbn [bind]. unfold py_get.
      rewrite (lookup_ge_None_2 lo (length lo - 1 + 1)) by lia.
      reflexivity.
Qed.

Lemma gpx_calculate_distance_short_lon_witness :
  gpx_calculate_distance
    (mkGPXData (Some [1; 2; 3]) (Some [4; 5]) None None None) false
  = Raise IndexError.
Proof.
  destruct (gpx_calculate_distance_short_lon
              (mkGPXData (Some [1; 2; 3]) (Some [4; 5]) None None None) false
              [1; 2; 3] eq_refl) as (_ & _ & Hshort).
  apply (Hshort [4; 5]).
  - simpl. lia.
  - reflexivity.
  - simpl. lia.
Defined.

(** ** [gpx_calculate_speed]: values and errors *)

(** X5. On a track with channels of one length and timestamps, the speed
    that [gpx_calculate_speed] returns for a step whose time delta is at
    least [EPS] is the distance of the step (elevation included) over the
    time delta. *)
Theorem gpx_calculate_speed_value (g : GPXData) (la lo : list R) (t0 : R)
    (ts : list R) :
  lat g = Some la -> lon g = Some lo -> length lo = length la ->
  chan_len_ok (length la) (ele g) ->
  tstamp g = Some (t0 :: ts) -> length (t0 :: ts) = length la ->
  exists d s,
    gpx_calculate_distance g true = Ok d
    /\ gpx_calculate_speed g = Ok s
    /\ forall i t1 t2 di,
         (t0 :: ts) !! i = Some t1 -> (t0 :: ts) !! S i = Some t2 ->
         d !! S i = Some di -> EPS <= t2 - t1 ->
         s !! S i = Some (di / (t2 - t1)).
Proof.
  intros Hla Hlo Hlen Hele Hts Htlen.
  destruct (gpx_calculate_speed_char g la lo t0 ts Hla Hlo Hlen Hele Hts Htlen)
    as (d & q & Hd & _ & _ & Hs & _ & Hq).
  exists d, (nan_to_num 0 <$> q). split; [exact Hd|]. split; [exact Hs|].
  intros i t1 t2 di H1 H2 Hdi Hge.
  rewrite list_lookup_fmap,
    (Hq (S i) di (t2 - t1) Hdi (np_diff_prepend_succ _ _ _ _ _ H1 H2)).
  cbn [fmap option_fmap option_map].
  fold (speed_at di (t2 - t1)). now rewrite speed_at_above.
Qed.

Lemma gpx_calculate_speed_value_witness :
  exists d s,
    gpx_calculate_distance
      (mkGPXData (Some [0; 0]) (Some [0; 1]) None (Some [0; 10]) (Some UTC))
      true = Ok d
    /\ gpx_calculate_speed
         (mkGPXData (Some [0; 0]) (Some [0; 1]) None (Some [0; 10]) (Some UTC))
       = Ok s
    /\ forall di, d !! 1%nat = Some di -> s !! 1%nat = Some (di / (10 - 0)).
Proof.
  destruct (gpx_calculate_speed_value
              (mkGPXData (Some [0; 0]) (Some [0; 1]) None (Some [0; 10])
                         (Some UTC))
              [0; 0] [0; 1] 0 [10] eq_refl eq_refl eq_refl I eq_refl eq_refl)
    as (d & s & Hd & Hs & Hval).
  exists d, s. split; [exact Hd|]. split; [exact Hs|].
  intros di Hdi. apply (Hval 0%nat 0 10 di eq_refl eq_refl Hdi).
  unfold EPS. pose proof (Rinv_0_lt_compat (10 ^ 6)) as Hinv.
  assert (H6 : 1 <= 10 ^ 6) by (simpl; lra).
  assert (Hle : / 10 ^ 6 <= 1).
  { rewrite <- Rinv_1. apply Rinv_le_contravar; lra. }
  lra.
Defined.

(** X6. The timestamps that [gpx_calculate_speed] cannot use, on a track
    whose distances can be computed: a [None] channel raises a
    [TypeError], an empty list an [IndexError] (both at
    [gpx_data['tstamp'][0]]); a list of two or more timestamps whose length
    differs from the number of points raises the [ValueError] of the array
    division, unless the track has exactly one point; a list of exactly one
    timestamp is broadcast, and every speed is 0. *)
Theorem gpx_calculate_speed_bad_tstamp (g : GPXData) (la lo : list R) :
  lat g = Some la -> lon g = Some lo -> length lo = length la ->
  chan_len_ok (length la) (ele g) ->
  (tstamp g = None -> gpx_calculate_speed g = Raise TypeError)
  /\ (tstamp g = Some [] -> gpx_calculate_speed g = Raise IndexError)
  /\ (forall ts, tstamp g = Some ts -> (2 <= length ts)%nat ->
        length ts <> length la -> length la <> 1%nat ->
        exists msg, gpx_calculate_speed g = Raise (ValueError msg))
  /\ (forall t, tstamp g = Some [t] ->
        gpx_calculate_speed g = Ok (replicate (length la) 0)).
Proof.
  intros Hla Hlo Hlen Hele.
  destruct (gpx_calculate_distance_inv g true la lo Hla Hlo Hlen Hele)
    as (d & Hd & Hdlen & _).
  unfold gpx_calculate_speed. rewrite Hd. cbn [bind].
  split; [|split; [|split]].
  - intros ->. reflexivity.
  - intros ->. reflexivity.
  - intros ts Hts Hge Hne Hone. rewrite Hts.
    destruct ts as [|t0 ts']; [simpl in Hge; lia|].
    change (py_get (Some (t0 :: ts')) 0) with (@Ok R t0). cbn [bind].
    change (default [] (Some (t0 :: ts'))) with (t0 :: ts').
    unfold np_divide, mask_below.
    rewrite !length_fmap, np_diff_prepend_length, Hdlen.
    destruct (decide (length la = length (t0 :: ts'))) as [Heq|_];
      [congruence|].
    destruct d as [|x [|y d']]; [|simpl in Hdlen; congruence|].
    + destruct ts' as [|t1 ts'']; [simpl in Hge; lia|].
      cbn. eauto.
    + destruct ts' as [|t1 ts'']; [simpl in Hge; lia|].
      cbn. eauto.
  - intros t Hts. rewrite Hts.
    change (py_get (Some [t]) 0) with (@Ok R t). cbn [bind].
    change (default [] (Some [t])) with [t].
    cbn [np_diff_prepend fmap list_fmap mask_below].
    assert (Hnan : np_lt (Fin (t - t)) EPS = true).
    { unfold np_lt. destruct (Rlt_dec (t - t) EPS) as [_|Hn]; [reflexivity|].
      pose proof EPS_pos. lra. }
    rewrite Hnan. unfold np_divide. rewrite <- Hdlen.
    assert (Hall : nan_to_num 0 <$> ((fun x => np_div x NaN) <$> d)
                   = replicate (length d) 0).
    { clear. induction d as [|x d IH]; [reflexivity|].
      cbn [fmap list_fmap length replicate np_div nan_to_num].
      f_equal. exact IH. }
    destruct (decide (length d = length [NaN])) as [Heq|Hne].
    + destruct d as [|x [|y d']]; try discriminate. reflexivity.
    + destruct d as [|x [|y d']]; [| simpl in Hne; congruence |];
        cbn [bind]; rewrite Hall; reflexivity.
Qed.

Lemma gpx_calculate_speed_bad_tstamp_witness :
  gpx_calculate_speed
    (mkGPXData (Some [0; 0]) (Some [0; 1]) None (Some []) None)
  = Raise IndexError
  /\ gpx_calculate_speed
       (mkGPXData (Some [0; 0]) (Some [0; 1]) None (Some [7]) None)
     = Ok [0; 0].
Proof.
  split.
  - destruct (gpx_calculate_speed_bad_tstamp
                (mkGPXData (Some [0; 0]) (Some [0; 1]) None (Some []) None)
                [0; 0] [0; 1] eq_refl eq_refl eq_refl I) as (_ & Hempty & _).
    apply Hempty. reflexivity.
  - destruct (gpx_calculate_speed_bad_tstamp
                (mkGPXData (Some [0; 0]) (Some [0; 1]) None (Some [7]) None)
                [0; 0] [0; 1] eq_refl eq_refl eq_refl I) as (_ & _ & _ & Hone).
    apply (Hone 7). reflexivity.
Defined.

(** ** Masks *)

Lemma select_truthy (mf : list bool) (c : channel) :
  truthy (select (true :: mf) <$> c) = truthy c.
Proof. destruct c as [[|x l]|]; reflexivity. Qed.


Lemma nonzero_mask_zero (ds : list R) :
  Forall (fun d => d = 0) ds -> nonzero_mask ds = replicate (length ds) false.
Proof.
  induction 1 as [|d ds Hd _ IH]; [reflexivity|].
  unfold nonzero_mask in *. cbn [fmap list_fmap length replicate].
  rewrite IH. destruct (Req_dec_T d 0); [reflexivity|contradiction].
Qed.

Lemma select_none {A : Type} (n : nat) (l : list A) :
  select (replicate n false) l = [].
Proof.
  revert l. induction n as [|n IH]; intros [|x l]; try reflexivity.
  cbn [replicate select]. apply IH.
Qed.

Lemma select_first_only (n : nat) (c : channel) :
  chan_len_ok (S n) c ->
  chan_len_ok 1 (select (true :: replicate n false) <$> c).
Proof.
  destruct c as [[|x l]|]; simpl; intros Hl; try discriminate; [|exact I].
  now rewrite select_none.
Qed.

(** ** The points that [gpx_write] serializes *)

Lemma take_snoc {A : Type} (l : list A) (i : nat) (x : A) :
  l !! i = Some x -> take (S i) l = take i l ++ [x].
Proof.
  revert i. induction l as [|y l IH]; intros [|i] Hx; try discriminate.
  - injection Hx as ->. reflexivity.
  - cbn [take app]. f_equal. now apply IH.
Qed.

Lemma default_zero_fmap_Some (l : list R) :
  default 0 <$> (Some <$> l) = l.
Proof.
  induction l as [|x l IH]; [reflexivity|].
  cbn [fmap list_fmap]. f_equal. exact IH.
Qed.

Lemma default_zero_fmap_None (n : nat) :
  default 0 <$> replicate n (@None R) = replicate n 0.
Proof.
  induction n as [|n IH]; [reflexivity|].
  cbn [replicate fmap list_fmap]. f_equal. exact IH.
Qed.

(** What the loop of lines 230-239 has appended after [i] iterations. *)
Lemma write_body_loop
    (fromtimestamp : R -> option tzinfo -> result datetime)
    (g : GPXData) (gpx_speed : option (list R)) (la lo : list R) :
  (forall t z, exists d, fromtimestamp t z = Ok d) ->
  lat g = Some la -> lon g = Some lo -> length lo = length la ->
  chan_len_ok (length la) (ele g) -> chan_len_ok (length la) (tstamp g) ->
  match gpx_speed with
  | Some sl => length sl = length la
  | None => True
  end ->
  let els := if truthy (ele g) then Some <$> default [] (ele g)
             else replicate (length la) None in
  let sps := match gpx_speed with
             | Some sl => Some <$> sl
             | None => replicate (length la) None
             end in
  exists points,
    for_range (length la) (write_body fromtimestamp g gpx_speed) []
    = Ok points
    /\ latitude <$> points = la /\ longitude <$> points = lo
    /\ elevation <$> points = els /\ point_speed <$> points = sps.
Proof.
  intros Htotal Hla Hlo Hlen Hele Hts Hsl els sps.
  assert (Helen : length els = length la).
  { unfold els. destruct (ele g) as [[|e0 el]|]; cbn [truthy default];
      rewrite ?length_replicate, ?length_fmap; auto. }
  assert (Hslen : length sps = length la).
  { unfold sps. destruct gpx_speed;
      rewrite ?length_replicate, ?length_fmap; auto. }
  destruct (for_range_from_inv
              (fun i pts => latitude <$> pts = take i la
                            /\ longitude <$> pts = take i lo
                            /\ elevation <$> pts = take i els
                            /\ point_speed <$> pts = take i sps)
              (write_body fromtimestamp g gpx_speed) (length la) 0 [])
    as (points & Hpoints & H1 & H2 & H3 & H4).
  - repeat split; reflexivity.
  - intros i pts Hi (I1 & I2 & I3 & I4). unfold write_body.
    rewrite Hla, Hlo.
    destruct (py_get_lt la i) as (x & -> & Hx); [lia|].
    destruct (py_get_lt lo i) as (y & -> & Hy); [lia|]. cbn [bind].
    assert (He : exists el,
              (if truthy (ele g)
               then let! e := py_get (ele g) i in Ok (Some e)
               else Ok None) = Ok el
              /\ els !! i = Some el).
    { unfold els. destruct (ele g) as [[|e0 el]|] eqn:Heq;
        cbn [truthy default].
      - exists None. split; [reflexivity|apply lookup_replicate_2; lia].
      - cbn [chan_len_ok] in Hele.
        destruct (py_get_lt (e0 :: el) i) as (v & -> & Hv); [lia|].
        exists (Some v). split; [reflexivity|].
        change (Datatypes.id (e0 :: el)) with (e0 :: el).
        rewrite list_lookup_fmap, Hv. reflexivity.
      - exists None. split; [reflexivity|apply lookup_replicate_2; lia]. }
    destruct He as (el & -> & Hel). cbn [bind].
    assert (Htm : exists tm,
              (if truthy (tstamp g)
               then let! t := py_get (tstamp g) i in
                    let! d := fromtimestamp t (tz g) in Ok (Some d)
               else Ok None) = Ok tm).
    { destruct (tstamp g) as [[|t0 tl]|] eqn:Heq; cbn [truthy]; eauto.
      cbn [chan_len_ok] in Hts.
      destruct (py_get_lt (t0 :: tl) i) as (v & -> & _); [lia|]. cbn [bind].
      destruct (Htotal v (tz g)) as (d & ->). cbn [bind]. eauto. }
    destruct Htm as (tm & ->). cbn [bind].
    assert (Hsp : exists sp,
              match gpx_speed with
              | Some sl => let! v := py_get (Some sl) i in Ok (Some v)
              | None => Ok None
              end = Ok sp
              /\ sps !! i = Some sp).
    { unfold sps. destruct gpx_speed as [sl|].
      - destruct (py_get_lt sl i) as (v & -> & Hv); [lia|].
        exists (Some v). split; [reflexivity|].
        rewrite list_lookup_fmap, Hv. reflexivity.
      - exists None. split; [reflexivity|apply lookup_replicate_2; lia]. }
    destruct Hsp as (sp & -> & Hsp). cbn [bind].
    eexists. split; [reflexivity|].
    rewrite !fmap_app. cbn [fmap list_fmap latitude longitude elevation
                            point_speed].
    rewrite (take_snoc la i x Hx), (take_snoc lo i y Hy),
            (take_snoc els i el Hel), (take_snoc sps i sp Hsp).
    rewrite I1, I2, I3, I4. repeat split; reflexivity.
  - exists points. split; [exact Hpoints|].
    cbn [Nat.add] in H1, H2, H3, H4.
    rewrite H1, H2, H3, H4.
    rewrite !take_ge by lia. repeat split; reflexivity.
Qed.

(** The points that [gpx_write] hands to the serializer, and the file it
    writes. *)
Lemma gpx_write_serializes
    (fromtimestamp : R -> option tzinfo -> result datetime)
    (to_xml : list GPXTrackPoint -> string -> string)
    (writable : string -> bool)
    (fs : filesystem) (gpx_file : string) (g : GPXData) (gpx_dist : list R)
    (write_speed : bool) (la lo : list R) :
  (forall t z, exists d, fromtimestamp t z = Ok d) ->
  lat g = Some la -> lon g = Some lo -> length lo = length la ->
  chan_len_ok (length la) (ele g) -> chan_len_ok (length la) (tstamp g) ->
  (write_speed = true -> truthy (tstamp g) = true) ->
  exists points,
    gpx_write fromtimestamp to_xml writable fs gpx_file g gpx_dist write_speed
    = (if writable gpx_file
       then (<[gpx_file := to_xml points
                             (if write_speed then "1.0" else "1.1")]> fs,
             Ok tt)
       else (fs, Raise (SystemExit
                          (String.append "ERROR Failed to save " gpx_file))))
    /\ latitude <$> points = la /\ longitude <$> points = lo
    /\ elevation <$> points
       = (if truthy (ele g) then Some <$> default [] (ele g)
          else replicate (length la) None)
    /\ (if write_speed
        then exists s, gpx_calculate_speed g = Ok s
                       /\ point_speed <$> points = Some <$> s
        else point_speed <$> points = replicate (length la) None).
Proof.
  intros Htotal Hla Hlo Hlen Hele Hts Hspeed. unfold gpx_write.
  assert (Hsp : exists gpx_speed,
            (if write_speed then
               if negb (truthy (tstamp g)) then
                 Raise (ValueError "tstamp data is missing from gpx_data")
               else let! s := gpx_calculate_speed g in Ok (Some s)
             else Ok None) = Ok gpx_speed
            /\ match gpx_speed with
               | Some sl => length sl = length la
                            /\ gpx_calculate_speed g = Ok sl
                            /\ write_speed = true
               | None => write_speed = false
               end).
  { destruct write_speed; [|exists None; auto].
    rewrite (Hspeed eq_refl). cbn [negb].
    destruct (truthy_Some _ (Hspeed eq_refl)) as (t0 & ts & Hts').
    rewrite Hts' in Hts. cbn [chan_len_ok] in Hts.
    destruct (gpx_calculate_speed_char g la lo t0 ts Hla Hlo Hlen Hele Hts' Hts)
      as (d & q & _ & _ & _ & Hs & Hq & _).
    rewrite Hs. cbn [bind]. eexists. split; [reflexivity|].
    cbn beta iota. rewrite length_fmap. auto. }
  destruct Hsp as (gpx_speed & -> & Hsl). cbn [bind].
  rewrite Hla. cbn [py_len bind].
  destruct (write_body_loop fromtimestamp g gpx_speed la lo Htotal Hla Hlo
              Hlen Hele Hts) as (points & -> & P1 & P2 & P3 & P4).
  { destruct gpx_speed; [tauto|exact I]. }
  exists points. split; [reflexivity|].
  split; [exact P1|]. split; [exact P2|]. split; [exact P3|].
  destruct gpx_speed as [sl|].
  - destruct Hsl as (_ & Hs & ->). eauto.
  - rewrite Hsl. exact P4.
Qed.

(** X11. On a track with channels of one length (with timestamps if the
    speed is to be written, and a conversion of timestamps that returns),
    [gpx_write] builds one point per index of the track, with the latitude
    and longitude of that index, its elevation if the track has elevations
    and none otherwise, and its speed exactly when [write_speed] is set;
    it writes their serialization to [gpx_file] in version 1.0 with speed
    and 1.1 without, or exits with an error message if the file cannot be
    written, leaving the file system as it was.  Read back by [gpx_read],
    the points give the latitudes and longitudes of the track, and its
    elevations, or 0.0 for every point if the track had none. *)
Theorem gpx_write_points
    (fromtimestamp : R -> option tzinfo -> result datetime)
    (to_xml : list GPXTrackPoint -> string -> string)
    (writable : string -> bool)
    (fs : filesystem) (gpx_file : string) (g : GPXData) (gpx_dist : list R)
    (write_speed : bool) (la lo : list R) :
  (forall t z, exists d, fromtimestamp t z = Ok d) ->
  lat g = Some la -> lon g = Some lo -> length lo = length la ->
  chan_len_ok (length la) (ele g) -> chan_len_ok (length la) (tstamp g) ->
  (write_speed = true -> truthy (tstamp g) = true) ->
  exists points,
    gpx_write fromtimestamp to_xml writable fs gpx_file g gpx_dist write_speed
    = (if writable gpx_file
       then (<[gpx_file := to_xml points
                             (if write_speed then "1.0" else "1.1")]> fs,
             Ok tt)
       else (fs, Raise (SystemExit
                          (String.append "ERROR Failed to save " gpx_file))))
    /\ latitude <$> points = la /\ longitude <$> points = lo
    /\ elevation <$> points
       = (if truthy (ele g) then Some <$> default [] (ele g)
          else replicate (length la) None)
    /\ (if write_speed
        then exists s, gpx_calculate_speed g = Ok s
                       /\ point_speed <$> points = Some <$> s
        else point_speed <$> points = replicate (length la) None)
    /\ lat (gpx_read points) = Some la /\ lon (gpx_read points) = Some lo
    /\ ele (gpx_read points)
       = Some (if truthy (ele g) then default [] (ele g)
               else replicate (length la) 0).
Proof.
  intros Htotal Hla Hlo Hlen Hele Hts Hspeed.
  destruct (gpx_write_serializes fromtimestamp to_xml writable fs gpx_file g
              gpx_dist write_speed la lo Htotal Hla Hlo Hlen Hele Hts Hspeed)
    as (points & Hw & P1 & P2 & P3 & P4).
  exists points. repeat (split; [assumption|]).
  destruct (gpx_read_channels points) as (tzv & ->). cbn [lat lon ele].
  rewrite P1, P2. split; [reflexivity|]. split; [reflexivity|].
  f_equal. rewrite (list_fmap_compose elevation (default 0)), P3.
  destruct (truthy (ele g)).
  - apply default_zero_fmap_Some.
  - apply default_zero_fmap_None.
Qed.

Lemma gpx_write_points_witness :
  exists points,
    gpx_write (fun t z => Ok (mkDatetime t z)) (fun _ version => version)
              (fun _ => true) ∅ "out.gpx"%string
              (mkGPXData (Some [1; 2]) (Some [3; 4]) None None None) [0; 0]
              false
    = (<[("out.gpx"%string) := "1.1"%string]> ∅, Ok tt)
    /\ latitude <$> points = [1; 2]
    /\ ele (gpx_read points) = Some [0; 0].
Proof.
  destruct (gpx_write_points (fun t z => Ok (mkDatetime t z))
              (fun _ version => version) (fun _ => true) ∅ "out.gpx"%string
              (mkGPXData (Some [1; 2]) (Some [3; 4]) None None None) [0; 0]
              false [1; 2] [3; 4])
    as (points & Hw & Hlat & _ & _ & _ & _ & _ & Hele);
    [eauto|reflexivity|reflexivity|reflexivity|exact I|exact I|discriminate|].
  exists points. split; [exact Hw|]. split; [exact Hlat|exact Hele].
Defined.

(** ** The timestamps that [main] synthesizes, in closed form *)

Section BeginShift.

Variable parse_begintime : string -> result R.
Variable o : GPXObj.
Variable lt : loc.
Variable n : nat.
Variable h0 : store.
Hypothesis o_tstamp_lt : o_tstamp o = Some lt.
Hypothesis lat_len :
  forall ts, length ts = n ->
             py_len (load_chan (<[lt := ts]> h0) (o_lat o)) = Ok n.

(** The loop of lines 286-287 adds [deltatime] to every timestamp. *)
Lemma shift_loop_values (deltatime : R) (ts : list R) :
  length ts = n ->
  for_range n (shift_body o deltatime) (<[lt := ts]> h0)
  = Ok (<[lt := (fun t => t + deltatime) <$> ts]> h0).
Proof.
  intros Hlen. unfold for_range.
  destruct (for_range_from_inv
              (fun (k : nat) h =>
                 exists ts1, h = <[lt := ts1]> h0 /\ length ts1 = n
                   /\ forall i, ts1 !! i
                        = if decide (i < k)%nat
                          then (fun t => t + deltatime) <$> (ts !! i)
                          else ts !! i)
              (shift_body o deltatime) n 0 (<[lt := ts]> h0))
    as (h & Hh & ts1 & -> & Hl1 & Hval).
  - exists ts. split; [reflexivity|]. split; [exact Hlen|]. intros i.
    destruct (decide (i < 0)%nat); [lia|reflexivity].
  - intros k a Hk (ts1 & -> & Hl1 & Hval).
    destruct (lookup_lt_is_Some_2 ts k) as [x Hx]; [lia|].
    assert (Hx1 : ts1 !! k = Some x).
    { rewrite Hval. destruct (decide (k < k)%nat); [lia|exact Hx]. }
    unfold shift_body.
    rewrite (getitem_tstamp o lt h0 o_tstamp_lt ts1 k x Hx1). cbn [bind].
    rewrite (setitem_tstamp o lt h0 o_tstamp_lt) by lia.
    eexists. split; [reflexivity|].
    eexists. split; [reflexivity|]. split; [now rewrite length_insert|].
    intros i. destruct (decide (i = k)) as [->|Hne].
    + rewrite list_lookup_insert_eq by lia.
      destruct (decide (k < S k)%nat); [|lia]. now rewrite Hx.
    + rewrite list_lookup_insert_ne by lia. rewrite Hval.
      destruct (decide (i < k)%nat), (decide (i < S k)%nat);
        try lia; reflexivity.
  - rewrite Hh. do 2 f_equal. apply list_eq. intros i.
    rewrite Hval, list_lookup_fmap. cbn [Nat.add].
    destruct (decide (i < n)%nat) as [_|Hge]; [reflexivity|].
    rewrite (lookup_ge_None_2 ts i) by lia. reflexivity.
Qed.

(** Lines 281-287: with a begin time, every timestamp is shifted by the
    difference of the begin time and the first timestamp. *)
Lemma begin_shift_values (args : Args) (t0 : R) (ts : list R) :
  length (t0 :: ts) = n ->
  exists ts',
    (match begintime args with
     | Some (String _ _ as b) =>
         forall tb, parse_begintime b = Ok tb ->
           begin_shift parse_begintime args o (<[lt := t0 :: ts]> h0)
           = Ok (<[lt := ts']> h0)
           /\ ts' = (fun t => t + (tb - t0)) <$> (t0 :: ts)
     | _ => begin_shift parse_begintime args o (<[lt := t0 :: ts]> h0)
            = Ok (<[lt := ts']> h0)
            /\ ts' = t0 :: ts
     end).
Proof.
  intros Hlen. unfold begin_shift.
  destruct (begintime args) as [[|c b]|] eqn:Hb; [eauto| |eauto].
  destruct (parse_begintime (String c b)) as [tb|e] eqn:Hp.
  - exists ((fun t => t + (tb - t0)) <$> (t0 :: ts)).
    intros tb' [= <-]. split; [|reflexivity]. cbn [bind].
    rewrite (getitem_tstamp o lt h0 o_tstamp_lt (t0 :: ts) 0 t0 eq_refl).
    cbn [bind]. rewrite (lat_len _ Hlen). cbn [bind].
    apply shift_loop_values. exact Hlen.
  - exists []. intros tb [=].
Qed.

End BeginShift.

Lemma retimed_closed_interval (ts : list R) (first dt : R) :
  head ts = Some first ->
  (forall i a b, ts !! i = Some a -> ts !! S i = Some b -> b = a + dt) ->
  forall i t, ts !! i = Some t -> t = first + INR i * dt.
Proof.
  intros Hhead Hrec i. induction i as [|i IH]; intros t Ht.
  - rewrite head_lookup in Hhead. cbn [INR]. assert (t = first) by congruence.
    lra.
  - destruct (lookup_lt_is_Some_2 ts i) as [a Ha].
    { apply lookup_lt_Some in Ht. lia. }
    rewrite (Hrec i a t Ha Ht), (IH a Ha), S_INR. lra.
Qed.

Lemma retimed_closed_velocity (ts gpx_dist : list R) (first v : R) :
  head ts = Some first -> gpx_dist !! 0%nat = Some 0 -> v <> 0 ->
  (forall i a b, ts !! i = Some a -> ts !! S i = Some b ->
                 b = a + default 0 (gpx_dist !! S i) / v) ->
  forall i t c, ts !! i = Some t -> np_cumsum gpx_dist !! i = Some c ->
                t = first + c / v.
Proof.
  intros Hhead Hd0 Hv Hrec i. induction i as [|i IH]; intros t c Ht Hc.
  - rewrite head_lookup in Hhead. assert (t = first) by congruence.
    destruct (cumsum_from_head 0 gpx_dist c Hc) as (x & Hx & ->).
    assert (x = 0) by congruence. subst. field. exact Hv.
  - destruct (lookup_lt_is_Some_2 ts i) as [a Ha].
    { apply lookup_lt_Some in Ht. lia. }
    destruct (lookup_lt_is_Some_2 (np_cumsum gpx_dist) i) as [c0 Hc0].
    { apply lookup_lt_Some in Hc. lia. }
    destruct (cumsum_from_succ 0 gpx_dist i c0 c Hc0 Hc) as (x & Hx & ->).
    rewrite (Hrec i a t Ha Ht), (IH a c0 Ha Hc0), Hx.
    change (default 0 (Some x)) with x. field. exact Hv.
Qed.

(** The first timestamp after the three adjustments: the begin time if one
    is given, the first timestamp of the input otherwise. *)
Lemma time_synthesis_head
    (parse_begintime : string -> result R) (args : Args) (h h' : store)
    (o : GPXObj) (la : list R) (t0 : R) (ts gpx_dist : list R) :
  lat (load h o) = Some la ->
  tstamp (load h o) = Some (t0 :: ts) -> length (t0 :: ts) = length la ->
  length gpx_dist = length la ->
  time_synthesis parse_begintime args o gpx_dist h = Ok h' ->
  exists ts',
    tstamp (load h' o) = Some ts'
    /\ match begintime args with
       | Some (String _ _ as b) =>
           forall tb, parse_begintime b = Ok tb -> head ts' = Some tb
       | _ => head ts' = Some t0
       end.
Proof.
  intros Hla Hts Htlen Hdlen.
  cbn [load tstamp lat] in Hts, Hla.
  apply load_chan_Some in Hts as (lt & Hot & Hlt).
  apply load_chan_Some in Hla as (ll & Hol & Hll).
  set (n := length la) in *.
  assert (Hlatlen : forall ts1, length ts1 = n ->
            py_len (load_chan (<[lt := ts1]> h) (o_lat o)) = Ok n).
  { intros ts1 Hl1. rewrite Hol. cbn [load_chan].
    destruct (decide (lt = ll)) as [->|Hne].
    - rewrite lookup_insert_eq. simpl. now rewrite Hl1.
    - rewrite lookup_insert_ne by exact Hne. rewrite Hll. reflexivity. }
  assert (Hload : forall ts3, tstamp (load (<[lt := ts3]> h) o) = Some ts3).
  { intros ts3. cbn [load tstamp]. rewrite Hot. apply lookup_insert_eq. }
  assert (Hretime : forall ts1, length ts1 = n ->
            exists ts3,
              bind (velocity_retiming args o gpx_dist (<[lt := ts1]> h))
                   (fun h2 => interval_retiming args o h2)
              = Ok (<[lt := ts3]> h)
              /\ head ts3 = head ts1).
  { intros ts1 Hl1.
    assert (Hvel : exists ts2,
              velocity_retiming args o gpx_dist (<[lt := ts1]> h)
              = Ok (<[lt := ts2]> h)
              /\ length ts2 = n /\ head ts2 = head ts1).
    { unfold velocity_retiming.
      destruct (Rlt_dec 0 (velocity args)) as [Hv|Hv]; [|eauto].
      rewrite (Hlatlen ts1 Hl1). cbn [bind].
      destruct (retime_loop o lt n h Hot
                  (py_get (Some ((fun x => x / velocity args) <$> gpx_dist)))
                  (fun j => default 0 (gpx_dist !! j) / velocity args)
                  ts1 Hl1) as (ts2 & -> & Hl2 & Hh2 & _).
      - intros j Hj.
        destruct (lookup_lt_is_Some_2 gpx_dist j) as [x Hx]; [lia|].
        simpl. rewrite list_lookup_fmap, Hx. reflexivity.
      - exists ts2. rewrite !head_lookup. auto. }
    destruct Hvel as (ts2 & -> & Hl2 & Hh2). cbn [bind].
    unfold interval_retiming.
    destruct (intervaltime args) as [dt|]; [|eauto].
    destruct (Rlt_dec 0 dt) as [Hdt|Hdt]; [|eauto].
    rewrite (Hlatlen ts2 Hl2). cbn [bind].
    destruct (retime_loop o lt n h Hot (fun _ => Ok dt) (fun _ => dt)
                ts2 Hl2) as (ts3 & -> & _ & Hh3 & _); [reflexivity|].
    exists ts3. split; [reflexivity|].
    rewrite <- Hh2, !head_lookup. exact Hh3. }
  enough (Hgoal : forall hs, hs = <[lt := t0 :: ts]> h ->
            time_synthesis parse_begintime args o gpx_dist hs = Ok h' ->
            exists ts',
              tstamp (load h' o) = Some ts'
              /\ match begintime args with
                 | Some (String _ _ as b) =>
                     forall tb, parse_begintime b = Ok tb -> head ts' = Some tb
                 | _ => head ts' = Some t0
                 end).
  { apply Hgoal. symmetry. apply insert_id. exact Hlt. }
  intros hs -> Hsyn. unfold time_synthesis in Hsyn.
  destruct (begin_shift_values parse_begintime o lt n h Hot Hlatlen args
              t0 ts Htlen) as (ts1 & Hbs).
  destruct (begintime args) as [[|c b]|] eqn:Hb.
  - destruct Hbs as (Hbs & ->). rewrite Hbs in Hsyn. cbn [bind] in Hsyn.
    destruct (Hretime (t0 :: ts) Htlen) as (ts3 & Hr & Hh3).
    rewrite Hr in Hsyn. injection Hsyn as <-.
    exists ts3. split; [apply Hload|exact Hh3].
  - destruct (parse_begintime (String c b)) as [tb|e] eqn:Hp.
    + destruct (Hbs tb eq_refl) as (Hbs' & ->).
      rewrite Hbs' in Hsyn. cbn [bind] in Hsyn.
      destruct (Hretime ((fun t => t + (tb - t0)) <$> (t0 :: ts)))
        as (ts3 & Hr & Hh3); [now rewrite length_fmap|].
      rewrite Hr in Hsyn. injection Hsyn as <-.
      exists ts3. split; [apply Hload|].
      intros tb' [= <-]. rewrite Hh3. cbn [fmap list_fmap head].
      f_equal. lra.
    + unfold begin_shift in Hsyn. rewrite Hb, Hp in Hsyn. discriminate.
  - destruct Hbs as (Hbs & ->). rewrite Hbs in Hsyn. cbn [bind] in Hsyn.
    destruct (Hretime (t0 :: ts) Htlen) as (ts3 & Hr & Hh3).
    rewrite Hr in Hsyn. injection Hsyn as <-.
    exists ts3. split; [apply Hload|exact Hh3].
Qed.

(** X12. The timestamps that the adjustments of lines 281-298 leave in
    [gpx_data], on a track with timestamps and channels of one length, in
    exact arithmetic.  The first timestamp is the begin time if one is given
    (and parses), and the first timestamp of the input otherwise.  If the
    interval is positive, timestamp [i] is the first plus [i] intervals;
    otherwise, if the velocity is positive, timestamp [i] is the first plus
    the cumulative distance up to point [i] over the velocity. *)
Theorem time_synthesis_closed_form
    (parse_begintime : string -> result R) (args : Args) (h : store)
    (o : GPXObj) (la lo : list R) (t0 : R) (ts gpx_dist : list R) :
  lat (load h o) = Some la -> lon (load h o) = Some lo ->
  length lo = length la -> chan_len_ok (length la) (ele (load h o)) ->
  tstamp (load h o) = Some (t0 :: ts) -> length (t0 :: ts) = length la ->
  gpx_calculate_distance (load h o) true = Ok gpx_dist ->
  (forall b, begintime args = Some b -> b <> EmptyString ->
             exists t, parse_begintime b = Ok t) ->
  exists h' ts' first,
    time_synthesis parse_begintime args o gpx_dist h = Ok h'
    /\ tstamp (load h' o) = Some ts'
    /\ length ts' = length la
    /\ head ts' = Some first
    /\ (forall b, begintime args = Some b -> b <> EmptyString ->
                  parse_begintime b = Ok first)
    /\ (begintime args = None \/ begintime args = Some EmptyString ->
        first = t0)
    /\ (forall dt, intervaltime args = Some dt -> 0 < dt ->
          forall i t, ts' !! i = Some t -> t = first + INR i * dt)
    /\ (0 < velocity args ->
        (forall dt, intervaltime args = Some dt -> ~ 0 < dt) ->
        forall i t c, ts' !! i = Some t ->
                      np_cumsum gpx_dist !! i = Some c ->
                      t = first + c / velocity args).
Proof.
  intros Hla Hlo Hlen Hele Hts Htlen Hdist Hparse.
  destruct (gpx_calculate_distance_inv _ true la lo Hla Hlo Hlen Hele)
    as (d & Hd & Hdlen & Hd0 & _).
  assert (d = gpx_dist) as -> by congruence.
  destruct (time_synthesis_retimed parse_begintime args h o la t0 ts gpx_dist
              Hla Hts Htlen Hdlen Hparse)
    as (h' & ts' & Hsyn & Hload & Hl & Hrec).
  destruct (time_synthesis_head parse_begintime args h h' o la t0 ts gpx_dist
              Hla Hts Htlen Hdlen Hsyn) as (ts'' & Hload' & Hhead).
  assert (ts'' = ts') as -> by congruence.
  assert (Hfirst : exists first, head ts' = Some first).
  { destruct ts' as [|x ts']; [simpl in Hl, Htlen; lia|]. simpl. eauto. }
  destruct Hfirst as (first & Hfirst).
  exists h', ts', first. repeat (split; [assumption|]).
  split; [|split; [|split]].
  - intros b Hb Hne. rewrite Hb in Hhead.
    destruct b as [|c b]; [contradiction|].
    destruct (Hparse _ Hb Hne) as (tb & Htb).
    rewrite Htb. f_equal. specialize (Hhead tb Htb). congruence.
  - intros [Hb|Hb]; rewrite Hb in Hhead; congruence.
  - intros dt Hint Hdt.
    apply retimed_closed_interval; [exact Hfirst|].
    intros i a b Ha Hb.
    rewrite (Hrec (or_intror (ex_intro _ dt (conj Hint Hdt))) i a b Ha Hb).
    unfold retimed_step. rewrite Hint.
    destruct (Rlt_dec 0 dt); [reflexivity|contradiction].
  - intros Hv Hint.
    apply retimed_closed_velocity; [exact Hfirst| |lra|].
    + apply Hd0; [simpl in Htlen; lia|now left].
    + intros i a b Ha Hb. rewrite (Hrec (or_introl Hv) i a b Ha Hb).
      unfold retimed_step.
      destruct (intervaltime args) as [dt|] eqn:Hi; [|reflexivity].
      destruct (Rlt_dec 0 dt) as [Hdt|_]; [|reflexivity].
      destruct (Hint dt eq_refl Hdt).
Qed.

Lemma time_synthesis_closed_form_witness :
  let h : store := <[2%nat := [5; 3]]> (<[1%nat := [0; 1]]> (<[0%nat := [0; 0]]> ∅)) in
  let o := mkGPXObj (Some 0%nat) (Some 1%nat) None (Some 2%nat) (Some UTC) in
  let args := mkArgs 1 None (Some 4) 2 false (Some "20200101-000000Z"%string) in
  exists gpx_dist h' ts',
    gpx_calculate_distance (load h o) true = Ok gpx_dist
    /\ time_synthesis (fun _ => Ok 100) args o gpx_dist h = Ok h'
    /\ tstamp (load h' o) = Some ts'
    /\ head ts' = Some 100
    /\ forall t, ts' !! 1%nat = Some t -> t = 100 + INR 1 * 4.
Proof.
  intros h o args.
  destruct (gpx_calculate_distance_inv (load h o) true [0; 0] [0; 1]
              eq_refl eq_refl eq_refl I) as (d & Hd & _).
  destruct (time_synthesis_closed_form (fun _ => Ok 100) args h o
              [0; 0] [0; 1] 5 [3] d
              eq_refl eq_refl eq_refl I eq_refl eq_refl Hd)
    as (h' & ts' & first & Hsyn & Hload & _ & Hhead & Hbegin & _ & Hint & _).
  - intros b _ _. eauto.
  - assert (Hf : first = 100).
    { specialize (Hbegin _ eq_refl ltac:(discriminate)). congruence. }
    subst first.
    exists d, h', ts'. repeat (split; [assumption|]).
    intros t Ht. apply (Hint 4 eq_refl ltac:(lra) 1%nat t Ht).
Defined.

(** ** [main]: the files it reads and writes *)

Lemma string_length_append (a b : string) :
  String.length (String.append a b) = (String.length a + String.length b)%nat.
Proof. induction a as [|c a IH]; [reflexivity|]. simpl. now rewrite IH. Qed.

Lemma substring_all (b : string) : substring 0 (String.length b) b = b.
Proof. induction b as [|c b IH]; [reflexivity|]. simpl. now rewrite IH. Qed.

Lemma substring_append_suffix (a b : string) :
  substring (String.length a) (String.length b) (String.append a b) = b.
Proof. induction a as [|c a IH]; [apply substring_all|]. simpl. exact IH. Qed.

Lemma endswith_append (a b : string) : endswith (String.append a b) b = true.
Proof.
  unfold endswith. rewrite string_length_append.
  apply andb_true_intro. split.
  - apply Nat.leb_le. lia.
  - replace (String.length a + String.length b - String.length b)%nat
      with (String.length a) by lia.
    rewrite substring_append_suffix. apply String.eqb_refl.
Qed.

(** The name of an output file ends in [_interpolated.gpx]. *)
Lemma endswith_output_name (gpx_file : string) :
  endswith (output_name gpx_file) "_interpolated.gpx" = true.
Proof. apply endswith_append. Qed.

(** [gpx_write] changes at most the file it is given, and nothing when it
    raises; when it returns, the file exists and the track has latitudes. *)
Lemma gpx_write_effect
    (fromtimestamp : R -> option tzinfo -> result datetime)
    (to_xml : list GPXTrackPoint -> string -> string)
    (writable : string -> bool)
    (fs fs' : filesystem) (gpx_file : string) (g : GPXData)
    (gpx_dist : list R) (write_speed : bool) (r : result unit) :
  gpx_write fromtimestamp to_xml writable fs gpx_file g gpx_dist write_speed
  = (fs', r) ->
  (forall path, path <> gpx_file -> fs' !! path = fs !! path)
  /\ (forall e, r = Raise e -> fs' = fs)
  /\ (forall u, r = Ok u -> is_Some (fs' !! gpx_file) /\ is_Some (lat g)).
Proof.
  unfold gpx_write.
  match goal with
  | |- context [match ?bw with Ok _ => _ | Raise _ => _ end] =>
      destruct bw as [points|e] eqn:Hbw
  end.
  - destruct (writable gpx_file); intros [= <- <-].
    + split; [|split].
      * intros path Hne. now rewrite lookup_insert_ne.
      * discriminate.
      * intros u _. split; [rewrite lookup_insert_eq; eauto|].
        apply bind_Ok in Hbw as (sp & _ & Hbw).
        apply bind_Ok in Hbw as (n & Hn & _).
        destruct (lat g); [eauto|discriminate].
    + split; [auto|]. split; [auto|discriminate].
  - intros [= <- <-]. split; [auto|]. split; [auto|discriminate].
Qed.

Section MainFiles.

Variable pchip_interpolate :
  list R -> list (list R) -> list R -> result (list (list R)).
Variable fromtimestamp : R -> option tzinfo -> result datetime.
Variable to_xml : list GPXTrackPoint -> string -> string.
Variable writable : string -> bool.
Variable parse_begintime : string -> result R.
Variable utcfromtimestamp : R -> result string.

(** The work of [main] on one file changes at most the output file of that
    file, and nothing when it raises. *)
Lemma process_file_effect (args : Args) (fs fs' : filesystem)
    (gpx_file : string) (points : list GPXTrackPoint)
    (r : result (Summary * GPXData)) :
  process_file pchip_interpolate fromtimestamp to_xml writable
               parse_begintime utcfromtimestamp args fs gpx_file points
  = (fs', r) ->
  (forall path, path <> output_name gpx_file -> fs' !! path = fs !! path)
  /\ (forall e, r = Raise e -> fs' = fs)
  /\ (forall sw, r = Ok sw -> is_Some (fs' !! output_name gpx_file)).
Proof.
  unfold process_file.
  destruct (alloc_data ∅ (gpx_read points)) as [h0 gd].
  match goal with
  | |- context [match ?bw with Ok _ => _ | Raise _ => _ end] =>
      destruct bw as [[[summary written] gpx_dist]|e]
  end.
  - fold (output_name gpx_file).
    destruct (gpx_write fromtimestamp to_xml writable fs
                (output_name gpx_file) written gpx_dist (speed args))
      as [fs1 r1] eqn:Hw.
    apply gpx_write_effect in Hw as (Hframe & Hraise & Hok).
    intros [= <- <-]. split; [exact Hframe|]. split.
    + intros e He. destruct r1 as [u|e1]; [|now apply (Hraise e1)].
      cbn [bind] in He. destruct (Hok u eq_refl) as (_ & [l Hl]).
      rewrite Hl in He. discriminate.
    + intros sw Hsw. destruct r1 as [u|e1]; [|discriminate].
      apply (Hok u eq_refl).
  - intros [= <- <-]. split; [auto|]. split; [auto|discriminate].
Qed.

End MainFiles.

(** X13. [main] creates or changes no file whose name does not end in
    [_interpolated.gpx], whatever the files, their contents and the
    arguments are and whether it returns or raises; the files it reads
    (those whose names do not end in [_interpolated.gpx]) are therefore
    never overwritten. *)
Theorem main_frame
    (pchip_interpolate :
       list R -> list (list R) -> list R -> result (list (list R)))
    (fromtimestamp : R -> option tzinfo -> result datetime)
    (to_xml : list GPXTrackPoint -> string -> string)
    (writable : string -> bool)
    (parse_begintime : string -> result R)
    (utcfromtimestamp : R -> result string)
    (args : Args) (fs : filesystem)
    (files : list (string * list GPXTrackPoint)) (path : string) :
  endswith path "_interpolated.gpx" = false ->
  (main pchip_interpolate fromtimestamp to_xml writable parse_begintime
        utcfromtimestamp args fs files).1 !! path
  = fs !! path.
Proof.
  intros Hpath. revert fs.
  induction files as [|[gpx_file points] files IH]; intros fs; [reflexivity|].
  cbn [main].
  destruct (endswith gpx_file "_interpolated.gpx"); cbn [negb]; [apply IH|].
  destruct (process_file _ _ _ _ _ _ args fs gpx_file points)
    as [fs1 r] eqn:Hpf.
  apply process_file_effect in Hpf as (Hframe & _).
  assert (Hne : path <> output_name gpx_file).
  { intros ->. rewrite endswith_output_name in Hpath. discriminate. }
  destruct r as [sw|e]; [rewrite IH|cbn [fst]]; now apply Hframe.
Qed.

Lemma main_frame_witness :
  (main pchip_model (fun t z => Ok (mkDatetime t z))
        (fun _ version => version) (fun _ => true) (fun _ => Ok 0)
        (fun _ => Ok "1970-01-01T00:00:00"%string)
        (mkArgs 1 (Some 3%Z) None 1 false None)
        (<[("a.gpx"%string) := "input"%string]> ∅)
        [("a.gpx"%string,
          [mkPoint 0 0 None None None; mkPoint 0 180 None None None])]).1
    !! "a.gpx"%string
  = Some "input"%string.
Proof.
  rewrite (main_frame pchip_model (fun t z => Ok (mkDatetime t z))
             (fun _ version => version) (fun _ => true) (fun _ => Ok 0)
             (fun _ => Ok "1970-01-01T00:00:00"%string)
             (mkArgs 1 (Some 3%Z) None 1 false None)
             (<[("a.gpx"%string) := "input"%string]> ∅)
             [("a.gpx"%string,
               [mkPoint 0 0 None None None; mkPoint 0 180 None None None])]
             "a.gpx"%string eq_refl).
  apply lookup_insert_eq.
Defined.

(** X14. The files that [main] writes are not read by a later run: on the
    names of its own output files (the names [output_name] builds, with any
    contents), [main] does nothing and returns. *)
Theorem main_skips_its_outputs
    (pchip_interpolate :
       list R -> list (list R) -> list R -> result (list (list R)))
    (fromtimestamp : R -> option tzinfo -> result datetime)
    (to_xml : list GPXTrackPoint -> string -> string)
    (writable : string -> bool)
    (parse_begintime : string -> result R)
    (utcfromtimestamp : R -> result string)
    (args : Args) (fs : filesystem)
    (files : list (string * list GPXTrackPoint)) :
  main pchip_interpolate fromtimestamp to_xml writable parse_begintime
       utcfromtimestamp args fs
       ((fun f => (output_name f.1, f.2)) <$> files)
  = (fs, Ok tt).
Proof.
  induction files as [|[gpx_file points] files IH]; [reflexivity|].
  cbn [fmap list_fmap main fst snd].
  rewrite endswith_output_name. cbn [negb]. exact IH.
Qed.

(** X15. A file without track points stops [main]: if the files before it
    are processed without an exception, [main] raises a [TypeError] at this
    file (at the [len] of line 274, whatever the arguments are), writes
    nothing for it, and does not process the files after it. *)
Theorem main_stops_at_file_without_points
    (pchip_interpolate :
       list R -> list (list R) -> list R -> result (list (list R)))
    (fromtimestamp : R -> option tzinfo -> result datetime)
    (to_xml : list GPXTrackPoint -> string -> string)
    (writable : string -> bool)
    (parse_begintime : string -> result R)
    (utcfromtimestamp : R -> result string)
    (args : Args) (fs fs1 : filesystem)
    (before after : list (string * list GPXTrackPoint))
    (gpx_file : string) :
  main pchip_interpolate fromtimestamp to_xml writable parse_begintime
       utcfromtimestamp args fs before = (fs1, Ok tt) ->
  endswith gpx_file "_interpolated.gpx" = false ->
  main pchip_interpolate fromtimestamp to_xml writable parse_begintime
       utcfromtimestamp args fs (before ++ (gpx_file, []) :: after)
  = (fs1, Raise TypeError).
Proof.
  intros Hbefore Hname. revert fs Hbefore.
  induction before as [|[f points] before IH]; intros fs Hbefore.
  - injection Hbefore as <-. cbn [app main]. rewrite Hname. cbn [negb].
    rewrite process_file_no_points. reflexivity.
  - cbn [app main] in Hbefore |- *.
    destruct (endswith f "_interpolated.gpx"); cbn [negb] in Hbefore |- *;
      [now apply IH|].
    destruct (process_file _ _ _ _ _ _ args fs f points) as [fs2 [sw|e]];
      [now apply IH|discriminate].
Qed.

Lemma main_stops_at_file_without_points_witness :
  main pchip_model (fun t z => Ok (mkDatetime t z))
       (fun _ version => version) (fun _ => true) (fun _ => Ok 0)
       (fun _ => Ok "1970-01-01T00:00:00"%string)
       (mkArgs 1 None None 1 false None) ∅
       ([("a_interpolated.gpx"%string, [])]
        ++ ("empty.gpx"%string, [])
        :: [("b.gpx"%string, [mkPoint 0 0 None None None])])
  = (∅, Raise TypeError).
Proof.
  apply (main_stops_at_file_without_points pchip_model
           (fun t z => Ok (mkDatetime t z)) (fun _ version => version)
           (fun _ => true) (fun _ => Ok 0)
           (fun _ => Ok "1970-01-01T00:00:00"%string)
           (mkArgs 1 None None 1 false None) ∅ ∅
           [("a_interpolated.gpx"%string, [])]
           [("b.gpx"%string, [mkPoint 0 0 None None None])]
           "empty.gpx"%string eq_refl eq_refl).
Defined.

(** ** The summary that [main] prints *)

Lemma cumsum_from_last (acc : R) (l : list R) (x : R) :
  last (cumsum_from acc l) = Some x -> x = acc + foldr Rplus 0 l.
Proof.
  revert acc. induction l as [|y l IH]; intros acc; [discriminate|].
  cbn [cumsum_from foldr]. destruct l as [|z l].
  - cbn. intros [= <-]. lra.
  - change (cumsum_from (acc + y) (z :: l))
      with ((acc + y + z) :: cumsum_from (acc + y + z) l).
    rewrite last_cons_cons.
    change ((acc + y + z) :: cumsum_from (acc + y + z) l)
      with (cumsum_from (acc + y) (z :: l)).
    intros Hx. rewrite (IH _ Hx). lra.
Qed.

Lemma gpx_interpolate_obj_sub
    (pchip : list R -> list (list R) -> list R -> result (list (list R)))
    (h h' : store) (o o' : GPXObj) (dist : R) (k : option Z) :
  gpx_interpolate_obj pchip h o dist k = Ok (h', o') -> h ⊆ h'.
Proof.
  unfold gpx_interpolate_obj. destruct (all_empty (load h o)).
  - intros [= <- <-]. reflexivity.
  - destruct (gpx_interpolate pchip (load h o) dist k) as [g|e];
      [|discriminate].
    cbn [bind]. intros [= Halloc].
    now apply alloc_data_spec in Halloc as (Hsub & _).
Qed.

(** If the adjustments return, a begin time that was given has parsed. *)
Lemma time_synthesis_parses
    (parse_begintime : string -> result R) (args : Args) (h h' : store)
    (o : GPXObj) (gpx_dist : list R) :
  time_synthesis parse_begintime args o gpx_dist h = Ok h' ->
  forall b, begintime args = Some b -> b <> EmptyString ->
            exists t, parse_begintime b = Ok t.
Proof.
  intros Hsyn b Hb Hne. unfold time_synthesis, begin_shift in Hsyn.
  rewrite Hb in Hsyn. destruct b as [|c b]; [contradiction|].
  destruct (parse_begintime (String c b)) as [t|e]; [eauto|discriminate].
Qed.

(** The steps of [main] behind the summary of a file: the distances are
    those of the track as it was read, and the times are taken from its
    timestamps after the adjustments. *)
Lemma process_file_steps
    (pchip_interpolate :
       list R -> list (list R) -> list R -> result (list (list R)))
    (fromtimestamp : R -> option tzinfo -> result datetime)
    (to_xml : list GPXTrackPoint -> string -> string)
    (writable : string -> bool)
    (parse_begintime : string -> result R)
    (utcfromtimestamp : R -> result string)
    (args : Args) (fs fs' : filesystem) (gpx_file : string)
    (points : list GPXTrackPoint) (summary : Summary) (written : GPXData) :
  process_file pchip_interpolate fromtimestamp to_xml writable
               parse_begintime utcfromtimestamp args fs gpx_file points
  = (fs', Ok (summary, written)) ->
  exists h gd gpx_dist h' t_first t_last,
    load h gd = gpx_read points
    /\ gpx_calculate_distance (gpx_read points) true = Ok gpx_dist
    /\ time_synthesis parse_begintime args gd gpx_dist h = Ok h'
    /\ py_get (tstamp (load h' gd)) 0 = Ok t_first
    /\ last_elem (default [] (tstamp (load h' gd))) = Ok t_last
    /\ accumulateddistance summary = foldr Rplus 0 gpx_dist
    /\ totaltime summary = t_last - t_first.
Proof.
  unfold process_file.
  destruct (alloc_data ∅ (gpx_read points)) as [h0 gd] eqn:Halloc.
  apply alloc_data_spec in Halloc as (_ & Hload0 & Hok0 & _).
  match goal with
  | |- context [match ?bw with Ok _ => _ | Raise _ => _ end] =>
      destruct bw as [[[summary0 written0] gpx_dist]|e] eqn:Hbw
  end; [|discriminate].
  destruct (gpx_write _ _ _ _ _ _ _ _) as [fs1 r]. intros [= _ Hr].
  destruct r as [[]|e]; [|discriminate]. cbn [bind] in Hr.
  apply bind_Ok in Hr as (n_written & _ & Hr).
  injection Hr as -> _.
  apply bind_Ok in Hbw as ([h1 nd] & Hrd & Hbw).
  apply bind_Ok in Hbw as (n1 & _ & Hbw).
  apply bind_Ok in Hbw as (n0 & _ & Hbw).
  apply bind_Ok in Hbw as ([h2 gi] & Hinterp & Hbw).
  apply bind_Ok in Hbw as (gpx_dist' & Hdist & Hbw).
  apply bind_Ok in Hbw as (h3 & Hsyn & Hbw).
  apply bind_Ok in Hbw as (t_first & Hfirst & Hbw).
  apply bind_Ok in Hbw as (start & _ & Hbw).
  apply bind_Ok in Hbw as (t_last & Hlast & Hbw).
  apply bind_Ok in Hbw as (stop & _ & Hbw).
  injection Hbw as <- _ <-.
  apply gpx_remove_duplicates_obj_Ok in Hrd as (_ & Hsub1 & _).
  apply gpx_interpolate_obj_sub in Hinterp as Hsub2.
  assert (Hload2 : load h2 gd = gpx_read points).
  { rewrite (load_weaken h0 h2); [exact Hload0| |exact Hok0].
    etransitivity; eassumption. }
  exists h2, gd, gpx_dist', h3, t_first, t_last.
  split; [exact Hload2|]. rewrite <- Hload2.
  repeat (split; [assumption|]). split; reflexivity.
Qed.

(** X17. The summary that [main] prints for a file it has processed.  The
    accumulated distance is the sum of the distances (elevation included)
    of the track as it was read, duplicates included.  If the interval is
    positive, the total time is the interval times the number of steps of
    that track; otherwise, if the velocity is positive (as by default),
    the total time times the velocity is the accumulated distance, so that
    the average speed printed is the velocity asked for. *)
Theorem process_file_summary
    (pchip_interpolate :
       list R -> list (list R) -> list R -> result (list (list R)))
    (fromtimestamp : R -> option tzinfo -> result datetime)
    (to_xml : list GPXTrackPoint -> string -> string)
    (writable : string -> bool)
    (parse_begintime : string -> result R)
    (utcfromtimestamp : R -> result string)
    (args : Args) (fs fs' : filesystem) (gpx_file : string)
    (points : list GPXTrackPoint) (summary : Summary) (written : GPXData) :
  process_file pchip_interpolate fromtimestamp to_xml writable
               parse_begintime utcfromtimestamp args fs gpx_file points
  = (fs', Ok (summary, written)) ->
  (exists gpx_dist,
     gpx_calculate_distance (gpx_read points) true = Ok gpx_dist
     /\ accumulateddistance summary = foldr Rplus 0 gpx_dist)
  /\ (forall dt, intervaltime args = Some dt -> 0 < dt ->
        totaltime summary = INR (length points - 1) * dt)
  /\ (0 < velocity args ->
      (forall dt, intervaltime args = Some dt -> ~ 0 < dt) ->
      totaltime summary * velocity args = accumulateddistance summary).
Proof.
  intros Hrun.
  destruct points as [|p0 rest].
  { rewrite process_file_no_points in Hrun. discriminate. }
  destruct (process_file_steps _ _ _ _ _ _ _ _ _ _ _ _ _ Hrun)
    as (h & gd & gpx_dist & h' & t_first & t_last & Hload & Hdist & Hsyn
        & Hfirst & Hlast & Hacc & Htot).
  destruct (gpx_read_channels (p0 :: rest)) as (tzv & Hread).
  rewrite Hread in Hload.
  assert (Hla : lat (load h gd) = Some (latitude <$> p0 :: rest))
    by (now rewrite Hload).
  assert (Hlo : lon (load h gd) = Some (longitude <$> p0 :: rest))
    by (now rewrite Hload).
  assert (Hts : tstamp (load h gd)
                = Some (default 0 (dt_timestamp <$> time p0)
                        :: ((fun p => default 0 (dt_timestamp <$> time p))
                            <$> rest)))
    by (now rewrite Hload).
  assert (Hele : chan_len_ok (length (latitude <$> p0 :: rest))
                             (ele (load h gd))).
  { rewrite Hload. cbn [ele chan_len_ok]. now rewrite !length_fmap. }
  assert (Hn : length (latitude <$> p0 :: rest) = S (length rest)).
  { cbn [fmap list_fmap length]. now rewrite length_fmap. }
  destruct (gpx_calculate_distance_inv (load h gd) true _ _ Hla Hlo)
    as (d & Hd & Hdlen & Hd0 & _);
    [now rewrite !length_fmap|exact Hele|].
  assert (d = gpx_dist) as ->.
  { rewrite Hload, <- Hread in Hd. congruence. }
  destruct (time_synthesis_retimed parse_begintime args h gd _ _ _ gpx_dist
              Hla Hts) as (h'' & ts' & Hsyn' & Hload' & Hl & Hrec).
  { cbn [length fmap list_fmap]. now rewrite !length_fmap. }
  { exact Hdlen. }
  { exact (time_synthesis_parses _ _ _ _ _ _ Hsyn). }
  assert (h'' = h') as -> by congruence.
  rewrite Hload' in Hfirst, Hlast.
  change (default [] (Some ts')) with ts' in Hlast.
  assert (Hhead : head ts' = Some t_first).
  { rewrite head_lookup. apply py_get_Ok in Hfirst as (l & [= <-] & Hl0).
    exact Hl0. }
  assert (Hlast' : ts' !! length rest = Some t_last).
  { unfold last_elem in Hlast. destruct (last ts') as [x|] eqn:Hx;
      [|discriminate].
    injection Hlast as ->. rewrite last_lookup in Hx.
    rewrite Hl, Hn in Hx. exact Hx. }
  split; [eauto|]. split.
  - intros dt Hint Hdt.
    assert (Hclosed : t_last = t_first + INR (length rest) * dt).
    { apply (retimed_closed_interval ts' t_first dt Hhead); [|exact Hlast'].
      intros i a b Ha Hb.
      rewrite (Hrec (or_intror (ex_intro _ dt (conj Hint Hdt))) i a b Ha Hb).
      unfold retimed_step. rewrite Hint.
      destruct (Rlt_dec 0 dt); [reflexivity|contradiction]. }
    rewrite Htot, Hclosed.
    replace (length (p0 :: rest) - 1)%nat with (length rest)
      by (cbn [length]; lia).
    lra.
  - intros Hv Hint.
    destruct (lookup_lt_is_Some_2 (np_cumsum gpx_dist) (length rest))
      as [c Hc].
    { rewrite np_cumsum_length, Hdlen, Hn. lia. }
    assert (Hclosed : t_last = t_first + c / velocity args).
    { apply (retimed_closed_velocity ts' gpx_dist t_first (velocity args)
               Hhead) with (i := length rest);
        [|lra| |exact Hlast'|exact Hc].
      - apply Hd0; [rewrite Hn; lia|now left].
      - intros i a b Ha Hb. rewrite (Hrec (or_introl Hv) i a b Ha Hb).
        unfold retimed_step.
        destruct (intervaltime args) as [dt|] eqn:Hi; [|reflexivity].
        destruct (Rlt_dec 0 dt) as [Hdt|_]; [|reflexivity].
        destruct (Hint dt eq_refl Hdt). }
    assert (Hsum : c = foldr Rplus 0 gpx_dist).
    { assert (Hlc : last (np_cumsum gpx_dist) = Some c).
      { rewrite last_lookup, np_cumsum_length, Hdlen, Hn. exact Hc. }
      rewrite (cumsum_from_last 0 gpx_dist c Hlc). lra. }
    rewrite Htot, Hacc, Hclosed, <- Hsum. field. lra.
Qed.

Lemma process_file_summary_witness :
  exists fs' summary written,
    process_file pchip_model (fun t z => Ok (mkDatetime t z))
                 (fun _ version => version) (fun _ => true) (fun _ => Ok 0)
                 (fun _ => Ok "1970-01-01T00:00:00"%string)
                 (mkArgs 1 (Some 3%Z) None 2 false None) ∅ "a.gpx"%string
                 [mkPoint 0 0 None None None; mkPoint 0 180 None None None]
    = (fs', Ok (summary, written))
    /\ totaltime summary * 2 = accumulateddistance summary.
Proof.
  destruct (process_file_succeeds pchip_model
              (fun t z => Ok (mkDatetime t z)) (fun _ version => version)
              (fun _ => true) (fun _ => Ok 0)
              (fun _ => Ok "1970-01-01T00:00:00"%string)
              pchip_model_contract ltac:(eauto) ltac:(eauto)
              (mkArgs 1 (Some 3%Z) None 2 false None) ∅ "a.gpx"%string
              (mkPoint 0 0 None None None) [mkPoint 0 180 None None None] 3
              eq_refl ltac:(lia))
    as (fs' & summary & written & Hrun).
  - intros b Hb. discriminate.
  - left. apply equator_opposite_points.
  - reflexivity.
  - exists fs', summary, written. split; [exact Hrun|].
    destruct (process_file_summary _ _ _ _ _ _ _ _ _ _ _ _ _ Hrun)
      as (_ & _ & Hvel).
    apply Hvel.
    + simpl. lra.
    + intros dt Hdt. discriminate.
Defined.

(** ** [gpx_interpolate] with a zero distance *)

(** X18. [gpx_interpolate] does not check its [distance]: on a track with
    channels of one length that has two consecutive points at different
    places, the call with [distance = 0] and no [num] divides the positive
    total distance by zero and raises the [OverflowError] of [int] on the
    infinite quotient, whatever the interpolator is. *)
Theorem gpx_interpolate_zero_distance
    (pchip : list R -> list (list R) -> list R -> result (list (list R)))
    (g : GPXData) (a o : R) (la lo : list R) :
  lat g = Some (a :: la) -> lon g = Some (o :: lo) -> length lo = length la ->
  chan_len_ok (S (length la)) (ele g) ->
  chan_len_ok (S (length la)) (tstamp g) ->
  Exists (fun d => d <> 0) (steps (a, o) (zip la lo)) ->
  gpx_interpolate pchip g 0 None = Raise OverflowError.
Proof.
  intros Hla Hlo Hlen Hele Hts Hex.
  destruct (gpx_remove_duplicates_nonempty g a o la lo Hla Hlo Hlen Hele Hts)
    as (Hrd & (la1 & lo1 & Hla1 & Hlo1 & Hlen1 & Hele1 & Hts1 & Hnz & Hne) & _).
  specialize (Hne Hex).
  set (g' := apply_mask (retained_mask (zip (a :: la) (o :: lo))) g) in *.
  destruct (gpx_calculate_distance_positive g' true a o la1 lo1
              Hla1 Hlo1 Hlen1 Hele1 Hnz) as (d & Hd & Hdlen & Hd0 & Hdpos).
  set (xi := np_cumsum d).
  assert (Hxilen : length xi = S (length la1)).
  { unfold xi. now rewrite np_cumsum_length. }
  assert (Hla1len : (1 <= length la1)%nat).
  { destruct la1; [contradiction|simpl; lia]. }
  assert (Hinc : strictly_increasing xi) by now apply np_cumsum_increasing.
  assert (Hhead : head xi = Some (0 + 0)) by now apply np_cumsum_head.
  destruct (last_elem_ok xi) as (xn & Hlast_elem & Hlast); [lia|].
  assert (Hpos : 0 < xn).
  { rewrite last_lookup in Hlast. rewrite head_lookup in Hhead.
    assert (Hlt : (0 < Init.Nat.pred (length xi))%nat) by lia.
    pose proof (strictly_increasing_lt xi 0 _ _ _ Hinc Hlt Hhead Hlast).
    lra. }
  assert (Hrowlen : Forall (fun r => length r = length xi) (present_rows g')).
  { rewrite present_rows_eq, Hla1, Hlo1, Hxilen. repeat apply Forall_app_2.
    - repeat constructor.
    - repeat constructor. simpl. lia.
    - now apply chan_rows_len_ok.
    - now apply chan_rows_len_ok. }
  unfold gpx_interpolate, all_empty. rewrite Hla. cbn [truthy negb andb].
  rewrite Hrd. cbn [bind]. rewrite Hd. cbn [bind]. fold xi.
  rewrite (np_array_ok _ (length xi) Hrowlen). cbn [bind].
  rewrite Hlast_elem. cbn [bind np_div].
  destruct (Req_dec_T 0 0) as [_|Hn0]; [|contradiction].
  destruct (Req_dec_T xn 0) as [H0|_]; [lra|].
  destruct (Rlt_dec 0 xn) as [_|Hn]; [|contradiction].
  reflexivity.
Qed.

Lemma gpx_interpolate_zero_distance_witness :
  gpx_interpolate pchip_model
    (mkGPXData (Some [0; 0]) (Some [0; 180]) None None None) 0 None
  = Raise OverflowError.
Proof.
  apply (gpx_interpolate_zero_distance pchip_model
           (mkGPXData (Some [0; 0]) (Some [0; 180]) None None None)
           0 0 [0] [180] eq_refl eq_refl eq_refl I I).
  left. apply equator_opposite_points.
Defined.

(** * The script in rounded arithmetic *)

(** ** The exact operations as an instance *)

Lemma Fl_distance_exact (g : GPXData) (use_ele : bool) :
  Fl.gpx_calculate_distance exact_ops g use_ele
  = gpx_calculate_distance g use_ele.
Proof. reflexivity. Qed.

Lemma Fl_remove_duplicates_exact (g : GPXData) :
  Fl.gpx_remove_duplicates exact_ops g = gpx_remove_duplicates g.
Proof. reflexivity. Qed.

Lemma Fl_cumsum_from_exact (acc : R) (l : list R) :
  Fl.cumsum_from exact_ops acc l = cumsum_from acc l.
Proof.
  revert acc. induction l as [|x l IH]; intros acc; [reflexivity|].
  cbn [Fl.cumsum_from cumsum_from f_add exact_ops]. now rewrite IH.
Qed.

Lemma Fl_np_cumsum_exact (l : list R) : Fl.np_cumsum exact_ops l = np_cumsum l.
Proof.
  destruct l as [|x l]; [reflexivity|].
  unfold Fl.np_cumsum, np_cumsum. cbn [cumsum_from].
  rewrite Fl_cumsum_from_exact, Rplus_0_l. reflexivity.
Qed.

(** ** The shape of the distances and of the track without duplicates *)

Section RoundedShape.

Variable ops : float_ops.

Lemma Fl_distance_body_length (g : GPXData) (use_ele : bool) (d d' : list R)
    (i : nat) :
  Fl.distance_body ops g use_ele d i = Ok d' -> length d' = length d.
Proof.
  unfold Fl.distance_body. intros Hb.
  apply bind_Ok in Hb as (x1 & _ & Hb). apply bind_Ok in Hb as (x2 & _ & Hb).
  apply bind_Ok in Hb as (x3 & _ & Hb). apply bind_Ok in Hb as (x4 & _ & Hb).
  destruct (truthy (ele g) && use_ele).
  - apply bind_Ok in Hb as (e2 & _ & Hb). apply bind_Ok in Hb as (e1 & _ & Hb).
    injection Hb as <-. apply length_insert.
  - injection Hb as <-. apply length_insert.
Qed.

(** The list of distances has the length of the latitudes. *)
Lemma Fl_distance_length (g : GPXData) (use_ele : bool) (la d : list R) :
  lat g = Some la -> Fl.gpx_calculate_distance ops g use_ele = Ok d ->
  length d = length la.
Proof.
  intros Hla. unfold Fl.gpx_calculate_distance, for_range. rewrite Hla.
  cbn [py_len bind]. intros Hrun.
  apply (for_range_from_preserves (fun l => length l = length la)) in Hrun.
  - exact Hrun.
  - intros i a a' Hb Hl. rewrite <- Hl. eapply Fl_distance_body_length; eauto.
  - apply length_replicate.
Qed.

(** On channels of one length the distances are computed, and the first one
    is the 0 the array was created with. *)
Lemma Fl_distance_returns (g : GPXData) (use_ele : bool) (la lo : list R) :
  lat g = Some la -> lon g = Some lo -> length lo = length la ->
  chan_len_ok (length la) (ele g) ->
  exists d,
    Fl.gpx_calculate_distance ops g use_ele = Ok d
    /\ length d = length la
    /\ ((0 < length la)%nat -> d !! 0%nat = Some 0).
Proof.
  intros Hla Hlo Hlen Hele.
  unfold Fl.gpx_calculate_distance, for_range. rewrite Hla.
  cbn [py_len bind]. rewrite length_replicate.
  destruct (for_range_from_inv
              (fun (_ : nat) d => length d = length la
                                  /\ ((0 < length la)%nat ->
                                      d !! 0%nat = Some 0))
              (Fl.distance_body ops g use_ele) (length la - 1) 0
              (replicate (length la) 0)) as (d & Hd & Hl & H0).
  - split; [apply length_replicate|].
    intros Hpos. now apply lookup_replicate_2.
  - intros i d Hi (Hl & H0). unfold Fl.distance_body. rewrite Hla, Hlo.
    destruct (py_get_lt la i) as (x1 & -> & _); [lia|].
    destruct (py_get_lt lo i) as (x2 & -> & _); [lia|].
    destruct (py_get_lt la (i + 1)) as (x3 & -> & _); [lia|].
    destruct (py_get_lt lo (i + 1)) as (x4 & -> & _); [lia|].
    cbn [bind].
    assert (Hins : forall v,
              length (<[(i + 1)%nat := v]> d) = length la
              /\ ((0 < length la)%nat ->
                  <[(i + 1)%nat := v]> d !! 0%nat = Some 0)).
    { intros v. split; [now rewrite length_insert|].
      intros Hpos. rewrite list_lookup_insert_ne by lia. now apply H0. }
    destruct (ele g) as [[|e0 el]|] eqn:Heq; cbn [truthy andb]; eauto.
    destruct use_ele; eauto.
    cbn [chan_len_ok] in Hele.
    destruct (py_get_lt (e0 :: el) (i + 1)) as (e2 & -> & _); [lia|].
    destruct (py_get_lt (e0 :: el) i) as (e1 & -> & _); [lia|].
    cbn [bind]. eauto.
  - exists d. split; [exact Hd|]. split; [exact Hl|exact H0].
Qed.

Lemma Fl_cumsum_from_length (acc : R) (l : list R) :
  length (Fl.cumsum_from ops acc l) = length l.
Proof.
  revert acc. induction l as [|x l IH]; intros acc; [reflexivity|].
  cbn [Fl.cumsum_from length]. now rewrite IH.
Qed.

Lemma Fl_np_cumsum_length (l : list R) :
  length (Fl.np_cumsum ops l) = length l.
Proof.
  destruct l as [|x l]; [reflexivity|].
  cbn [Fl.np_cumsum length]. now rewrite Fl_cumsum_from_length.
Qed.

(** Lines 146-158 on a track with at least one point: the points kept are
    point 0 and those whose computed distance from their predecessor is not
    zero. *)
Lemma Fl_remove_duplicates_mask (g : GPXData) (a o : R) (la lo : list R) :
  lat g = Some (a :: la) -> lon g = Some (o :: lo) -> length lo = length la ->
  chan_len_ok (S (length la)) (ele g) ->
  chan_len_ok (S (length la)) (tstamp g) ->
  exists ds,
    Fl.gpx_calculate_distance ops g false = Ok (0 :: ds)
    /\ length ds = length la
    /\ Fl.gpx_remove_duplicates ops g
       = Ok (apply_mask (true :: nonzero_mask ds) g).
Proof.
  intros Hla Hlo Hlen Hele Hts.
  destruct (Fl_distance_returns g false (a :: la) (o :: lo) Hla Hlo)
    as (d & Hd & Hdl & Hd0); [simpl; lia|exact Hele|].
  destruct d as [|d0 ds]; [discriminate|].
  specialize (Hd0 ltac:(simpl; lia)). injection Hd0 as ->.
  assert (Hds : length ds = length la) by (simpl in Hdl; lia).
  exists ds. split; [exact Hd|]. split; [exact Hds|].
  unfold Fl.gpx_remove_duplicates, Fl.kept_indices. rewrite Hd.
  cbn [bind]. unfold np_nonzero. cbn [nonzero_from].
  destruct (Req_dec_T 0 0) as [_|Hne]; [|contradiction].
  destruct (decide (length (0%nat :: nonzero_from 1 ds) = length (0 :: ds)))
    as [Heq|Hneq].
  - f_equal. symmetry. apply (apply_mask_all_true _ g (a :: la)).
    + exact Hla.
    + simpl. unfold nonzero_mask. rewrite length_fmap. lia.
    + rewrite Hlo. simpl. lia.
    + exact Hele.
    + exact Hts.
    + constructor; [reflexivity|].
      apply (nonzero_from_length_eq ds 1). simpl in Heq. lia.
  - unfold build_nodup. rewrite <- Hds in Hele, Hts.
    rewrite !reindex_nonzero; try assumption.
    + reflexivity.
    + rewrite Hlo. simpl. lia.
    + rewrite Hla. simpl. lia.
Qed.

End RoundedShape.

(** ** [gpx_interpolate] on a track the interpolator accepts *)

Ltac split_conj :=
  repeat match goal with
         | |- _ /\ _ => split
         | |- _ <-> _ => split
         end.

(** The interpolation in rounded arithmetic, for a track that keeps at
    least two points whose cumulative distances, as computed, are strictly
    increasing: with [num = k] it returns a track whose present channels
    have [k] elements, and whose end points are, within the tolerance of
    the interpolator, those of the track without duplicates. *)
Lemma Fl_interpolate_shape (ops : float_ops)
    (pchip : list R -> list (list R) -> list R -> result (list (list R)))
    (g g' : GPXData) (a o : R) (la lo d : list R) (dist : R) (k : Z) :
  pchip_contract pchip ->
  lat g = Some (a :: la) -> lon g = Some (o :: lo) -> length lo = length la ->
  chan_len_ok (S (length la)) (ele g) ->
  chan_len_ok (S (length la)) (tstamp g) ->
  Fl.gpx_remove_duplicates ops g = Ok g' ->
  Fl.gpx_calculate_distance ops g' true = Ok d ->
  (2 <= length d)%nat -> strictly_increasing (Fl.np_cumsum ops d) ->
  (0 <= k)%Z ->
  exists out la' lo' la1 lo1,
    Fl.gpx_interpolate ops pchip g dist (Some k) = Ok out
    /\ lat out = Some la' /\ length la' = Z.to_nat k
    /\ lon out = Some lo' /\ length lo' = Z.to_nat k
    /\ chan_len_ok (Z.to_nat k) (ele out)
    /\ chan_len_ok (Z.to_nat k) (tstamp out)
    /\ (is_Some (ele out) <-> is_Some (ele g))
    /\ (is_Some (tstamp out) <-> is_Some (tstamp g))
    /\ tz out = tz g
    /\ lat g' = Some (a :: la1) /\ lon g' = Some (o :: lo1)
    /\ (forall tol, pchip_endpoints_within tol pchip -> (2 <= k)%Z ->
          (forall v, head la' = Some v -> Rabs (v - a) <= tol)
          /\ (forall v, head lo' = Some v -> Rabs (v - o) <= tol)
          /\ (forall v w, last la' = Some v -> last (a :: la1) = Some w ->
                Rabs (v - w) <= tol)
          /\ (forall v w, last lo' = Some v -> last (o :: lo1) = Some w ->
                Rabs (v - w) <= tol)).
Proof.
  intros Hc Hla Hlo Hlen Hele Hts Hrd Hd Hd2 Hinc Hk.
  destruct (Fl_remove_duplicates_mask ops g a o la lo Hla Hlo Hlen Hele Hts)
    as (ds & _ & Hds & Hrd').
  set (m := nonzero_mask ds) in *.
  assert (Hg' : g' = apply_mask (true :: m) g) by congruence.
  set (la1 := select m la). set (lo1 := select m lo).
  assert (Hla1 : lat g' = Some (a :: la1)).
  { rewrite Hg'. unfold apply_mask. cbn [lat]. now rewrite Hla. }
  assert (Hlo1 : lon g' = Some (o :: lo1)).
  { rewrite Hg'. unfold apply_mask. cbn [lon]. now rewrite Hlo. }
  assert (Hlen1 : length lo1 = length la1).
  { apply select_length. exact Hlen. }
  assert (Hele1 : chan_len_ok (S (length la1)) (ele g')).
  { rewrite Hg'. unfold apply_mask. cbn [ele].
    apply (chan_len_ok_select (true :: m) (a :: la)). exact Hele. }
  assert (Hts1 : chan_len_ok (S (length la1)) (tstamp g')).
  { rewrite Hg'. unfold apply_mask. cbn [tstamp].
    apply (chan_len_ok_select (true :: m) (a :: la)). exact Hts. }
  assert (Hdlen : length d = S (length la1)).
  { rewrite (Fl_distance_length ops g' true (a :: la1) d Hla1 Hd).
    reflexivity. }
  set (xi := Fl.np_cumsum ops d) in *.
  assert (Hxilen : length xi = S (length la1)).
  { unfold xi. now rewrite Fl_np_cumsum_length. }
  destruct (lookup_lt_is_Some_2 xi 0) as [x0 Hx0]; [lia|].
  assert (Hhead : head xi = Some x0) by now rewrite head_lookup.
  destruct (last_elem_ok xi) as (xn & Hlast_elem & Hlast); [lia|].
  assert (Hfirst_elem : first_elem xi = Ok x0).
  { unfold first_elem. now rewrite Hhead. }
  assert (Hle : x0 <= xn).
  { rewrite last_lookup in Hlast.
    eapply (strictly_increasing_le xi 0 _ _ _ Hinc); [|exact Hx0|exact Hlast].
    lia. }
  (* the rows of the array *)
  set (rows := present_rows g').
  assert (Hrows : rows = [a :: la1; o :: lo1] ++ chan_rows (ele g')
                         ++ chan_rows (tstamp g')).
  { unfold rows. rewrite present_rows_eq, Hla1, Hlo1. reflexivity. }
  assert (Hrowlen : Forall (fun r => length r = length xi) rows).
  { rewrite Hrows, Hxilen. repeat apply Forall_app_2.
    - repeat constructor; simpl; lia.
    - now apply chan_rows_len_ok.
    - now apply chan_rows_len_ok. }
  (* the same channels are present before and after duplicate removal *)
  assert (Hsome_e : is_Some (ele g') <-> is_Some (ele g)).
  { rewrite Hg'. unfold apply_mask. cbn [ele]. now rewrite fmap_is_Some. }
  assert (Htz : tz g' = tz g) by (rewrite Hg'; reflexivity).
  assert (Hall : all_empty g = false).
  { unfold all_empty. now rewrite Hla. }
  destruct (np_linspace_spec x0 xn k Hk Hle)
    as (x & Hx & Hxlen & Hxrange & Hxhead & Hxlast).
  destruct (Hc xi rows x x0 xn) as (y & Hy & Hylen & Hycols);
    try assumption; [lia|].
  assert (Hylen2 : (2 <= length y)%nat).
  { rewrite Hylen, Hrows. simpl. lia. }
  destruct (row_ok y 0) as (y0 & Hy0 & Hy0'); [lia|].
  destruct (row_ok y 1) as (y1 & Hy1 & Hy1'); [lia|].
  rewrite Forall_lookup in Hycols.
  (* run the function *)
  unfold Fl.gpx_interpolate. rewrite Hall, Hrd. cbn [bind].
  rewrite Hd. cbn [bind]. fold xi. fold rows.
  rewrite (np_array_ok rows (length xi) Hrowlen). cbn [bind].
  rewrite Hfirst_elem, Hlast_elem. cbn [bind].
  rewrite Hx. cbn [bind]. rewrite Hy. cbn [bind].
  rewrite Hy0, Hy1. cbn [bind].
  rewrite (truthy_len_ok _ _ Hele), (truthy_len_ok _ _ Hts).
  assert (Hrow_e : is_Some (ele g) -> exists r, row y 2 = Ok r
                                               /\ length r = Z.to_nat k).
  { intros He. destruct (row_ok y 2) as (r & Hr & Hr').
    - rewrite Hylen, Hrows. apply Hsome_e in He.
      unfold chan_rows at 1. rewrite (truthy_len_ok _ _ Hele1).
      rewrite bool_decide_eq_true_2 by exact He. simpl. lia.
    - exists r. split; [exact Hr|]. rewrite <- Hxlen. eapply Hycols; eauto. }
  assert (Hrow_t : exists r, last_elem y = Ok r /\ length r = Z.to_nat k).
  { destruct (last_elem_ok y) as (r & Hr & Hr'); [lia|].
    exists r. split; [exact Hr|]. rewrite <- Hxlen.
    rewrite last_lookup in Hr'. eapply Hycols; eauto. }
  destruct Hrow_t as (rt & Hrt & Hrtlen).
  assert (Hcols0 : length y0 = Z.to_nat k).
  { rewrite <- Hxlen. eapply Hycols; eauto. }
  assert (Hcols1 : length y1 = Z.to_nat k).
  { rewrite <- Hxlen. eapply Hycols; eauto. }
  assert (Hends : forall tol, pchip_endpoints_within tol pchip -> (2 <= k)%Z ->
            (forall v, head y0 = Some v -> Rabs (v - a) <= tol)
            /\ (forall v, head y1 = Some v -> Rabs (v - o) <= tol)
            /\ (forall v w, last y0 = Some v -> last (a :: la1) = Some w ->
                  Rabs (v - w) <= tol)
            /\ (forall v w, last y1 = Some v -> last (o :: lo1) = Some w ->
                  Rabs (v - w) <= tol)).
  { intros tol He Hk2.
    assert (Hlast' : last xi = Some xn) by exact Hlast.
    destruct (He xi rows x y x0 xn ltac:(lia) Hinc Hrowlen Hhead Hlast'
                Hy 0%nat (a :: la1) y0) as (Hh0 & Hl0);
      [rewrite Hrows; reflexivity|exact Hy0'|].
    destruct (He xi rows x y x0 xn ltac:(lia) Hinc Hrowlen Hhead Hlast'
                Hy 1%nat (o :: lo1) y1) as (Hh1 & Hl1);
      [rewrite Hrows; reflexivity|exact Hy1'|].
    specialize (Hh0 (Hxhead ltac:(lia))). specialize (Hh1 (Hxhead ltac:(lia))).
    specialize (Hl0 (Hxlast ltac:(lia))). specialize (Hl1 (Hxlast ltac:(lia))).
    repeat split.
    - intros v Hv. now apply (Hh0 v a).
    - intros v Hv. now apply (Hh1 v o).
    - exact Hl0.
    - exact Hl1. }
  assert (Hpres : forall c : channel,
            is_Some c -> bool_decide (is_Some c) = true).
  { intros c Hs. now apply bool_decide_eq_true_2. }
  destruct (ele g) as [el|] eqn:Eele.
  - destruct (Hrow_e (ltac:(eauto))) as (re & Hre & Hrelen).
    rewrite bool_decide_eq_true_2 by eauto. rewrite Hre. cbn [bind].
    destruct (tstamp g) as [tl|] eqn:Etl.
    + rewrite bool_decide_eq_true_2 by eauto. rewrite Hrt. cbn [bind].
      eexists _, y0, y1, la1, lo1. split; [reflexivity|]. cbn.
      split_conj; eauto.
    + rewrite bool_decide_eq_false_2 by (intros [? [=]]). cbn [bind].
      eexists _, y0, y1, la1, lo1. split; [reflexivity|]. cbn.
      split_conj; eauto.
  - rewrite bool_decide_eq_false_2 by (intros [? [=]]). cbn [bind].
    destruct (tstamp g) as [tl|] eqn:Etl.
    + rewrite bool_decide_eq_true_2 by eauto. rewrite Hrt. cbn [bind].
      eexists _, y0, y1, la1, lo1. split; [reflexivity|]. cbn.
      split_conj; eauto.
    + rewrite bool_decide_eq_false_2 by (intros [? [=]]). cbn [bind].
      eexists _, y0, y1, la1, lo1. split; [reflexivity|]. cbn.
      split_conj; eauto.
Qed.

(** In exact arithmetic a track that has two consecutive points at
    different places is one the interpolator accepts. *)
Lemma exact_ops_valid (g : GPXData) (a o : R) (la lo : list R) :
  lat g = Some (a :: la) -> lon g = Some (o :: lo) -> length lo = length la ->
  chan_len_ok (S (length la)) (ele g) ->
  chan_len_ok (S (length la)) (tstamp g) ->
  Exists (fun d => d <> 0) (steps (a, o) (zip la lo)) ->
  exists g' d,
    Fl.gpx_remove_duplicates exact_ops g = Ok g'
    /\ Fl.gpx_calculate_distance exact_ops g' true = Ok d
    /\ (2 <= length d)%nat
    /\ strictly_increasing (Fl.np_cumsum exact_ops d).
Proof.
  intros Hla Hlo Hlen Hele Hts Hex.
  destruct (gpx_remove_duplicates_nonempty g a o la lo Hla Hlo Hlen Hele Hts)
    as (Hrd & (la1 & lo1 & Hla1 & Hlo1 & Hlen1 & Hele1 & Hts1 & Hnz & Hne) & _).
  specialize (Hne Hex).
  destruct (gpx_calculate_distance_positive _ true a o la1 lo1
              Hla1 Hlo1 Hlen1 Hele1 Hnz) as (d & Hd & Hdlen & Hd0 & Hdpos).
  eexists _, d. rewrite Fl_remove_duplicates_exact, Fl_distance_exact.
  split; [exact Hrd|]. split; [exact Hd|]. split.
  - rewrite Hdlen. destruct la1; [contradiction|simpl; lia].
  - rewrite Fl_np_cumsum_exact. now apply np_cumsum_increasing.
Qed.

Lemma pchip_endpoints_exact_within (tol : R)
    (pchip : list R -> list (list R) -> list R -> result (list (list R))) :
  0 <= tol -> pchip_endpoints pchip -> pchip_endpoints_within tol pchip.
Proof.
  intros Htol He xi yi x y x0 xn Hn Hinc Hrows Hhead Hlast Hrun i yrow r Hy Hr.
  destruct (He xi yi x y x0 xn Hn Hinc Hrows Hhead Hlast Hrun i yrow r Hy Hr)
    as (Hh & Hl).
  split.
  - intros Hx v w Hv Hw. rewrite (Hh Hx), Hw in Hv. injection Hv as ->.
    rewrite Rminus_diag, Rabs_R0. exact Htol.
  - intros Hx v w Hv Hw. rewrite (Hl Hx), Hw in Hv. injection Hv as ->.
    rewrite Rminus_diag, Rabs_R0. exact Htol.
Qed.

Lemma Fl_interpolate_num_absent (ops : float_ops)
    (pchip : list R -> list (list R) -> list R -> result (list (list R)))
    (g g' : GPXData) (d : list R) (total dist : R) :
  Fl.gpx_remove_duplicates ops g = Ok g' ->
  Fl.gpx_calculate_distance ops g' true = Ok d ->
  last (Fl.np_cumsum ops d) = Some total ->
  dist <> 0 ->
  Fl.gpx_interpolate ops pchip g dist None
  = Fl.gpx_interpolate ops pchip g dist
      (Some (np_ceil (f_div ops total dist))).
Proof.
  intros Hrd Hd Hlast Hdist. unfold Fl.gpx_interpolate.
  destruct (all_empty g); [reflexivity|].
  rewrite Hrd. cbn [bind]. rewrite Hd. cbn [bind].
  destruct (np_array (present_rows g')) as [rows|e]; [|reflexivity].
  cbn [bind]. unfold last_elem at 1. rewrite Hlast. cbn [bind Fl.np_div].
  destruct (Req_dec_T dist 0); [contradiction|]. reflexivity.
Qed.

(** C4. The count, whatever the rounding of the arithmetic is.  A valid
    track is one the interpolator accepts: its channels have one length,
    and after duplicate removal at least two points remain whose cumulative
    distances, as the script computes them, are strictly increasing (where
    they are not, the interpolator raises: the input shape error of the
    specification).  On such a track, with an interpolator that meets the
    contract, [gpx_interpolate] with [num = k], [k >= 2], returns a track
    with exactly [k] latitudes and [k] longitudes, with exactly [k]
    elevations (timestamps) if the input has elevations (timestamps) and
    none otherwise; the result does not depend on [distance].  With [num]
    absent and a non-zero [distance], the function behaves as with
    [num = ceil (total / distance)], where [total] is the last cumulative
    distance and the quotient is the rounded one. *)
Theorem gpx_interpolate_count (ops : float_ops)
    (pchip : list R -> list (list R) -> list R -> result (list (list R)))
    (g g' : GPXData) (a o : R) (la lo d : list R) (dist : R) :
  pchip_contract pchip ->
  lat g = Some (a :: la) -> lon g = Some (o :: lo) -> length lo = length la ->
  chan_len_ok (S (length la)) (ele g) ->
  chan_len_ok (S (length la)) (tstamp g) ->
  Fl.gpx_remove_duplicates ops g = Ok g' ->
  Fl.gpx_calculate_distance ops g' true = Ok d ->
  (2 <= length d)%nat -> strictly_increasing (Fl.np_cumsum ops d) ->
  (forall k, (2 <= k)%Z ->
     exists out la' lo',
       Fl.gpx_interpolate ops pchip g dist (Some k) = Ok out
       /\ lat out = Some la' /\ length la' = Z.to_nat k
       /\ lon out = Some lo' /\ length lo' = Z.to_nat k
       /\ chan_len_ok (Z.to_nat k) (ele out)
       /\ chan_len_ok (Z.to_nat k) (tstamp out)
       /\ (is_Some (ele out) <-> is_Some (ele g))
       /\ (is_Some (tstamp out) <-> is_Some (tstamp g)))
  /\ (forall k dist',
        Fl.gpx_interpolate ops pchip g dist (Some k)
        = Fl.gpx_interpolate ops pchip g dist' (Some k))
  /\ (dist <> 0 ->
      exists total,
        last (Fl.np_cumsum ops d) = Some total
        /\ Fl.gpx_interpolate ops pchip g dist None
           = Fl.gpx_interpolate ops pchip g dist
               (Some (np_ceil (f_div ops total dist)))).
Proof.
  intros Hc Hla Hlo Hlen Hele Hts Hrd Hd Hd2 Hinc. split; [|split].
  - intros k Hk.
    destruct (Fl_interpolate_shape ops pchip g g' a o la lo d dist k Hc Hla
                Hlo Hlen Hele Hts Hrd Hd Hd2 Hinc ltac:(lia))
      as (out & la' & lo' & _ & _ & Hout & H1 & H2 & H3 & H4 & H5 & H6 & H7
          & H8 & _).
    exists out, la', lo'. repeat (split; [assumption|]). exact H8.
  - intros k dist'. reflexivity.
  - intros Hdist.
    destruct (last (Fl.np_cumsum ops d)) as [total|] eqn:Hlast.
    + exists total. split; [reflexivity|].
      now apply (Fl_interpolate_num_absent ops pchip g g' d).
    + apply last_None in Hlast.
      apply (f_equal length) in Hlast.
      rewrite Fl_np_cumsum_length in Hlast. simpl in Hlast. lia.
Qed.

Lemma gpx_interpolate_count_witness :
  exists out la' lo',
    Fl.gpx_interpolate exact_ops pchip_model
      (mkGPXData (Some [0; 0; 0]) (Some [0; 180; 180]) (Some [5; 6; 7]) None
                 (Some UTC)) 1 (Some 4%Z) = Ok out
    /\ lat out = Some la' /\ length la' = 4%nat
    /\ lon out = Some lo' /\ length lo' = 4%nat
    /\ is_Some (ele out) /\ tstamp out = None.
Proof.
  set (g := mkGPXData (Some [0; 0; 0]) (Some [0; 180; 180]) (Some [5; 6; 7])
                      None (Some UTC)).
  destruct (exact_ops_valid g 0 0 [0; 0] [180; 180]
              eq_refl eq_refl eq_refl eq_refl I)
    as (g' & d & Hrd & Hd & Hd2 & Hinc).
  { left. apply equator_opposite_points. }
  destruct (gpx_interpolate_count exact_ops pchip_model g g' 0 0 [0; 0]
              [180; 180] d 1 pchip_model_contract
              eq_refl eq_refl eq_refl eq_refl I Hrd Hd Hd2 Hinc)
    as (Hcount & _).
  destruct (Hcount 4%Z ltac:(lia))
    as (out & la' & lo' & Hout & H1 & H2 & H3 & H4 & _ & H6 & H7 & H8).
  exists out, la', lo'. repeat (split; [assumption|]). split.
  - apply H7. unfold g. simpl. eauto.
  - destruct (tstamp out) as [t|] eqn:Ht; [|reflexivity].
    destruct H8 as [H8 _]. destruct (H8 ltac:(eauto)) as [x Hx].
    discriminate.
Defined.

(** ** The end points of the interpolated track *)

Lemma nonzero_mask_last (ds : list R) (x : R) :
  last ds = Some x -> x <> 0 -> last (nonzero_mask ds) = Some true.
Proof.
  intros Hlast Hx. unfold nonzero_mask. rewrite fmap_last, Hlast.
  cbn [fmap option_fmap option_map].
  destruct (Req_dec_T x 0); [contradiction|reflexivity].
Qed.

(** A selection that drops only elements equal to their predecessor keeps
    the last element. *)
Lemma select_keeps_last {A : Type} (m : list bool) (l : list A) (prev : A) :
  length m = length l ->
  (forall i, m !! i = Some false -> (prev :: l) !! S i = (prev :: l) !! i) ->
  last (prev :: select m l) = last (prev :: l).
Proof.
  revert m prev. induction l as [|x l IH]; intros [|b m] prev Hlen Hdup;
    try discriminate; [reflexivity|].
  cbn [length] in Hlen.
  assert (Hrest : forall i, m !! i = Some false ->
            (x :: l) !! S i = (x :: l) !! i).
  { intros i Hi. exact (Hdup (S i) Hi). }
  rewrite last_cons_cons. destruct b; cbn [select].
  - rewrite last_cons_cons. apply IH; [lia|exact Hrest].
  - assert (Hx : x = prev).
    { specialize (Hdup 0%nat eq_refl). cbn in Hdup. congruence. }
    subst x. apply IH; [lia|exact Hrest].
Qed.

Lemma nonzero_mask_false (ds : list R) (i : nat) :
  nonzero_mask ds !! i = Some false -> ds !! i = Some 0.
Proof.
  unfold nonzero_mask. rewrite list_lookup_fmap.
  destruct (ds !! i) as [x|]; [|discriminate]. cbn.
  destruct (Req_dec_T x 0) as [->|_]; [reflexivity|discriminate].
Qed.

(** C5. The end points, whatever the rounding of the arithmetic is.  Take a
    valid track (one the interpolator accepts: channels of one length, and
    at least two points left by the duplicate removal, with strictly
    increasing cumulative distances as computed), an interpolator that
    meets the contract and returns the end values of every row within a
    tolerance of at most 1e-9, and [num = k], [k >= 2] (in particular the
    number of points of the track).  Then [gpx_interpolate] returns a track
    whose first latitude and longitude are within 1e-9 of those of the
    first point of the input, and whose last latitude and longitude are
    within 1e-9 of those of the last point that the duplicate removal keeps.
    That point has the latitude and longitude of the last point of the
    input whenever the computed distance of the last step is not zero, and
    whenever every point that is dropped has the latitude and longitude of
    its predecessor (a duplicate trackpoint). *)
Theorem gpx_interpolate_endpoints_within (ops : float_ops)
    (pchip : list R -> list (list R) -> list R -> result (list (list R)))
    (g g' : GPXData) (a o : R) (la lo d : list R) (dist tol : R) (k : Z) :
  pchip_contract pchip -> pchip_endpoints_within tol pchip ->
  tol <= / 10 ^ 9 ->
  lat g = Some (a :: la) -> lon g = Some (o :: lo) -> length lo = length la ->
  chan_len_ok (S (length la)) (ele g) ->
  chan_len_ok (S (length la)) (tstamp g) ->
  Fl.gpx_remove_duplicates ops g = Ok g' ->
  Fl.gpx_calculate_distance ops g' true = Ok d ->
  (2 <= length d)%nat -> strictly_increasing (Fl.np_cumsum ops d) ->
  (2 <= k)%Z ->
  exists out lat_out lon_out lat0 lon0 lat1 lon1 lat_kept lon_kept,
    Fl.gpx_interpolate ops pchip g dist (Some k) = Ok out
    /\ lat out = Some lat_out /\ lon out = Some lon_out
    /\ head lat_out = Some lat0 /\ head lon_out = Some lon0
    /\ last lat_out = Some lat1 /\ last lon_out = Some lon1
    /\ last (default [] (lat g')) = Some lat_kept
    /\ last (default [] (lon g')) = Some lon_kept
    /\ Rabs (lat0 - a) <= / 10 ^ 9 /\ Rabs (lon0 - o) <= / 10 ^ 9
    /\ Rabs (lat1 - lat_kept) <= / 10 ^ 9
    /\ Rabs (lon1 - lon_kept) <= / 10 ^ 9
    /\ (forall d0,
          Fl.gpx_calculate_distance ops g false = Ok d0 ->
          (exists d_last, last d0 = Some d_last /\ d_last <> 0)
          \/ (forall i, d0 !! S i = Some 0 ->
                (a :: la) !! S i = (a :: la) !! i
                /\ (o :: lo) !! S i = (o :: lo) !! i) ->
          last (a :: la) = Some lat_kept /\ last (o :: lo) = Some lon_kept).
Proof.
  intros Hc He Htol Hla Hlo Hlen Hele Hts Hrd Hd Hd2 Hinc Hk.
  destruct (Fl_interpolate_shape ops pchip g g' a o la lo d dist k Hc Hla
              Hlo Hlen Hele Hts Hrd Hd Hd2 Hinc ltac:(lia))
    as (out & lat_out & lon_out & la1 & lo1 & Hout & Hlat & Hl1 & Hlon & Hl2
        & _ & _ & _ & _ & _ & Hla1 & Hlo1 & Hends).
  destruct (Hends tol He Hk) as (B0 & B1 & B2 & B3).
  assert (Hne : forall l : list R, length l = Z.to_nat k ->
            exists v w, head l = Some v /\ last l = Some w).
  { intros l Hl. destruct l as [|v l]; [simpl in Hl; lia|].
    destruct (last (v :: l)) as [w|] eqn:Hw; [eauto|].
    apply last_None in Hw. discriminate. }
  destruct (Hne lat_out Hl1) as (lat0 & lat1 & Hh0 & Hh1).
  destruct (Hne lon_out Hl2) as (lon0 & lon1 & Hg0 & Hg1).
  assert (Hk1 : exists lat_kept, last (a :: la1) = Some lat_kept).
  { destruct (last (a :: la1)) as [w|] eqn:Hw; [eauto|].
    apply last_None in Hw. discriminate. }
  assert (Hk2 : exists lon_kept, last (o :: lo1) = Some lon_kept).
  { destruct (last (o :: lo1)) as [w|] eqn:Hw; [eauto|].
    apply last_None in Hw. discriminate. }
  destruct Hk1 as (lat_kept & Hk1). destruct Hk2 as (lon_kept & Hk2).
  exists out, lat_out, lon_out, lat0, lon0, lat1, lon1, lat_kept, lon_kept.
  split; [exact Hout|]. split; [exact Hlat|]. split; [exact Hlon|].
  split; [exact Hh0|]. split; [exact Hg0|]. split; [exact Hh1|].
  split; [exact Hg1|].
  split; [rewrite Hla1; exact Hk1|]. split; [rewrite Hlo1; exact Hk2|].
  split; [eapply Rle_trans; [apply (B0 lat0 Hh0)|exact Htol]|].
  split; [eapply Rle_trans; [apply (B1 lon0 Hg0)|exact Htol]|].
  split; [eapply Rle_trans; [apply (B2 lat1 lat_kept Hh1 Hk1)|exact Htol]|].
  split; [eapply Rle_trans; [apply (B3 lon1 lon_kept Hg1 Hk2)|exact Htol]|].
  (* the last point of the input and the last point kept *)
  intros d0 Hd0 Hcase.
  destruct (Fl_remove_duplicates_mask ops g a o la lo Hla Hlo Hlen Hele Hts)
    as (ds & Hds0 & Hds & Hrd').
  assert (d0 = 0 :: ds) as -> by congruence.
  assert (Hg' : g' = apply_mask (true :: nonzero_mask ds) g) by congruence.
  assert (Hmlen : length (nonzero_mask ds) = length la).
  { unfold nonzero_mask. rewrite length_fmap. exact Hds. }
  rewrite Hg' in Hla1, Hlo1. unfold apply_mask in Hla1, Hlo1.
  cbn [lat lon] in Hla1, Hlo1. rewrite Hla in Hla1. rewrite Hlo in Hlo1.
  cbn [fmap option_fmap option_map select] in Hla1, Hlo1.
  injection Hla1 as Hla1. injection Hlo1 as Hlo1.
  rewrite <- Hk1, <- Hk2, <- Hla1, <- Hlo1.
  destruct Hcase as [(d_last & Hlast & Hnz)|Hdup].
  - assert (Hmlast : last (true :: nonzero_mask ds) = Some true).
    { destruct ds as [|x ds]; [simpl in Hlast; congruence|].
      rewrite last_cons_cons in Hlast.
      change (nonzero_mask (x :: ds))
        with ((if Req_dec_T x 0 then false else true) :: nonzero_mask ds).
      rewrite last_cons_cons.
      change ((if Req_dec_T x 0 then false else true) :: nonzero_mask ds)
        with (nonzero_mask (x :: ds)).
      exact (nonzero_mask_last _ _ Hlast Hnz). }
    split; symmetry.
    + apply (select_last (true :: nonzero_mask ds) (a :: la));
        [cbn [length]; lia|exact Hmlast].
    + apply (select_last (true :: nonzero_mask ds) (o :: lo));
        [cbn [length]; lia|exact Hmlast].
  - split; symmetry.
    + apply select_keeps_last; [exact Hmlen|].
      intros i Hi. apply nonzero_mask_false in Hi.
      now destruct (Hdup i Hi).
    + apply select_keeps_last; [lia|].
      intros i Hi. apply nonzero_mask_false in Hi.
      now destruct (Hdup i Hi).
Qed.

Lemma gpx_interpolate_endpoints_within_witness :
  exists out lat_out lon_out lat0 lon0 lat1 lon1,
    Fl.gpx_interpolate exact_ops pchip_model
      (mkGPXData (Some [0; 0; 0]) (Some [0; 0; 180]) None None None) 1
      (Some 3%Z) = Ok out
    /\ lat out = Some lat_out /\ lon out = Some lon_out
    /\ head lat_out = Some lat0 /\ head lon_out = Some lon0
    /\ last lat_out = Some lat1 /\ last lon_out = Some lon1
    /\ Rabs (lat0 - 0) <= / 10 ^ 9 /\ Rabs (lon0 - 0) <= / 10 ^ 9
    /\ Rabs (lat1 - 0) <= / 10 ^ 9 /\ Rabs (lon1 - 180) <= / 10 ^ 9.
Proof.
  set (g := mkGPXData (Some [0; 0; 0]) (Some [0; 0; 180]) None None None).
  destruct (exact_ops_valid g 0 0 [0; 0] [0; 180] eq_refl eq_refl eq_refl I I)
    as (g' & d & Hrd & Hd & Hd2 & Hinc).
  { right. left. apply equator_opposite_points. }
  assert (Htol : 0 <= / 10 ^ 9).
  { left. apply Rinv_0_lt_compat. apply pow_lt. lra. }
  destruct (gpx_interpolate_endpoints_within exact_ops pchip_model g g' 0 0
              [0; 0] [0; 180] d 1 0 3 pchip_model_contract
              (pchip_endpoints_exact_within 0 pchip_model (Rle_refl 0)
                 pchip_model_endpoints)
              Htol eq_refl eq_refl eq_refl I I Hrd Hd Hd2 Hinc ltac:(lia))
    as (out & lat_out & lon_out & lat0 & lon0 & lat1 & lon1 & lat_kept
        & lon_kept & Hout & Hlat & Hlon & Hh0 & Hg0 & Hh1 & Hg1 & _ & _
        & B0 & B1 & B2 & B3 & Hkept).
  destruct (Hkept [0; gc_points (0, 0) (0, 0); gc_points (0, 0) (0, 180)])
    as (Hlk & Hgk).
  { rewrite Fl_distance_exact.
    apply (gpx_calculate_distance_steps g [0; 0; 0] [0; 0; 180] 0 0
             [0; 0] [0; 180]); reflexivity || exact I. }
  { left. exists (gc_points (0, 0) (0, 180)).
    split; [reflexivity|apply equator_opposite_points]. }
  cbn in Hlk, Hgk. injection Hlk as <-. injection Hgk as <-.
  exists out, lat_out, lon_out, lat0, lon0, lat1, lon1.
  repeat (split; [assumption|]). exact B3.
Defined.

(** ** [gpx_remove_duplicates], whatever the rounding is *)

(** X7. On a track with at least one point and channels of one length,
    [gpx_remove_duplicates] returns, whatever the rounding of the
    arithmetic is: it keeps point 0 and exactly the points whose distance
    from their predecessor in the input, as computed without elevation, is
    not zero.  Every present channel keeps the elements of these points, an
    absent channel stays absent, the time zone is kept, and the result is
    the input itself when no computed distance is zero. *)
Theorem gpx_remove_duplicates_kept (ops : float_ops) (g : GPXData)
    (a o : R) (la lo : list R) :
  lat g = Some (a :: la) -> lon g = Some (o :: lo) -> length lo = length la ->
  chan_len_ok (S (length la)) (ele g) ->
  chan_len_ok (S (length la)) (tstamp g) ->
  exists ds g',
    Fl.gpx_calculate_distance ops g false = Ok (0 :: ds)
    /\ length ds = length la
    /\ Fl.gpx_remove_duplicates ops g = Ok g'
    /\ g' = apply_mask (true :: nonzero_mask ds) g
    /\ lat g' = Some (a :: select (nonzero_mask ds) la)
    /\ lon g' = Some (o :: select (nonzero_mask ds) lo)
    /\ (is_Some (ele g') <-> is_Some (ele g))
    /\ (is_Some (tstamp g') <-> is_Some (tstamp g))
    /\ tz g' = tz g
    /\ (forall i x, ds !! i = Some x ->
          nonzero_mask ds !! i = Some (if Req_dec_T x 0 then false else true))
    /\ (Forall (fun x => x <> 0) ds -> g' = g).
Proof.
  intros Hla Hlo Hlen Hele Hts.
  destruct (Fl_remove_duplicates_mask ops g a o la lo Hla Hlo Hlen Hele Hts)
    as (ds & Hd & Hds & Hrd).
  exists ds, (apply_mask (true :: nonzero_mask ds) g).
  split; [exact Hd|]. split; [exact Hds|]. split; [exact Hrd|].
  split; [reflexivity|]. unfold apply_mask. cbn [lat lon ele tstamp tz].
  split; [now rewrite Hla|]. split; [now rewrite Hlo|].
  split; [now rewrite fmap_is_Some|]. split; [now rewrite fmap_is_Some|].
  split; [reflexivity|]. split.
  - intros i x Hx. unfold nonzero_mask. rewrite list_lookup_fmap, Hx.
    reflexivity.
  - intros Hnz. apply (apply_mask_all_true _ g (a :: la)).
    + exact Hla.
    + unfold nonzero_mask. cbn [length]. rewrite length_fmap. lia.
    + rewrite Hlo. simpl. lia.
    + exact Hele.
    + exact Hts.
    + constructor; [reflexivity|]. unfold nonzero_mask.
      apply Forall_fmap. eapply Forall_impl; [exact Hnz|].
      intros x Hx. simpl. destruct (Req_dec_T x 0); [contradiction|reflexivity].
Qed.

Lemma gpx_remove_duplicates_kept_witness :
  exists ds g',
    Fl.gpx_remove_duplicates exact_ops
      (mkGPXData (Some [1; 1; 2]) (Some [3; 3; 3]) None (Some [0; 5; 9]) None)
    = Ok g'
    /\ g' = apply_mask (true :: nonzero_mask ds)
              (mkGPXData (Some [1; 1; 2]) (Some [3; 3; 3]) None
                         (Some [0; 5; 9]) None)
    /\ length ds = 2%nat.
Proof.
  destruct (gpx_remove_duplicates_kept exact_ops
              (mkGPXData (Some [1; 1; 2]) (Some [3; 3; 3]) None
                         (Some [0; 5; 9]) None)
              1 3 [1; 2] [3; 3] eq_refl eq_refl eq_refl I eq_refl)
    as (ds & g' & _ & Hds & Hrd & Hg' & _).
  exists ds, g'. split; [exact Hrd|]. split; [exact Hg'|exact Hds].
Defined.

(** ** [gpx_interpolate] on a track that keeps a single point *)

(** X9. If every distance that [gpx_remove_duplicates] computes for a track
    is zero (as on a track of one point), a single point is kept and the
    interpolator is called with the single knot 0, whatever the rounding of
    the arithmetic is.  Hence, if the interpolator raises an exception on a
    single knot, [gpx_interpolate] raises that exception for every number
    of points [num >= 0]. *)
Theorem gpx_interpolate_single_knot (ops : float_ops)
    (pchip : list R -> list (list R) -> list R -> result (list (list R)))
    (g : GPXData) (a o : R) (la lo d0 : list R) (dist : R) (e : exn) :
  lat g = Some (a :: la) -> lon g = Some (o :: lo) -> length lo = length la ->
  chan_len_ok (S (length la)) (ele g) ->
  chan_len_ok (S (length la)) (tstamp g) ->
  Fl.gpx_calculate_distance ops g false = Ok d0 ->
  Forall (fun x => x = 0) d0 ->
  (forall yi x, pchip [0] yi x = Raise e) ->
  Fl.gpx_remove_duplicates ops g
  = Ok (apply_mask (true :: replicate (length la) false) g)
  /\ forall k, (0 <= k)%Z ->
       Fl.gpx_interpolate ops pchip g dist (Some k) = Raise e.
Proof.
  intros Hla Hlo Hlen Hele Hts Hd0 Hzero Hpchip.
  destruct (Fl_remove_duplicates_mask ops g a o la lo Hla Hlo Hlen Hele Hts)
    as (ds & Hd & Hds & Hrd).
  assert (d0 = 0 :: ds) as -> by congruence.
  apply Forall_cons in Hzero as [_ Hzero].
  rewrite (nonzero_mask_zero ds Hzero), Hds in Hrd.
  split; [exact Hrd|].
  set (g' := apply_mask (true :: replicate (length la) false) g) in *.
  assert (Hla' : lat g' = Some [a]).
  { unfold g', apply_mask. cbn [lat]. rewrite Hla.
    cbn [fmap option_fmap option_map select]. now rewrite select_none. }
  assert (Hlo' : lon g' = Some [o]).
  { unfold g', apply_mask. cbn [lon]. rewrite Hlo.
    cbn [fmap option_fmap option_map select]. now rewrite select_none. }
  assert (Hd1 : Fl.gpx_calculate_distance ops g' true = Ok [0]).
  { unfold Fl.gpx_calculate_distance. rewrite Hla'. reflexivity. }
  assert (Hrows : np_array (present_rows g') = Ok (present_rows g')).
  { apply (np_array_ok _ 1). rewrite present_rows_eq.
    rewrite !Forall_app. repeat split; apply (chan_rows_len_ok 0).
    - rewrite Hla'. reflexivity.
    - rewrite Hlo'. reflexivity.
    - apply select_first_only, Hele.
    - apply select_first_only, Hts. }
  intros k Hk. unfold Fl.gpx_interpolate, all_empty.
  rewrite Hla. cbn [truthy negb andb]. rewrite Hrd. cbn [bind].
  rewrite Hd1. cbn [bind Fl.np_cumsum Fl.cumsum_from]. rewrite Hrows.
  cbn [bind].
  change (first_elem [0]) with (@Ok R 0).
  change (last_elem [0]) with (@Ok R 0). cbn [bind].
  destruct (np_linspace_spec 0 0 k Hk (Rle_refl 0)) as (x & -> & _).
  cbn [bind]. rewrite Hpchip. reflexivity.
Qed.

Lemma gpx_interpolate_single_knot_witness :
  Fl.gpx_interpolate exact_ops pchip_model
    (mkGPXData (Some [1; 1]) (Some [2; 2]) None (Some [0; 9]) None) 1
    (Some 5%Z)
  = Raise (ValueError "x must contain at least 2 elements").
Proof.
  destruct (gpx_interpolate_single_knot exact_ops pchip_model
              (mkGPXData (Some [1; 1]) (Some [2; 2]) None (Some [0; 9]) None)
              1 2 [1] [2] [0; gc_points (1, 2) (1, 2)] 1
              (ValueError "x must contain at least 2 elements")
              eq_refl eq_refl eq_refl I eq_refl) as (_ & Hnum).
  - rewrite Fl_distance_exact.
    apply (gpx_calculate_distance_steps _ [1; 1] [2; 2] 1 2 [1] [2]);
      reflexivity || exact I.
  - constructor; [reflexivity|].
    constructor; [apply (gc_points_same (1, 2))|constructor].
  - intros yi x. reflexivity.
  - apply Hnum. lia.
Defined.

(** ** Why the cumulative distances must be strictly increasing *)

Lemma Fl_dist_latlon_equator (lon1 lon2 : R) :
  Fl.dist_latlon absorbing_ops 0 lon1 0 lon2 = dist_latlon 0 lon1 0 lon2.
Proof.
  unfold Fl.dist_latlon, dist_latlon. cbv zeta.
  cbn [f_add f_sub f_mul f_div f_sq f_sqrt f_sin f_cos f_asin f_radians
       absorbing_ops].
  assert (Hz : sin ((radians 0 - radians 0) / 2) ^ 2 = 0).
  { replace ((radians 0 - radians 0) / 2) with 0 by lra.
    rewrite sin_0. lra. }
  destruct (Req_dec_T (sin ((radians 0 - radians 0) / 2) ^ 2) 0) as [_|Hne];
    [|contradiction].
  rewrite Hz, Rplus_0_l. reflexivity.
Qed.

(** When the addition absorbs, the cumulative distances stop increasing and
    the interpolator refuses them, on a track that the exact arithmetic
    interpolates: out and back along the equator.  So the condition of the
    theorems above on the cumulative distances, as computed, is needed. *)
Lemma stalled_axis_raises :
  Fl.gpx_interpolate absorbing_ops pchip_model
    (mkGPXData (Some [0; 0; 0]) (Some [0; 180; 0]) None None None) 1
    (Some 3%Z)
  = Raise (ValueError "x must be strictly increasing").
Proof.
  set (g := mkGPXData (Some [0; 0; 0]) (Some [0; 180; 0]) None None None).
  set (D1 := dist_latlon 0 0 0 180). set (D2 := dist_latlon 0 180 0 0).
  assert (HD1 : D1 <> 0).
  { unfold D1. rewrite dist_latlon_great_circle.
    apply equator_opposite_points. }
  assert (HD2 : D2 <> 0).
  { unfold D2. rewrite dist_latlon_great_circle. intros Hz.
    apply equator_opposite_points.
    apply (gc_points_zero_iff (0, 0) (0, 180)). symmetry.
    apply (gc_points_zero_iff (0, 180) (0, 0)). exact Hz. }
  assert (Hdist : forall u,
            Fl.gpx_calculate_distance absorbing_ops g u = Ok [0; D1; D2]).
  { intros u. unfold Fl.gpx_calculate_distance, for_range, g.
    cbn [py_len lat bind length replicate Nat.sub for_range_from].
    unfold Fl.distance_body.
    cbn [py_get lat lon ele truthy andb lookup list_lookup Nat.add bind].
    rewrite !Fl_dist_latlon_equator. reflexivity. }
  destruct (Fl_remove_duplicates_mask absorbing_ops g 0 0 [0; 0] [180; 0]
              eq_refl eq_refl eq_refl I I) as (ds & Hd & _ & Hrd).
  rewrite Hdist in Hd. injection Hd as <-.
  assert (Hmask : nonzero_mask [D1; D2] = [true; true]).
  { unfold nonzero_mask. cbn [fmap list_fmap].
    destruct (Req_dec_T D1 0); [contradiction|].
    destruct (Req_dec_T D2 0); [contradiction|]. reflexivity. }
  rewrite Hmask in Hrd.
  change (apply_mask [true; true; true] g) with g in Hrd.
  unfold Fl.gpx_interpolate. change (all_empty g) with false. cbv iota.
  rewrite Hrd. cbn [bind]. rewrite Hdist. cbn [bind].
  cbn [Fl.np_cumsum Fl.cumsum_from f_add absorbing_ops].
  destruct (Req_dec_T 0 0) as [_|Hne]; [|contradiction].
  destruct (Req_dec_T D1 0) as [Hz|_]; [contradiction|].
  change (np_array (present_rows g)) with (Ok [[0; 0; 0]; [0; 180; 0]]).
  cbn [bind first_elem last_elem head last].
  unfold np_linspace. cbn [Z.ltb Z.compare]. cbn [bind].
  unfold pchip_model.
  cbn [length Nat.ltb Nat.leb forallb Nat.eqb andb negb increasingb].
  destruct (Rlt_dec 0 D1); [|reflexivity].
  destruct (Rlt_dec D1 D1) as [Hlt|_]; [lra|reflexivity].
Qed.
